(** * GitHub contribution analytics: a shallow embedding of the three tools

    Part I models the code, module by module, in the layout of the
    repository:

    - [Py]             the Python values the tools compute with: exceptions,
                       datetimes (naive and aware), rounding, JSON documents,
                       completed subprocesses;
    - [PatModels]      pr-analyser-pat/pr_analyser/models.py;
    - [Analyzer]       pr-analyser/pr_analyser/analyzer.py;
    - [Re]             the part of Python's [re] that the tools use;
    - [EnhanceScript]  github-pr-scraper/enhance_pr_data.py;
    - [ScraperModels]  github-pr-scraper/github_pr_scraper/models.py;
    - [CLIAnalyzer]    github-pr-scraper/github_pr_scraper/cli_analyzer.py;
    - [ScraperExporter] the summary statistics of
                       github-pr-scraper/github_pr_scraper/exporter.py;
    - [ScraperCLI]     the result record that
                       github-pr-scraper/github_pr_scraper/cli.py builds.

    Part II states and proves the properties, in modules of facts that
    follow the modules of the model.

    Python [int] is [Z]; a finite Python [float] is the rational [Q] it
    represents, and every float operation rounds its exact result with a
    rounding [fl] (see [Py.float_rounding]); a [str] is a [string] of
    bytes; a list is a [list]; a [dict] that is only looked up is a
    [gmap]; a [dict] whose insertion order matters is an association
    list.  Code that can raise returns [Py.result].  What the environment
    decides (the GitHub CLI, the JSON and ISO-8601 parsers of the standard
    library, the iteration order of hash sets, the current date, the
    rounding of floats) is a [Variable] of the section that uses it. *)

From stdpp Require Import gmap strings.
From Stdlib Require Import ZArith QArith Qround Qminmax Lqa String Ascii List Lia Permutation Bool.
From Stdlib Require Import DecimalString Sorted.
Import ListNotations.

Set Implicit Arguments.

(* ===================================================================== *)
(** * Part I: the model                                                    *)
(* ===================================================================== *)

Module Py.

(** Exceptions of the Python runtime that the modelled code can meet. *)
Inductive exn : Type :=
| KeyError (key : string)
| ValueError
| TypeError
| ZeroDivisionError.

Inductive result (A : Type) : Type :=
| Ok (a : A)
| Raise (e : exn).

Arguments Ok {A} a.
Arguments Raise {A} e.

Definition bind {A B : Type} (m : result A) (k : A -> result B) : result B :=
  match m with
  | Ok a => k a
  | Raise e => Raise e
  end.

(** [datetime.datetime]: the wall-clock reading in microseconds on the
    proleptic timeline, and the UTC offset (in microseconds) of an aware
    value; [None] is a naive value. *)
Record datetime : Type := {
  wall : Z;
  utcoffset : option Z
}.

Definition microseconds_per_day : Z := 86400000000.

(** [dt.date()], as a day number. *)
Definition date (dt : datetime) : Z := (wall dt / microseconds_per_day)%Z.

(** [a - b] on datetimes, in microseconds; mixing a naive and an aware
    value raises [TypeError]. *)
Definition dt_sub (a b : datetime) : result Z :=
  match utcoffset a, utcoffset b with
  | None, None => Ok (wall a - wall b)%Z
  | Some oa, Some ob => Ok ((wall a - oa) - (wall b - ob))%Z
  | _, _ => Raise TypeError
  end.

(** [a < b] on datetimes. *)
Definition dt_lt (a b : datetime) : result bool :=
  bind (dt_sub a b) (fun d => Ok (d <? 0)%Z).

(** [a > b] on datetimes. *)
Definition dt_gt (a b : datetime) : result bool := dt_lt b a.

(** Floating point.  A [float] is the rational it represents, and a
    float operation is the exact operation followed by the rounding [fl]
    to the nearest double.  Of [fl] only two facts are used: it is
    monotone, and it leaves every [n / 2^k] with [|n| <= 2^53] and
    [k <= 1074] as it is (these are doubles).  NaN and the infinities are
    not values of the model. *)
Record float_rounding (fl : Q -> Q) : Prop := {
  fl_monotone : forall a b : Q, (a <= b)%Q -> (fl a <= fl b)%Q;
  fl_exact :
    forall (n : Z) (k : N),
      (Z.abs n <= 2 ^ 53)%Z -> (k <= 1074)%N ->
      (fl (inject_Z n / inject_Z (2 ^ Z.of_N k))
       == inject_Z n / inject_Z (2 ^ Z.of_N k))%Q
}.

(** Arithmetic without rounding. *)
Definition exact (q : Q) : Q := q.

(** The nearest integer to an exact value, ties to the even one. *)
Definition round_half_even (q : Q) : Z :=
  let f := Qfloor q in
  let r := (q - inject_Z f)%Q in
  match (r ?= 1 # 2)%Q with
  | Lt => f
  | Gt => (f + 1)%Z
  | Eq => if Z.even f then f else (f + 1)%Z
  end.

(** The nearest multiple of 1/100 to an exact value, ties to the even
    one. *)
Definition round2 (q : Q) : Q := (round_half_even (q * 100) # 100)%Q.

(** [round(x, 2)]: the double nearest to [x] rounded to 2 decimal
    places. *)
Definition round (fl : Q -> Q) (x : Q) : Q := fl (round2 x).

(** [float(n)] *)
Definition float (fl : Q -> Q) (n : Z) : Q := fl (inject_Z n).

(** [sum] of a list of integers. *)
Definition sum (l : list Z) : Z := fold_left Z.add l 0%Z.

(** [s[:n]] *)
Fixpoint take_chars (n : nat) (s : string) : string :=
  match n, s with
  | S n', String c s' => String c (take_chars n' s')
  | _, _ => EmptyString
  end.

(** [s.split('\n')[0]] *)
Fixpoint first_line (s : string) : string :=
  match s with
  | EmptyString => EmptyString
  | String c s' => if Ascii.eqb c "010"%char then EmptyString else String c (first_line s')
  end.

(** A parsed JSON document. *)
#[warnings="-register-all"]
Inductive json : Type :=
| JNull
| JBool (b : bool)
| JNum (z : Z)
| JStr (s : string)
| JArr (items : list json)
| JObj (fields : list (string * json)).

(** Truth value of a parsed JSON document, as [if pr_details:] takes it. *)
Definition truthy (j : json) : bool :=
  match j with
  | JNull => false
  | JBool b => b
  | JNum z => negb (z =? 0)%Z
  | JStr s => negb (String.eqb s "")
  | JArr items => negb (Nat.eqb (length items) 0)
  | JObj fields => negb (Nat.eqb (length fields) 0)
  end.

(** The completed process that [subprocess.run] returns. *)
Record CompletedProcess : Type := {
  returncode : Z;
  stdout : string;
  stderr : string
}.

(** [a / b] on integers: the correctly rounded quotient,
    [ZeroDivisionError] when [b] is 0. *)
Definition truediv (fl : Q -> Q) (a b : Z) : result Q :=
  if (b =? 0)%Z then Raise ZeroDivisionError
  else Ok (fl (inject_Z a / inject_Z b))%Q.

(** [str(n)] of an integer. *)
Definition str_of_int (n : Z) : string := NilZero.string_of_int (Z.to_int n).

(** [sorted(xs, key=key, reverse=True)].  The sort is stable: elements
    with equal keys keep their order. *)
Fixpoint insert_reverse {A : Type} (key : A -> Z) (x : A) (l : list A) : list A :=
  match l with
  | [] => [x]
  | y :: l' => if (key x <? key y)%Z then y :: insert_reverse key x l' else x :: y :: l'
  end.

Definition sorted_reverse_by {A : Type} (key : A -> Z) (l : list A) : list A :=
  fold_right (insert_reverse key) [] l.

(** [sorted(xs)] on strings, which compare by code point. *)
Fixpoint insert_str (x : string) (l : list string) : list string :=
  match l with
  | [] => [x]
  | y :: l' => if String.ltb y x then y :: insert_str x l' else x :: y :: l'
  end.

Definition sorted_str (l : list string) : list string := fold_right insert_str [] l.

(** [sorted(xs)] on integers. *)
Fixpoint insert_int (x : Z) (l : list Z) : list Z :=
  match l with
  | [] => [x]
  | y :: l' => if (y <? x)%Z then y :: insert_int x l' else x :: y :: l'
  end.

Definition sorted_int (l : list Z) : list Z := fold_right insert_int [] l.

(** [xs[:n]]: a negative [n] counts from the end. *)
Definition slice_to {A : Type} (n : Z) (xs : list A) : list A :=
  if (0 <=? n)%Z then firstn (Z.to_nat n) xs
  else firstn (length xs - Z.to_nat (- n)) xs.

(** [sep.join(parts)] *)
Fixpoint join (sep : string) (parts : list string) : string :=
  match parts with
  | [] => EmptyString
  | [part] => part
  | part :: rest => (part ++ sep ++ join sep rest)%string
  end.

(** The point in time of a datetime: its reading at UTC for an aware
    value, its wall-clock reading for a naive one. *)
Definition instant (dt : datetime) : Z :=
  match utcoffset dt with
  | Some offset => (wall dt - offset)%Z
  | None => wall dt
  end.

(** Whether a datetime is aware. *)
Definition aware (dt : datetime) : bool :=
  match utcoffset dt with
  | Some _ => true
  | None => false
  end.

End Py.

(* --------------------------------------------------------------------- *)
(** ** pr-analyser-pat/pr_analyser/models.py                              *)
(* --------------------------------------------------------------------- *)

Module PatModels.

Record PRData : Type := {
  id : Z;
  number : Z;
  title : string;
  description : string;
  repository : string;
  author : string;
  state : string;  (* open, closed *)
  merged : bool;
  created_at : Py.datetime;
  updated_at : Py.datetime;
  merged_at : option Py.datetime;
  closed_at : option Py.datetime;
  source_branch : string;
  target_branch : string;
  additions : Z;
  deletions : Z;
  changed_files : Z;
  comments_count : Z;
  reviewers : list string;
  labels : list string
}.

(** [PRData.total_changes] *)
Definition total_changes (pr : PRData) : Z := (additions pr + deletions pr)%Z.

(** [PRData.status] *)
Definition status (pr : PRData) : string :=
  if merged pr then "merged"%string else state pr.

Record CommitData : Type := {
  sha : string;
  message : string;
  c_repository : string;
  c_author : string;
  author_email : string;
  authored_date : Py.datetime;
  committed_date : Py.datetime;
  c_additions : Z;
  c_deletions : Z;
  c_total_changes : Z;
  files_changed : list string
}.

(** [CommitData.short_sha] *)
Definition short_sha (c : CommitData) : string := Py.take_chars 7 (sha c).

(** [CommitData.short_message] *)
Definition short_message (c : CommitData) : string := Py.first_line (message c).

Record AnalysisResult : Type := {
  user : string;
  organization : string;
  analysis_date : Py.datetime;
  date_range : list (string * string);
  total_prs : Z;
  total_commits : Z;
  repositories_contributed : Z;
  pull_requests : list PRData;
  commits : list CommitData
}.

(** [sum(1 for x in xs if p(x))] *)
Definition count_if {A : Type} (p : A -> bool) (xs : list A) : Z :=
  Py.sum (map (fun _ => 1%Z) (List.filter p xs)).

(** [AnalysisResult.merged_prs] *)
Definition merged_prs (r : AnalysisResult) : Z :=
  count_if (fun pr => merged pr) (pull_requests r).

(** [AnalysisResult.open_prs] *)
Definition open_prs (r : AnalysisResult) : Z :=
  count_if (fun pr => String.eqb (state pr) "open") (pull_requests r).

(** [AnalysisResult.closed_prs] *)
Definition closed_prs (r : AnalysisResult) : Z :=
  count_if (fun pr => String.eqb (state pr) "closed" && negb (merged pr)) (pull_requests r).

(** [AnalysisResult.total_lines_added] *)
Definition total_lines_added (r : AnalysisResult) : Z :=
  Py.sum (map additions (pull_requests r)).

(** [AnalysisResult.total_lines_deleted] *)
Definition total_lines_deleted (r : AnalysisResult) : Z :=
  Py.sum (map deletions (pull_requests r)).

(** [AnalysisResult.total_files_changed] *)
Definition total_files_changed (r : AnalysisResult) : Z :=
  Py.sum (map changed_files (pull_requests r)).

(** [AnalysisResult.average_pr_size] *)
Definition average_pr_size (fl : Q -> Q) (r : AnalysisResult) : Py.result Q :=
  match pull_requests r with
  | [] => Py.Ok 0%Q
  | _ :: _ =>
      Py.truediv fl (Py.sum (map total_changes (pull_requests r)))
                 (Z.of_nat (length (pull_requests r)))
  end.

(** The result restricted to the pull requests [prs]. *)
Definition with_prs (r : AnalysisResult) (prs : list PRData) : AnalysisResult :=
  {| user := user r;
     organization := organization r;
     analysis_date := analysis_date r;
     date_range := date_range r;
     total_prs := total_prs r;
     total_commits := total_commits r;
     repositories_contributed := repositories_contributed r;
     pull_requests := prs;
     commits := commits r |}.

(** How many of the three counts a single pull request enters. *)
Definition times_counted (r : AnalysisResult) (pr : PRData) : Z :=
  (merged_prs (with_prs r [pr]) + open_prs (with_prs r [pr])
   + closed_prs (with_prs r [pr]))%Z.

(** The three counts partition the list: every pull request enters
    exactly one of them. *)
Definition partitions (r : AnalysisResult) : Prop :=
  forall pr, In pr (pull_requests r) -> times_counted r pr = 1%Z.

(** A pull request, given its raw state and merged flag. *)
Definition pr_with (st : string) (m : bool) : PRData :=
  {| id := 1; number := 1; title := "Test"; description := "";
     repository := "test"; author := "user"; state := st; merged := m;
     created_at := {| Py.wall := 0; Py.utcoffset := None |};
     updated_at := {| Py.wall := 0; Py.utcoffset := None |};
     merged_at := None; closed_at := None;
     source_branch := "feature"; target_branch := "main";
     additions := 10; deletions := 5; changed_files := 2; comments_count := 0;
     reviewers := []; labels := [] |}.

(** A result holding the pull requests [prs] and no commits. *)
Definition result_of_prs (prs : list PRData) : AnalysisResult :=
  {| user := "testuser"; organization := "testorg";
     analysis_date := {| Py.wall := 0; Py.utcoffset := None |};
     date_range := [];
     total_prs := Z.of_nat (length prs); total_commits := 0;
     repositories_contributed := 1;
     pull_requests := prs; commits := [] |}.

End PatModels.

(* --------------------------------------------------------------------- *)
(** ** pr-analyser/pr_analyser/analyzer.py                                *)
(* --------------------------------------------------------------------- *)

(** The analyzer imports its records from the [models] module of its own
    package; both analyser variants share the data model, and the records
    of [PatModels] are the ones used here.  A [pandas.DataFrame] is the
    list of its rows; a column sum is the exact integer sum. *)

Module Analyzer.
Import PatModels.

Record PRRow : Type := {
  pr_id : Z;
  pr_number : Z;
  pr_title : string;
  pr_repository : string;
  pr_status : string;
  pr_created_at : Py.datetime;
  pr_merged_at : option Py.datetime;
  pr_closed_at : option Py.datetime;
  pr_additions : Z;
  pr_deletions : Z;
  pr_total_changes : Z;
  pr_changed_files : Z;
  pr_comments_count : Z;
  pr_reviewers_count : Z;
  pr_labels_count : Z
}.

Record CommitRow : Type := {
  cm_sha : string;
  cm_short_sha : string;
  cm_message : string;
  cm_repository : string;
  cm_authored_date : Py.datetime;
  cm_committed_date : Py.datetime;
  cm_additions : Z;
  cm_deletions : Z;
  cm_total_changes : Z;
  cm_files_changed_count : Z
}.

Record ContributionMetrics : Type := {
  total_contributions : Z;
  prs_created : Z;
  prs_merged : Z;
  prs_closed : Z;
  commits_made : Z;
  lines_added : Z;
  lines_deleted : Z;
  files_modified : Z;
  repositories_touched : Z;
  average_pr_size : Q;
  merge_rate : Q;
  most_active_repository : string;
  contribution_streak : Z
}.

(** [len(xs)] *)
Definition len {A : Type} (xs : list A) : Z := Z.of_nat (length xs).

(** [df.empty] *)
Definition empty {A : Type} (df : list A) : bool :=
  match df with
  | [] => true
  | _ :: _ => false
  end.

(** [max(a, b)]: the first argument unless the second is greater. *)
Definition max2 (a b : Z) : Z := if (b >? a)%Z then b else a.

(** [int(x)] of an integral value. *)
Definition int (x : Z) : Z := x.

(** [series.mean()] of a non-empty integer column. *)
Definition mean (fl : Q -> Q) (col : list Z) : Q :=
  fl (Py.float fl (Py.sum col) / inject_Z (len col))%Q.

(** [DataAnalyzer._create_pr_dataframe] *)
Definition _create_pr_dataframe (result : AnalysisResult) : list PRRow :=
  map (fun pr =>
         {| pr_id := id pr;
            pr_number := number pr;
            pr_title := title pr;
            pr_repository := repository pr;
            pr_status := status pr;
            pr_created_at := created_at pr;
            pr_merged_at := merged_at pr;
            pr_closed_at := closed_at pr;
            pr_additions := additions pr;
            pr_deletions := deletions pr;
            pr_total_changes := total_changes pr;
            pr_changed_files := changed_files pr;
            pr_comments_count := comments_count pr;
            pr_reviewers_count := len (reviewers pr);
            pr_labels_count := len (labels pr) |})
      (pull_requests result).

(** [DataAnalyzer._create_commit_dataframe] *)
Definition _create_commit_dataframe (result : AnalysisResult) : list CommitRow :=
  map (fun commit =>
         {| cm_sha := sha commit;
            cm_short_sha := short_sha commit;
            cm_message := short_message commit;
            cm_repository := c_repository commit;
            cm_authored_date := authored_date commit;
            cm_committed_date := committed_date commit;
            cm_additions := c_additions commit;
            cm_deletions := c_deletions commit;
            cm_total_changes := c_total_changes commit;
            cm_files_changed_count := len (files_changed commit) |})
      (commits result).

Record DataAnalyzer : Type := {
  result : AnalysisResult;
  pr_df : list PRRow;
  commit_df : list CommitRow
}.

(** [DataAnalyzer.__init__] *)
Definition __init__ (r : AnalysisResult) : DataAnalyzer :=
  {| result := r;
     pr_df := _create_pr_dataframe r;
     commit_df := _create_commit_dataframe r |}.

(** [series.unique()]: the distinct values, in order of first appearance. *)
Fixpoint unique_from (seen : list Z) (l : list Z) : list Z :=
  match l with
  | [] => []
  | x :: l' =>
      if existsb (Z.eqb x) seen then unique_from seen l'
      else x :: unique_from (x :: seen) l'
  end.

Definition unique (l : list Z) : list Z := unique_from [] l.

(** [sorted(xs, reverse=True)] *)
Fixpoint insert_desc (x : Z) (l : list Z) : list Z :=
  match l with
  | [] => [x]
  | y :: l' => if (y <? x)%Z then x :: y :: l' else y :: insert_desc x l'
  end.

Definition sorted_reverse (l : list Z) : list Z := fold_right insert_desc [] l.

(** The [for commit_date in commit_dates] loop of
    [_calculate_contribution_streak], from the loop state
    [(streak, current_date)]. *)
Fixpoint streak_loop (commit_dates : list Z) (streak current_date : Z) : Z :=
  match commit_dates with
  | [] => streak
  | commit_date :: rest =>
      if (current_date - commit_date =? streak)%Z
      then streak_loop rest (streak + 1)%Z commit_date
      else streak
  end.

(** [collections.Counter(xs)]: the counts, keyed in order of first
    insertion. *)
Fixpoint counter_add (k : string) (c : list (string * Z)) : list (string * Z) :=
  match c with
  | [] => [(k, 1%Z)]
  | (k', n) :: c' =>
      if String.eqb k k' then (k', (n + 1)%Z) :: c' else (k', n) :: counter_add k c'
  end.

Definition Counter (xs : list string) : list (string * Z) :=
  fold_left (fun c k => counter_add k c) xs [].

(** [counter[k]]: the count held for a key, 0 when the key is absent. *)
Fixpoint tally (k : string) (c : list (string * Z)) : Z :=
  match c with
  | [] => 0%Z
  | (k', n) :: c' => if String.eqb k k' then n else tally k c'
  end.

(** [max(items, key=itemgetter(1))] over a non-empty sequence headed by
    [best]: the first item holding the largest count. *)
Fixpoint max_by_count (best : string * Z) (items : list (string * Z)) : string * Z :=
  match items with
  | [] => best
  | it :: items' =>
      if (snd it >? snd best)%Z then max_by_count it items' else max_by_count best items'
  end.

(** [counter.most_common(1)], which is [heapq.nlargest(1, items, key=count)]. *)
Definition most_common_1 (c : list (string * Z)) : list (string * Z) :=
  match c with
  | [] => []
  | it :: items => [max_by_count it items]
  end.

Section WithEnvironment.

(** [list(set(xs))]: the distinct elements of [xs] in the iteration order
    of the interpreter's hash set. *)
Variable set_iter : list string -> list string.

(** [datetime.now().date()] *)
Variable today : Z.

(** The rounding of float operations. *)
Variable fl : Q -> Q.

(** [DataAnalyzer._calculate_contribution_streak] *)
Definition _calculate_contribution_streak (self : DataAnalyzer) : Z :=
  if empty (commit_df self) then 0%Z
  else
    let commit_dates := unique (map (fun row => Py.date (cm_authored_date row)) (commit_df self)) in
    let commit_dates := sorted_reverse commit_dates in
    if empty commit_dates then 0%Z
    else streak_loop commit_dates 0%Z today.

(** [DataAnalyzer.calculate_contribution_metrics] *)
Definition calculate_contribution_metrics (self : DataAnalyzer) : ContributionMetrics :=
  if empty (pr_df self) && empty (commit_df self) then
    {| total_contributions := 0;
       prs_created := 0;
       prs_merged := 0;
       prs_closed := 0;
       commits_made := 0;
       lines_added := 0;
       lines_deleted := 0;
       files_modified := 0;
       repositories_touched := 0;
       average_pr_size := 0;
       merge_rate := 0;
       most_active_repository := "";
       contribution_streak := 0 |}
  else
    (* PR metrics *)
    let prs_created := if negb (empty (pr_df self)) then len (pr_df self) else 0%Z in
    let prs_merged :=
      if negb (empty (pr_df self))
      then len (List.filter (fun row => String.eqb (pr_status row) "merged") (pr_df self))
      else 0%Z in
    let prs_closed :=
      if negb (empty (pr_df self))
      then len (List.filter (fun row => String.eqb (pr_status row) "closed") (pr_df self))
      else 0%Z in
    (* Commit metrics *)
    let commits_made := if negb (empty (commit_df self)) then len (commit_df self) else 0%Z in
    (* Lines and files metrics *)
    let pr_lines_added :=
      if negb (empty (pr_df self)) then Py.sum (map pr_additions (pr_df self)) else 0%Z in
    let pr_lines_deleted :=
      if negb (empty (pr_df self)) then Py.sum (map pr_deletions (pr_df self)) else 0%Z in
    let pr_files_modified :=
      if negb (empty (pr_df self)) then Py.sum (map pr_changed_files (pr_df self)) else 0%Z in
    let commit_lines_added :=
      if negb (empty (commit_df self)) then Py.sum (map cm_additions (commit_df self)) else 0%Z in
    let commit_lines_deleted :=
      if negb (empty (commit_df self)) then Py.sum (map cm_deletions (commit_df self)) else 0%Z in
    let commit_files_modified :=
      if negb (empty (commit_df self))
      then Py.sum (map cm_files_changed_count (commit_df self)) else 0%Z in
    let lines_added := max2 pr_lines_added commit_lines_added in
    let lines_deleted := max2 pr_lines_deleted commit_lines_deleted in
    let files_modified := max2 pr_files_modified commit_files_modified in
    (* Repository metrics *)
    let pr_repos :=
      if negb (empty (pr_df self)) then set_iter (map pr_repository (pr_df self)) else [] in
    let commit_repos :=
      if negb (empty (commit_df self)) then set_iter (map cm_repository (commit_df self)) else [] in
    let repositories_touched := len (set_iter (pr_repos ++ commit_repos)) in
    (* Averages and rates *)
    let average_pr_size :=
      if negb (empty (pr_df self)) then mean fl (map pr_total_changes (pr_df self))
      else 0%Q in
    let merge_rate :=
      if (prs_created >? 0)%Z
      then fl (fl (inject_Z prs_merged / inject_Z prs_created) * 100)%Q else 0%Q in
    (* Most active repository *)
    let all_repos := pr_repos ++ commit_repos in
    let repo_counter := Counter all_repos in
    let most_active_repository :=
      match most_common_1 repo_counter with
      | (name, _) :: _ => name
      | [] => ""%string
      end in
    let contribution_streak := _calculate_contribution_streak self in
    {| total_contributions := prs_created + commits_made;
       prs_created := prs_created;
       prs_merged := prs_merged;
       prs_closed := prs_closed;
       commits_made := commits_made;
       lines_added := int lines_added;
       lines_deleted := int lines_deleted;
       files_modified := int files_modified;
       repositories_touched := repositories_touched;
       average_pr_size := Py.round fl average_pr_size;
       merge_rate := Py.round fl merge_rate;
       most_active_repository := most_active_repository;
       contribution_streak := contribution_streak |}.

End WithEnvironment.

(** A hash set iterates over each distinct element once, in some order. *)
Definition set_iter_ok (set_iter : list string -> list string) : Prop :=
  forall xs, Permutation (set_iter xs) (nodup string_dec xs).

(** The combined number of PR rows and commit rows of a repository. *)
Definition combined_row_count (self : DataAnalyzer) (repo : string) : Z :=
  (len (List.filter (fun row => String.eqb (pr_repository row) repo) (pr_df self))
   + len (List.filter (fun row => String.eqb (cm_repository row) repo) (commit_df self)))%Z.

(** [0 + 1 + ... + i] *)
Fixpoint triangular (i : nat) : nat :=
  match i with
  | O => O
  | S j => (triangular j + S j)%nat
  end.

(** The day on which the streak loop expects its [i]-th commit date
    (counting from 0): [0 + 1 + ... + i] days before today. *)
Definition expected_day (today : Z) (i : nat) : Z :=
  (today - Z.of_nat (triangular i))%Z.

(** The days on which the result has a commit. *)
Definition commit_days (r : AnalysisResult) : list Z :=
  map (fun c => Py.date (authored_date c)) (commits r).

(** The distinct commit days, latest first, as the streak loop walks
    them. *)
Definition commit_dates (r : AnalysisResult) : list Z :=
  sorted_reverse (unique (commit_days r)).

(** *** Breakdown by repository *)

(** An entry of [repo_stats]. *)
Record RepoStats : Type := {
  rs_prs : Z;
  rs_commits : Z;
  rs_lines_added : Z;
  rs_lines_deleted : Z;
  rs_files_changed : Z
}.

(** The value a missing key of [repo_stats] is created with. *)
Definition RepoStats_default : RepoStats :=
  {| rs_prs := 0; rs_commits := 0; rs_lines_added := 0; rs_lines_deleted := 0;
     rs_files_changed := 0 |}.

(** [df.groupby('repository')]: one group for each distinct repository
    name, in sorted order of the names, holding the rows of that
    repository in their order. *)
Definition groupby {A : Type} (repository : A -> string) (df : list A)
  : list (string * list A) :=
  map (fun repo => (repo, List.filter (fun row => String.eqb (repository row) repo) df))
      (Py.sorted_str (nodup string_dec (map repository df))).

(** [repo_stats[repo]] is read and written in place: a missing key is
    first appended with the default entry. *)
Fixpoint update (repo : string) (f : RepoStats -> RepoStats)
    (repo_stats : list (string * RepoStats)) : list (string * RepoStats) :=
  match repo_stats with
  | [] => [(repo, f RepoStats_default)]
  | (repo', stats) :: rest =>
      if String.eqb repo repo' then (repo', f stats) :: rest
      else (repo', stats) :: update repo f rest
  end.

(** [repo_stats.get(repo)] *)
Fixpoint stats_of (repo : string) (repo_stats : list (string * RepoStats))
  : option RepoStats :=
  match repo_stats with
  | [] => None
  | (repo', stats) :: rest => if String.eqb repo repo' then Some stats else stats_of repo rest
  end.

(** The body of [for repo, stats in pr_by_repo.items()]. *)
Definition add_pr_group (repo_stats : list (string * RepoStats))
    (group : string * list PRRow) : list (string * RepoStats) :=
  let (repo, rows) := group in
  update repo
    (fun entry =>
       {| rs_prs := len rows;
          rs_commits := rs_commits entry;
          rs_lines_added := Py.sum (map pr_additions rows);
          rs_lines_deleted := Py.sum (map pr_deletions rows);
          rs_files_changed := Py.sum (map pr_changed_files rows) |})
    repo_stats.

(** The body of [for repo, stats in commit_by_repo.items()]. *)
Definition add_commit_group (repo_stats : list (string * RepoStats))
    (group : string * list CommitRow) : list (string * RepoStats) :=
  let (repo, rows) := group in
  update repo
    (fun entry =>
       {| rs_prs := rs_prs entry;
          rs_commits := len rows;
          (* Use the higher value between PR and commit stats *)
          rs_lines_added := max2 (rs_lines_added entry) (Py.sum (map cm_additions rows));
          rs_lines_deleted := max2 (rs_lines_deleted entry) (Py.sum (map cm_deletions rows));
          rs_files_changed :=
            max2 (rs_files_changed entry) (Py.sum (map cm_files_changed_count rows)) |})
    repo_stats.

Record RepositoryBreakdown : Type := {
  repositories : list (string * RepoStats);
  total_repositories : Z;
  most_active : option string
}.

(** [repo_stats] when both loops of [get_repository_breakdown] are done. *)
Definition repo_stats_of (self : DataAnalyzer) : list (string * RepoStats) :=
  let repo_stats := [] in
  (* PR stats by repository *)
  let repo_stats :=
    if negb (empty (pr_df self))
    then fold_left add_pr_group (groupby pr_repository (pr_df self)) repo_stats
    else repo_stats in
  (* Commit stats by repository *)
  if negb (empty (commit_df self))
  then fold_left add_commit_group (groupby cm_repository (commit_df self)) repo_stats
  else repo_stats.

(** [DataAnalyzer.get_repository_breakdown]; [None] is the empty dict. *)
Definition get_repository_breakdown (self : DataAnalyzer) : option RepositoryBreakdown :=
  if empty (pr_df self) && empty (commit_df self) then None
  else
    let repo_stats := repo_stats_of self in
    (* Sort by total contributions *)
    let sorted_repos :=
      Py.sorted_reverse_by (fun x => (rs_prs (snd x) + rs_commits (snd x))%Z) repo_stats in
    Some
      {| repositories := sorted_repos;
         total_repositories := len repo_stats;
         most_active :=
           match sorted_repos with
           | (repo, _) :: _ => Some repo
           | [] => None
           end |}.

(** The number of PR rows and of commit rows of a repository. *)
Definition pr_rows_in (self : DataAnalyzer) (repo : string) : list PRRow :=
  List.filter (fun row => String.eqb (pr_repository row) repo) (pr_df self).

Definition commit_rows_in (self : DataAnalyzer) (repo : string) : list CommitRow :=
  List.filter (fun row => String.eqb (cm_repository row) repo) (commit_df self).

(** The entry the table ends with for a repository: none when the
    repository has no row, else the row counts and, per measure, the PR
    sum, raised to the commit sum when the repository has commits. *)
Definition final_entry (self : DataAnalyzer) (repo : string) : option RepoStats :=
  let prs := pr_rows_in self repo in
  let cms := commit_rows_in self repo in
  if empty prs && empty cms then None
  else
    Some
      {| rs_prs := len prs;
         rs_commits := len cms;
         rs_lines_added :=
           if empty cms then Py.sum (map pr_additions prs)
           else max2 (Py.sum (map pr_additions prs)) (Py.sum (map cm_additions cms));
         rs_lines_deleted :=
           if empty cms then Py.sum (map pr_deletions prs)
           else max2 (Py.sum (map pr_deletions prs)) (Py.sum (map cm_deletions cms));
         rs_files_changed :=
           if empty cms then Py.sum (map pr_changed_files prs)
           else max2 (Py.sum (map pr_changed_files prs))
                     (Py.sum (map cm_files_changed_count cms)) |}.

(** *** Collaboration *)

Record CollaborationInsights : Type := {
  top_reviewers : list (string * Z);
  prs_with_reviews : Z;
  review_rate : Q;
  avg_reviewers_per_pr : Q;
  avg_comments_per_pr : Q;
  total_unique_reviewers : Z
}.

(** [counter.most_common(n)], which is [heapq.nlargest(n, items,
    key=count)]: the first [n] items of the stable sort by decreasing
    count. *)
Definition most_common (n : nat) (c : list (string * Z)) : list (string * Z) :=
  firstn n (Py.sorted_reverse_by snd c).

Section WithFloats.

(** The rounding of float operations. *)
Variable fl : Q -> Q.

(** [DataAnalyzer.get_collaboration_insights]; [None] is the empty
    dict. *)
Definition get_collaboration_insights (self : DataAnalyzer)
  : Py.result (option CollaborationInsights) :=
  if empty (pr_df self) then Py.Ok None
  else
    (* Most frequent reviewers *)
    let all_reviewers := flat_map reviewers (pull_requests (result self)) in
    let reviewer_counts := Counter all_reviewers in
    (* PR review statistics *)
    let prs_with_reviews :=
      len (List.filter (fun pr => negb (empty (reviewers pr)))
                       (pull_requests (result self))) in
    Py.bind (Py.truediv fl
               (Py.sum (map (fun pr => len (reviewers pr)) (pull_requests (result self))))
               (len (pull_requests (result self)))) (fun avg_reviewers_per_pr =>
    let avg_comments_per_pr := mean fl (map pr_comments_count (pr_df self)) in
    Py.bind (Py.truediv fl prs_with_reviews (len (pull_requests (result self))))
            (fun reviewed =>
    Py.Ok
      (Some
         {| top_reviewers := most_common 10 reviewer_counts;
            prs_with_reviews := prs_with_reviews;
            review_rate := fl (reviewed * 100)%Q;
            avg_reviewers_per_pr := Py.round fl avg_reviewers_per_pr;
            avg_comments_per_pr := Py.round fl avg_comments_per_pr;
            total_unique_reviewers := len reviewer_counts |}))).

End WithFloats.

(** *** Time series *)

(** An entry of the timeline. *)
Record TimelineEntry : Type := {
  tl_period : string;
  tl_prs : Z;
  tl_commits : Z;
  tl_total : Z
}.

Record TimeSeries : Type := {
  timeline : list TimelineEntry;
  total_periods : Z;
  avg_prs_per_period : Q;
  avg_commits_per_period : Q
}.

(** [series.value_counts().sort_index()] on a series of periods, each
    given by its ordinal: the number of occurrences of every period that
    occurs, by increasing period. *)
Definition value_counts (periods : list Z) : list (Z * Z) :=
  map (fun period => (period, Z.of_nat (count_occ Z.eq_dec periods period)))
      (Py.sorted_int (nodup Z.eq_dec periods)).

(** [counts.get(period, 0)] *)
Fixpoint count_at (period : Z) (counts : list (Z * Z)) : Z :=
  match counts with
  | [] => 0%Z
  | (period', n) :: rest => if (period =? period')%Z then n else count_at period rest
  end.

(** [pd.period_range(start, end, freq)]: the periods from [start] to
    [end], both included. *)
Definition period_range (start stop : Z) : list Z :=
  map (fun i => (start + Z.of_nat i)%Z) (seq 0 (Z.to_nat (stop - start + 1))).

(** [min(a, b)] on periods: the first argument unless the second is
    smaller. *)
Definition min_period (a b : Z) : Z := if (b <? a)%Z then b else a.

Section WithPeriods.

(** [timestamp.to_period(period)], as the ordinal of the period that
    holds the timestamp; periods that follow each other have ordinals
    that follow each other. *)
Variable to_period : Py.datetime -> Z.

(** [str(period)] *)
Variable str_of_period : Z -> string.

(** The rounding of float operations. *)
Variable fl : Q -> Q.

(** [DataAnalyzer.get_time_series_data]; [None] is the empty dict. *)
Definition get_time_series_data (self : DataAnalyzer) : option TimeSeries :=
  if empty (pr_df self) && empty (commit_df self) then None
  else
    (* Combine PR and commit dates *)
    let pr_dates := if negb (empty (pr_df self)) then map pr_created_at (pr_df self) else [] in
    let commit_dates :=
      if negb (empty (commit_df self)) then map cm_authored_date (commit_df self) else [] in
    (* Group by specified period *)
    let pr_by_period := value_counts (map to_period pr_dates) in
    let commit_by_period := value_counts (map to_period commit_dates) in
    (* Create combined timeline *)
    let first_of (counts other : list (Z * Z)) :=
      if (len counts >? 0)%Z then hd 0%Z (map fst counts) else hd 0%Z (map fst other) in
    let last_of (counts other : list (Z * Z)) :=
      if (len counts >? 0)%Z then last (map fst counts) 0%Z else last (map fst other) 0%Z in
    let all_periods :=
      period_range
        (min_period (first_of pr_by_period commit_by_period)
                    (first_of commit_by_period pr_by_period))
        (max2 (last_of pr_by_period commit_by_period)
              (last_of commit_by_period pr_by_period)) in
    let timeline_data :=
      map (fun period_val =>
             {| tl_period := str_of_period period_val;
                tl_prs := count_at period_val pr_by_period;
                tl_commits := count_at period_val commit_by_period;
                tl_total :=
                  count_at period_val pr_by_period + count_at period_val commit_by_period |})
          all_periods in
    Some
      {| timeline := timeline_data;
         total_periods := len all_periods;
         avg_prs_per_period :=
           if (len pr_by_period >? 0)%Z then mean fl (map snd pr_by_period) else 0%Q;
         avg_commits_per_period :=
           if (len commit_by_period >? 0)%Z then mean fl (map snd commit_by_period)
           else 0%Q |}.

(** The periods of the pull requests and of the commits of the two
    frames. *)
Definition pr_periods (self : DataAnalyzer) : list Z :=
  map to_period (map pr_created_at (pr_df self)).

Definition commit_periods (self : DataAnalyzer) : list Z :=
  map to_period (map cm_authored_date (commit_df self)).

(** The timeline entry that counts the pull requests and the commits of
    the period [period_val]. *)
Definition entry_of (self : DataAnalyzer) (period_val : Z) : TimelineEntry :=
  {| tl_period := str_of_period period_val;
     tl_prs := Z.of_nat (count_occ Z.eq_dec (pr_periods self) period_val);
     tl_commits := Z.of_nat (count_occ Z.eq_dec (commit_periods self) period_val);
     tl_total :=
       Z.of_nat (count_occ Z.eq_dec (pr_periods self) period_val)
       + Z.of_nat (count_occ Z.eq_dec (commit_periods self) period_val) |}.

End WithPeriods.

(** *** Inputs used below *)

(** A merged pull request of 150 added and 25 deleted lines over 5 files,
    in repository [repo]. *)
Definition pr_in (repo : string) : PRData :=
  {| id := 123456; number := 42; title := "Add new feature";
     description := "This PR adds a new feature to the application";
     repository := repo; author := "testuser";
     state := "closed"; merged := true;
     created_at := {| Py.wall := 1705314600000000; Py.utcoffset := None |};
     updated_at := {| Py.wall := 1705414800000000; Py.utcoffset := None |};
     merged_at := Some {| Py.wall := 1705414800000000; Py.utcoffset := None |};
     closed_at := Some {| Py.wall := 1705414800000000; Py.utcoffset := None |};
     source_branch := "feature/new-feature"; target_branch := "main";
     additions := 150; deletions := 25; changed_files := 5; comments_count := 3;
     reviewers := ["reviewer1"; "reviewer2"];
     labels := ["enhancement"; "feature"] |}.

(** A commit of 120 added and 15 deleted lines over 3 files, authored in
    repository [repo] at 09:15 on day number [day]. *)
Definition commit_on (repo : string) (day : Z) : CommitData :=
  {| sha := "abc123def456";
     message := "Add new feature implementation";
     c_repository := repo; c_author := "testuser";
     author_email := "testuser@example.com";
     authored_date :=
       {| Py.wall := day * Py.microseconds_per_day + 33300000000; Py.utcoffset := None |};
     committed_date :=
       {| Py.wall := day * Py.microseconds_per_day + 33300000000; Py.utcoffset := None |};
     c_additions := 120; c_deletions := 15; c_total_changes := 135;
     files_changed := ["src/main.py"; "src/utils.py"; "tests/test_main.py"] |}.

Definition result_of (prs : list PRData) (cs : list CommitData) : AnalysisResult :=
  {| user := "testuser"; organization := "testorg";
     analysis_date := {| Py.wall := 1705752000000000; Py.utcoffset := None |};
     date_range := [("from", "2024-01-01"); ("to", "2024-01-31")]%string;
     total_prs := len prs; total_commits := len cs;
     repositories_contributed := 1;
     pull_requests := prs; commits := cs |}.

(** One pull request and one commit in the same repository. *)
Definition sample_analysis_result : AnalysisResult :=
  result_of [pr_in "test-repo"] [commit_on "test-repo" 19737].

(** Commits authored today and on the two days before. *)
Definition three_day_run (today : Z) : AnalysisResult :=
  result_of []
    [commit_on "test-repo" today;
     commit_on "test-repo" (today - 1);
     commit_on "test-repo" (today - 2)].

(** Three pull requests in "widgets"; one pull request and one commit in
    "gadgets". *)
Definition widgets_and_gadgets : AnalysisResult :=
  result_of [pr_in "widgets"; pr_in "widgets"; pr_in "widgets"; pr_in "gadgets"]
            [commit_on "gadgets" 19737].

End Analyzer.

(* --------------------------------------------------------------------- *)
(** ** Regular expressions, as far as the tools use them                  *)
(* --------------------------------------------------------------------- *)

(** A backtracking matcher in the style of Python's [re]: alternatives
    are tried in order, [+] is greedy, and the first complete match wins.
    Characters are bytes; [\d] is taken on the ASCII digits. *)

Module Re.

Inductive charclass : Type :=
| Lit (c : ascii)        (* the character itself *)
| NotLit (c : ascii)     (* [^c] *)
| Digit.                 (* \d *)

Definition is_digit (a : ascii) : bool :=
  (48 <=? nat_of_ascii a)%nat && (nat_of_ascii a <=? 57)%nat.

Definition in_class (cl : charclass) (a : ascii) : bool :=
  match cl with
  | Lit c => Ascii.eqb a c
  | NotLit c => negb (Ascii.eqb a c)
  | Digit => is_digit a
  end.

Inductive regex : Type :=
| Eps
| One (cl : charclass)
| Many1 (cl : charclass)     (* cl+ *)
| Group (r : regex)          (* ( r ) *)
| Seq (r1 r2 : regex).

(** The literal text [s]. *)
Fixpoint text (s : string) : regex :=
  match s with
  | EmptyString => Eps
  | String c s' => Seq (One (Lit c)) (text s')
  end.

(** [cl*], greedy: the longest run first, then shorter ones, until the
    continuation [k] accepts the rest. *)
Fixpoint many {A : Type} (cl : charclass) (s : string)
    (k : string -> option A) : option A :=
  match s with
  | String a s' =>
      if in_class cl a then
        match many cl s' k with
        | Some r => Some r
        | None => k s
        end
      else k s
  | EmptyString => k s
  end.

(** The part of [s] consumed when [rest] remains. *)
Definition consumed (s rest : string) : string :=
  Py.take_chars (String.length s - String.length rest) s.

(** [run r s groups k] matches [r] at the start of [s]; [k] continues
    with the remaining input and the groups closed so far. *)
Fixpoint run {A : Type} (r : regex) (s : string) (groups : list string)
    (k : string -> list string -> option A) : option A :=
  match r with
  | Eps => k s groups
  | One cl =>
      match s with
      | String a s' => if in_class cl a then k s' groups else None
      | EmptyString => None
      end
  | Many1 cl =>
      match s with
      | String a s' =>
          if in_class cl a then many cl s' (fun rest => k rest groups) else None
      | EmptyString => None
      end
  | Group r' => run r' s groups (fun rest gs => k rest (gs ++ [consumed s rest]))
  | Seq r1 r2 => run r1 s groups (fun rest gs => run r2 rest gs k)
  end.

(** [re.match(r, s)]: a match anchored at the start of [s] only; the
    result is [match.groups()]. *)
Definition re_match (r : regex) (s : string) : option (list string) :=
  run r s [] (fun _ gs => Some gs).

(** *** Notions used to say what a match is *)

(** Every character of [s] is in the class. *)
Fixpoint all_in_class (cl : charclass) (s : string) : bool :=
  match s with
  | EmptyString => true
  | String a s' => in_class cl a && all_in_class cl s'
  end.

(** The longest prefix of [s] made of characters of the class, and what
    follows it. *)
Fixpoint span (cl : charclass) (s : string) : string * string :=
  match s with
  | String a s' =>
      if in_class cl a then (String a (fst (span cl s')), snd (span cl s'))
      else (EmptyString, s)
  | EmptyString => (EmptyString, EmptyString)
  end.

(** The last character of [s] is in the class. *)
Fixpoint ends_in_class (cl : charclass) (s : string) : bool :=
  match s with
  | EmptyString => false
  | String a s' =>
      match s' with
      | EmptyString => in_class cl a
      | String _ _ => ends_in_class cl s'
      end
  end.

(** [s] without its prefix [t], when it has that prefix. *)
Fixpoint strip_prefix (t s : string) : option string :=
  match t with
  | EmptyString => Some s
  | String c t' =>
      match s with
      | String a s' => if Ascii.eqb a c then strip_prefix t' s' else None
      | EmptyString => None
      end
  end.

End Re.

(* --------------------------------------------------------------------- *)
(** ** github-pr-scraper/enhance_pr_data.py                               *)
(* --------------------------------------------------------------------- *)

Module EnhanceScript.

(** [r'https://github\.com/([^/]+)/([^/]+)/pull/\d+'] *)
Definition pr_url_pattern : Re.regex :=
  Re.Seq (Re.text "https://github.com/")
    (Re.Seq (Re.Group (Re.Many1 (Re.NotLit "/")))
       (Re.Seq (Re.One (Re.Lit "/"))
          (Re.Seq (Re.Group (Re.Many1 (Re.NotLit "/")))
             (Re.Seq (Re.text "/pull/") (Re.Many1 Re.Digit))))).

(** [extract_repo_from_url] *)
Definition extract_repo_from_url (url : string) : option string :=
  match Re.re_match pr_url_pattern url with
  | Some [owner; repo] => Some (owner ++ "/" ++ repo)%string
  | _ => None
  end.

(** The shape named by the specification: [url] is exactly
    [https://github.com/<owner>/<repo>/pull/<digits>], with non-empty
    owner and repository names free of slashes and at least one digit. *)
Definition exact_pr_url (url owner repo : string) : Prop :=
  exists digits : string,
    url = ("https://github.com/" ++ owner ++ "/" ++ repo ++ "/pull/" ++ digits)%string
    /\ owner <> ""%string /\ Re.all_in_class (Re.NotLit "/") owner = true
    /\ repo <> ""%string /\ Re.all_in_class (Re.NotLit "/") repo = true
    /\ digits <> ""%string /\ Re.all_in_class Re.Digit digits = true.

(** [url] begins with [https://github.com/<owner>/<repo>/pull/<digit>];
    anything may follow the digit. *)
Definition pr_url_prefix (url owner repo : string) : Prop :=
  exists (d : ascii) (rest : string),
    url = ("https://github.com/" ++ owner ++ "/" ++ repo ++ "/pull/" ++ String d rest)%string
    /\ owner <> ""%string /\ Re.all_in_class (Re.NotLit "/") owner = true
    /\ repo <> ""%string /\ Re.all_in_class (Re.NotLit "/") repo = true
    /\ Re.is_digit d = true.

(** [row[key]] *)
Definition getitem (row : gmap string string) (key : string) : Py.result string :=
  match row !! key with
  | Some v => Py.Ok v
  | None => Py.Raise (Py.KeyError key)
  end.

(** [row.get(key, default)] *)
Definition get (row : gmap string string) (key default : string) : string :=
  match row !! key with
  | Some v => v
  | None => default
  end.

(** [s.isdigit()] *)
Fixpoint all_digits (s : string) : bool :=
  match s with
  | EmptyString => true
  | String a s' => Re.is_digit a && all_digits s'
  end.

Definition isdigit (s : string) : bool :=
  negb (String.eqb s "") && all_digits s.

(** [s.replace('-', '')] *)
Fixpoint remove_hyphens (s : string) : string :=
  match s with
  | EmptyString => EmptyString
  | String a s' =>
      if Ascii.eqb a "-" then remove_hyphens s' else String a (remove_hyphens s')
  end.

(** Value of a string of decimal digits, read after the digits worth
    [acc]. *)
Fixpoint digits_value (acc : Z) (s : string) : Z :=
  match s with
  | EmptyString => acc
  | String a s' => digits_value (10 * acc + (Z.of_nat (nat_of_ascii a) - 48))%Z s'
  end.

(** [int(s)] on the strings the script passes to it, which hold decimal
    digits and hyphens only: an optional leading [-] and at least one
    digit, anything else is a [ValueError]. *)
Definition int_of_str (s : string) : Py.result Z :=
  match s with
  | String "-" s' =>
      if isdigit s' then Py.Ok (- digits_value 0 s')%Z else Py.Raise Py.ValueError
  | _ => if isdigit s then Py.Ok (digits_value 0 s) else Py.Raise Py.ValueError
  end.

(** Every character of [s] is an ASCII character. *)
Fixpoint ascii_only (s : string) : bool :=
  match s with
  | EmptyString => true
  | String a s' => (nat_of_ascii a <? 128)%nat && ascii_only s'
  end.

(** [s] holds a hyphen. *)
Fixpoint has_hyphen (s : string) : bool :=
  match s with
  | EmptyString => false
  | String a s' => Ascii.eqb a "-" || has_hyphen s'
  end.

(** [s] holds a hyphen after its first character. *)
Definition has_inner_hyphen (s : string) : bool :=
  match s with
  | EmptyString => false
  | String _ s' => has_hyphen s'
  end.

(** A field of an output record. *)
Inductive value : Type :=
| VStr (s : string)
| VInt (z : Z)
| VBool (b : bool)
| VJson (j : Py.json).

Section WithCLI.

(** [subprocess.run(cmd, capture_output=True, text=True, timeout=30)];
    [None] when the call raises (timeout, missing executable). *)
Variable subprocess_run : list string -> option Py.CompletedProcess.

(** [json.loads]; [None] when it raises. *)
Variable json_loads : string -> option Py.json.

(** The record built from the CLI payload when the enrichment succeeds
    (the [if pr_details:] branch of the loop body). *)
Variable enhanced_record :
  string -> string -> gmap string string -> Py.json -> Py.result (list (string * value)).

(** [get_pr_details]; [None] is the absent result. *)
Definition get_pr_details (owner_repo pr_number : string) : option Py.json :=
  let cmd :=
    ["gh"; "pr"; "view"; pr_number;
     "--repo"; owner_repo;
     "--json";
     "number,title,body,author,state,createdAt,updatedAt,mergedAt,closedAt,additions,deletions,url,headRefName,baseRefName,labels,milestone,assignees,reviewRequests,reviews,comments,commits,files,reactionGroups"
    ]%string in
  match subprocess_run cmd with
  | Some result =>
      if (Py.returncode result =? 0)%Z then json_loads (Py.stdout result) else None
  | None => None
  end.

(** [int(row.get(key, 0)) if row.get(key, '').isdigit() else 0] *)
Definition int_if_digits (row : gmap string string) (key : string) : Py.result Z :=
  if isdigit (get row key "") then int_of_str (get row key "0") else Py.Ok 0%Z.

(** [int(row.get(key, 0)) if row.get(key, '').replace('-', '').isdigit() else 0] *)
Definition int_if_signed_digits (row : gmap string string) (key : string) : Py.result Z :=
  if isdigit (remove_hyphens (get row key "")) then int_of_str (get row key "0")
  else Py.Ok 0%Z.

(** The record kept when the enrichment failed (the [else] branch). *)
Definition reduced_record (owner_repo pr_number : string) (row : gmap string string)
  : Py.result (list (string * value)) :=
  Py.bind (getitem row "Title") (fun title =>
  Py.bind (getitem row "State") (fun original_state =>
  Py.bind (getitem row "Created At") (fun created_at =>
  Py.bind (int_if_digits row "Additions") (fun original_additions =>
  Py.bind (int_if_digits row "Deletions") (fun original_deletions =>
  Py.bind (int_if_signed_digits row "Net Lines") (fun net_lines =>
  Py.bind (getitem row "URL") (fun url =>
  Py.Ok
    [("repository", VStr owner_repo);
     ("pr_number", VStr pr_number);
     ("title", VStr title);
     ("original_state", VStr original_state);
     ("created_at", VStr created_at);
     ("merged_at", VStr (get row "Merged At" ""));
     ("closed_at", VStr (get row "Closed At" ""));
     ("original_additions", VInt original_additions);
     ("original_deletions", VInt original_deletions);
     ("net_lines", VInt net_lines);
     ("url", VStr url);
     ("description", VStr "");
     ("enhancement_failed", VBool true)]%string))))))).

(** One turn of the [for idx, row in enumerate(reader, 1)] loop: the
    records it appends to [enhanced_prs]. *)
Definition process_row (row : gmap string string)
  : Py.result (list (list (string * value))) :=
  Py.bind (getitem row "URL") (fun url =>
  let owner_repo := extract_repo_from_url url in
  Py.bind (getitem row "PR #") (fun pr_number =>
  match owner_repo with
  | None => Py.Ok []
  | Some owner_repo =>
      match get_pr_details owner_repo pr_number with
      | Some pr_details =>
          if Py.truthy pr_details then
            Py.bind (enhanced_record owner_repo pr_number row pr_details)
                    (fun enhanced_pr => Py.Ok [enhanced_pr])
          else
            Py.bind (reduced_record owner_repo pr_number row)
                    (fun enhanced_pr => Py.Ok [enhanced_pr])
      | None =>
          Py.bind (reduced_record owner_repo pr_number row)
                  (fun enhanced_pr => Py.Ok [enhanced_pr])
      end
  end)).

(** [enhance_pr_data], up to the list [enhanced_prs] that it then writes
    to the JSON and CSV files. *)
Fixpoint enhance_pr_data (rows : list (gmap string string))
  : Py.result (list (list (string * value))) :=
  match rows with
  | [] => Py.Ok []
  | row :: rows' =>
      Py.bind (process_row row) (fun emitted =>
      Py.bind (enhance_pr_data rows') (fun later => Py.Ok (emitted ++ later)))
  end.

End WithCLI.

(** *** Inputs used below *)

(** The row's URL parses to an owner and repository. *)
Definition url_parses (row : gmap string string) : bool :=
  match row !! "URL"%string with
  | Some url =>
      match extract_repo_from_url url with
      | Some _ => true
      | None => false
      end
  | None => false
  end.

(** A CSV row with the ten columns of the contribution file. *)
Definition csv_row (url pr_number title net_lines : string) : gmap string string :=
  list_to_map
    [("URL", url); ("PR #", pr_number); ("Title", title); ("State", "MERGED");
     ("Created At", "2024-01-15 10:30:00"); ("Merged At", "2024-01-16 14:20:00");
     ("Closed At", "2024-01-16 14:20:00"); ("Additions", "150");
     ("Deletions", "25"); ("Net Lines", net_lines)]%string.

(** A CLI that fails on every call. *)
Definition failing_cli (cmd : list string) : option Py.CompletedProcess :=
  Some {| Py.returncode := 1; Py.stdout := ""; Py.stderr := "not found" |}.

Definition no_json (s : string) : option Py.json := None.

Definition no_record (owner_repo pr_number : string) (row : gmap string string)
    (details : Py.json) : Py.result (list (string * value)) :=
  Py.Ok [].

End EnhanceScript.

(* --------------------------------------------------------------------- *)
(** ** github-pr-scraper/github_pr_scraper/models.py                      *)
(* --------------------------------------------------------------------- *)

Module ScraperModels.

Record ReviewMetrics : Type := {
  total_reviewers : Z;
  unique_reviewers : list string;
  review_comments_count : Z;
  approvals_count : Z;
  changes_requested_count : Z;
  review_cycles : Z;
  time_to_first_review_hours : option Q;
  average_review_response_time_hours : option Q
}.

Record TimeMetrics : Type := {
  time_open_hours : option Q;
  time_to_merge_hours : option Q;
  time_in_draft_hours : option Q;
  time_from_last_commit_to_merge_hours : option Q;
  business_days_open : option Z
}.

Record FileAnalysis : Type := {
  total_files_changed : Z;
  file_types : list (string * Z);
  programming_languages : list (string * Z);
  largest_file_changes : list Py.json;
  binary_files_count : Z;
  test_files_count : Z;
  documentation_files_count : Z
}.

Record EngagementMetrics : Type := {
  reactions : list (string * Z);
  discussion_participants : list string;
  total_discussion_comments : Z;
  mentioned_users : list string;
  cross_references : list string
}.

(** The default instances [ReviewMetrics()], [TimeMetrics()],
    [FileAnalysis()] and [EngagementMetrics()]. *)
Definition ReviewMetrics_default : ReviewMetrics :=
  {| total_reviewers := 0; unique_reviewers := []; review_comments_count := 0;
     approvals_count := 0; changes_requested_count := 0; review_cycles := 0;
     time_to_first_review_hours := None;
     average_review_response_time_hours := None |}.

Definition TimeMetrics_default : TimeMetrics :=
  {| time_open_hours := None; time_to_merge_hours := None;
     time_in_draft_hours := None; time_from_last_commit_to_merge_hours := None;
     business_days_open := None |}.

Definition FileAnalysis_default : FileAnalysis :=
  {| total_files_changed := 0; file_types := []; programming_languages := [];
     largest_file_changes := []; binary_files_count := 0; test_files_count := 0;
     documentation_files_count := 0 |}.

Definition EngagementMetrics_default : EngagementMetrics :=
  {| reactions := []; discussion_participants := []; total_discussion_comments := 0;
     mentioned_users := []; cross_references := [] |}.

Record GitHubPRData : Type := {
  (* Basic PR information *)
  repository : string;
  pr_number : Z;
  title : string;
  description : string;
  url : string;
  (* Author and state *)
  author : string;
  author_avatar_url : string;
  state : string;  (* open, closed, merged *)
  is_draft : bool;
  (* Timestamps *)
  created_at : Py.datetime;
  updated_at : option Py.datetime;
  merged_at : option Py.datetime;
  closed_at : option Py.datetime;
  (* Branch information *)
  source_branch : string;
  target_branch : string;
  source_repository : string;
  (* Code changes *)
  additions : Z;
  deletions : Z;
  commits_count : Z;
  (* Labels and classification *)
  labels : list string;
  milestone : option string;
  linked_issues : list string;
  (* Advanced metrics *)
  review_metrics : ReviewMetrics;
  time_metrics : TimeMetrics;
  file_analysis : FileAnalysis;
  engagement_metrics : EngagementMetrics;
  (* Additional context *)
  is_security_fix : bool;
  is_breaking_change : bool;
  deployment_info : list (string * Py.json);
  ci_status : list (string * string)
}.

(** [GitHubPRData.net_lines_changed] *)
Definition net_lines_changed (self : GitHubPRData) : Z :=
  (additions self - deletions self)%Z.

(** [GitHubPRData.total_lines_changed] *)
Definition total_lines_changed (self : GitHubPRData) : Z :=
  (additions self + deletions self)%Z.

(** [GitHubPRData.status] *)
Definition status (self : GitHubPRData) : string :=
  if String.eqb (state self) "closed" then
    match merged_at self with
    | Some _ => "merged"%string
    | None => "closed"%string
    end
  else "open"%string.

(** [min(a, b)]: the first argument unless the second is smaller. *)
Definition min2 (a b : Q) : Q :=
  match (b ?= a)%Q with
  | Lt => b
  | _ => a
  end.

(** Truth value of a number, as [if x:] takes it. *)
Definition nonzero (x : Q) : bool := negb (Qeq_bool x 0).

Record ScrapingResult : Type := {
  prs : list GitHubPRData;
  total_processed : Z;
  successful_scrapes : Z;
  failed_scrapes : Z;
  errors : list string;
  processing_time_seconds : Q
}.

Section WithFloats.

(** The rounding of float operations. *)
Variable fl : Q -> Q.

(** [GitHubPRData.complexity_score] *)
Definition complexity_score (self : GitHubPRData) : Q :=
  let score := 0%Q in
  (* File changes impact *)
  let score :=
    fl (score
        + min2 (fl (Py.float fl (total_files_changed (file_analysis self)) * fl (1 # 2))) 10)%Q in
  (* Line changes impact *)
  let score :=
    fl (score + min2 (fl (Py.float fl (total_lines_changed self) * fl (1 # 100))) 20)%Q in
  (* Review complexity *)
  let score :=
    fl (score + min2 (inject_Z (review_cycles (review_metrics self) * 2)) 10)%Q in
  (* Time complexity *)
  let score :=
    match time_open_hours (time_metrics self) with
    | Some hours =>
        if nonzero hours then fl (score + min2 (fl (hours * fl (1 # 10))) 15)%Q
        else score
    | None => score
    end in
  Py.round fl score.

(** [a / b] on integers: the quotient as a float, [ZeroDivisionError]
    when [b] is 0. *)
Definition true_div (a b : Z) : Py.result Q :=
  if (b =? 0)%Z then Py.Raise Py.ZeroDivisionError
  else Py.Ok (fl (inject_Z a / inject_Z b))%Q.

(** [ScrapingResult.success_rate] *)
Definition success_rate (self : ScrapingResult) : Py.result Q :=
  if (total_processed self =? 0)%Z then Py.Ok 0%Q
  else
    Py.bind (true_div (successful_scrapes self) (total_processed self))
            (fun q => Py.Ok (fl (q * 100))%Q).

End WithFloats.

(** The sum of the four capped terms, as the specification writes it. *)
Definition capped_terms (self : GitHubPRData) : Q :=
  (Qmin (inject_Z (total_files_changed (file_analysis self)) * (1 # 2)) 10
   + Qmin (inject_Z (total_lines_changed self) * (1 # 100)) 20
   + Qmin (inject_Z (review_cycles (review_metrics self)) * 2) 10
   + match time_open_hours (time_metrics self) with
     | Some hours => Qmin (hours * (1 # 10)) 15
     | None => 0
     end)%Q.

(** *** Inputs used below *)

(** A pull request record with the given measures and defaults elsewhere. *)
Definition pr_measuring (files lines_added lines_deleted cycles : Z)
    (open_hours : option Q) : GitHubPRData :=
  {| repository := "acme/widgets"; pr_number := 7; title := "Add new feature";
     description := ""; url := "https://github.com/acme/widgets/pull/7";
     author := "testuser"; author_avatar_url := ""; state := "open";
     is_draft := false;
     created_at := {| Py.wall := 1705314600000000; Py.utcoffset := Some 0%Z |};
     updated_at := None; merged_at := None; closed_at := None;
     source_branch := "feature"; target_branch := "main"; source_repository := "";
     additions := lines_added; deletions := lines_deleted; commits_count := 0;
     labels := []; milestone := None; linked_issues := [];
     review_metrics :=
       {| total_reviewers := 0; unique_reviewers := []; review_comments_count := 0;
          approvals_count := 0; changes_requested_count := 0; review_cycles := cycles;
          time_to_first_review_hours := None;
          average_review_response_time_hours := None |};
     time_metrics :=
       {| time_open_hours := open_hours; time_to_merge_hours := None;
          time_in_draft_hours := None; time_from_last_commit_to_merge_hours := None;
          business_days_open := None |};
     file_analysis :=
       {| total_files_changed := files; file_types := []; programming_languages := [];
          largest_file_changes := []; binary_files_count := 0; test_files_count := 0;
          documentation_files_count := 0 |};
     engagement_metrics := EngagementMetrics_default;
     is_security_fix := false; is_breaking_change := false;
     deployment_info := []; ci_status := [] |}.

Definition scraping_result (total successful failed : Z) : ScrapingResult :=
  {| prs := []; total_processed := total; successful_scrapes := successful;
     failed_scrapes := failed; errors := []; processing_time_seconds := 0 |}.

End ScraperModels.

(* --------------------------------------------------------------------- *)
(** ** github-pr-scraper/github_pr_scraper/cli_analyzer.py                *)
(* --------------------------------------------------------------------- *)

Module CLIAnalyzer.
Import ScraperModels.

(** An element of the JSON array printed by [gh pr list --json ...]: the
    requested fields at the types the CLI gives them.  [None] is an
    absent key and, for the timestamps, also a null value. *)
Record label_json : Type := { name : option string }.

Record pr_json : Type := {
  j_number : option Z;
  j_title : option string;
  j_body : option string;
  j_createdAt : option string;
  j_updatedAt : option string;
  j_mergedAt : option string;
  j_closedAt : option string;
  j_additions : option Z;
  j_deletions : option Z;
  j_url : option string;
  j_headRefName : option string;
  j_baseRefName : option string;
  j_labels : option (list label_json);
  j_state : option string;
  j_repository_nameWithOwner : option string
}.

(** [d.get(key, default)] *)
Definition get {A : Type} (field : option A) (default : A) : A :=
  match field with
  | Some v => v
  | None => default
  end.

(** [s.replace('Z', '+00:00')] *)
Fixpoint replace_Z (s : string) : string :=
  match s with
  | EmptyString => EmptyString
  | String a s' =>
      if Ascii.eqb a "Z" then ("+00:00" ++ replace_Z s')%string
      else String a (replace_Z s')
  end.

(** [s.lower()] on ASCII letters. *)
Definition lower_char (a : ascii) : ascii :=
  let n := nat_of_ascii a in
  if ((65 <=? n) && (n <=? 90))%nat then ascii_of_nat (n + 32) else a.

Fixpoint lower (s : string) : string :=
  match s with
  | EmptyString => EmptyString
  | String a s' => String (lower_char a) (lower s')
  end.

Section WithCLI.

(** [subprocess.run(cmd, capture_output=True, text=True, timeout=30)];
    [None] when the call raises. *)
Variable subprocess_run : list string -> option Py.CompletedProcess.

(** [json.loads] of the CLI's output; [None] when it raises. *)
Variable json_loads : string -> option (list pr_json).

(** [datetime.fromisoformat]; [None] when it raises. *)
Variable fromisoformat : string -> option Py.datetime.

(** The rounding of float operations. *)
Variable fl : Q -> Q.

(** [delta.total_seconds() / 3600] of a difference in microseconds. *)
Definition hours (microseconds : Z) : Q :=
  fl (fl (inject_Z microseconds / 1000000) / 3600)%Q.

(** [GitHubCLIAnalyzer._calculate_time_metrics] *)
Definition _calculate_time_metrics (created_at : Py.datetime)
    (merged_at closed_at : option Py.datetime) : Py.result TimeMetrics :=
  let metrics := TimeMetrics_default in
  let end_time := match merged_at with Some m => Some m | None => closed_at end in
  match end_time with
  | Some end_time =>
      Py.bind (Py.dt_sub end_time created_at) (fun time_diff =>
      let metrics :=
        {| time_open_hours := Some (hours time_diff);
           time_to_merge_hours := time_to_merge_hours metrics;
           time_in_draft_hours := time_in_draft_hours metrics;
           time_from_last_commit_to_merge_hours :=
             time_from_last_commit_to_merge_hours metrics;
           business_days_open := business_days_open metrics |} in
      match merged_at with
      | Some merged_at =>
          Py.bind (Py.dt_sub merged_at created_at) (fun d =>
          Py.Ok
            {| time_open_hours := time_open_hours metrics;
               time_to_merge_hours := Some (hours d);
               time_in_draft_hours := time_in_draft_hours metrics;
               time_from_last_commit_to_merge_hours :=
                 time_from_last_commit_to_merge_hours metrics;
               business_days_open := business_days_open metrics |})
      | None => Py.Ok metrics
      end)
  | None => Py.Ok metrics
  end.

(** The [for pr in prs] loop of [_filter_prs_by_date]; a comparison
    between a naive and an aware datetime raises. *)
Fixpoint _filter_prs_by_date (prs : list GitHubPRData)
    (date_from date_to : option Py.datetime) : Py.result (list GitHubPRData) :=
  match prs with
  | [] => Py.Ok []
  | pr :: prs' =>
      Py.bind (match date_from with
               | Some date_from => Py.dt_lt (created_at pr) date_from
               | None => Py.Ok false
               end) (fun before =>
      if before then _filter_prs_by_date prs' date_from date_to
      else
        Py.bind (match date_to with
                 | Some date_to => Py.dt_gt (created_at pr) date_to
                 | None => Py.Ok false
                 end) (fun after =>
        if after then _filter_prs_by_date prs' date_from date_to
        else
          Py.bind (_filter_prs_by_date prs' date_from date_to) (fun filtered_prs =>
          Py.Ok (pr :: filtered_prs))))
  end.

(** [fromisoformat(s.replace('Z', '+00:00'))] for an optional field that
    is parsed only [if pr_json.get(field)]. *)
Definition parse_optional (field : option string) : Py.result (option Py.datetime) :=
  match field with
  | Some s =>
      if negb (String.eqb s "") then
        match fromisoformat (replace_Z s) with
        | Some dt => Py.Ok (Some dt)
        | None => Py.Raise Py.ValueError
        end
      else Py.Ok None
  | None => Py.Ok None
  end.

(** The body of the [try] in [_convert_to_pr_data], for one element. *)
Definition convert_one (pr : pr_json) (username : string) (repo : option string)
  : Py.result GitHubPRData :=
  (* Handle repository field *)
  let repository :=
    match repo with
    | Some r =>
        if negb (String.eqb r "") then r
        else get (j_repository_nameWithOwner pr) "unknown/unknown"%string
    | None => get (j_repository_nameWithOwner pr) "unknown/unknown"%string
    end in
  (* Parse timestamps *)
  match j_createdAt pr with
  | None => Py.Raise (Py.KeyError "createdAt")
  | Some createdAt =>
      match fromisoformat (replace_Z createdAt) with
      | None => Py.Raise Py.ValueError
      | Some created_at =>
          Py.bind (parse_optional (j_mergedAt pr)) (fun merged_at =>
          Py.bind (parse_optional (j_closedAt pr)) (fun closed_at =>
          Py.bind (parse_optional (j_updatedAt pr)) (fun updated_at =>
          (* Extract labels *)
          let labels :=
            match j_labels pr with
            | Some (l :: ls) => map (fun label => get (name label) ""%string) (l :: ls)
            | _ => []
            end in
          (* Determine state *)
          let state := lower (get (j_state pr) "open"%string) in
          match j_number pr with
          | None => Py.Raise (Py.KeyError "number")
          | Some number =>
              Py.bind (_calculate_time_metrics created_at merged_at closed_at)
                      (fun time_metrics =>
              Py.Ok
                {| repository := repository;
                   pr_number := number;
                   title := get (j_title pr) ""%string;
                   description := get (j_body pr) ""%string;
                   url := get (j_url pr) ""%string;
                   author := username;
                   author_avatar_url := ""%string;
                   state := state;
                   is_draft := false;
                   created_at := created_at;
                   updated_at := updated_at;
                   merged_at := merged_at;
                   closed_at := closed_at;
                   source_branch := get (j_headRefName pr) ""%string;
                   target_branch := get (j_baseRefName pr) ""%string;
                   source_repository := ""%string;
                   additions := get (j_additions pr) 0%Z;
                   deletions := get (j_deletions pr) 0%Z;
                   commits_count := 0%Z;
                   labels := labels;
                   milestone := None;
                   linked_issues := [];
                   review_metrics := ReviewMetrics_default;
                   time_metrics := time_metrics;
                   file_analysis := FileAnalysis_default;
                   engagement_metrics := EngagementMetrics_default;
                   is_security_fix := false;
                   is_breaking_change := false;
                   deployment_info := [];
                   ci_status := [] |})
          end)))
      end
  end.

(** [GitHubCLIAnalyzer._convert_to_pr_data]: an element whose conversion
    raises is logged and skipped. *)
Fixpoint _convert_to_pr_data (prs_data : list pr_json) (username : string)
    (repo : option string) : list GitHubPRData :=
  match prs_data with
  | [] => []
  | pr :: rest =>
      match convert_one pr username repo with
      | Py.Ok pr_data => pr_data :: _convert_to_pr_data rest username repo
      | Py.Raise _ => _convert_to_pr_data rest username repo
      end
  end.

(** The [for state in states] loop of [_get_prs_for_repo], inside its
    [try]: the list returned and the commands run, after those of
    [ran]. *)
Fixpoint fetch_states (cmd : list string) (states : list string)
    (repo username : string) (date_from date_to : option Py.datetime)
    (ran : list (list string)) : list GitHubPRData * list (list string) :=
  match states with
  | [] => ([], ran)
  | state :: states' =>
      let state_cmd := cmd ++ ["--state"; state]%string in
      let ran := ran ++ [state_cmd] in
      match subprocess_run state_cmd with
      | None => ([], ran)   (* except Exception: return [] *)
      | Some result =>
          if negb (Py.returncode result =? 0)%Z then
            fetch_states cmd states' repo username date_from date_to ran
          else
            match json_loads (Py.stdout result) with
            | None => ([], ran)   (* except Exception: return [] *)
            | Some prs_data =>
                let repo_prs := _convert_to_pr_data prs_data username (Some repo) in
                (* Filter by date if specified *)
                if match date_from, date_to with
                   | None, None => false
                   | _, _ => true
                   end
                then
                  match _filter_prs_by_date repo_prs date_from date_to with
                  | Py.Ok repo_prs => (repo_prs, ran)
                  | Py.Raise _ => ([], ran)   (* except Exception: return [] *)
                  end
                else (repo_prs, ran)
            end
      end
  end.

(** What is returned after a fetch that succeeded: the converted list,
    filtered when a date bound is given; a filter that raises leaves the
    empty list of the [except] clause. *)
Definition returned_after (prs_data : list pr_json) (repo username : string)
    (date_from date_to : option Py.datetime) : list GitHubPRData :=
  let repo_prs := _convert_to_pr_data prs_data username (Some repo) in
  match date_from, date_to with
  | None, None => repo_prs
  | _, _ =>
      match _filter_prs_by_date repo_prs date_from date_to with
      | Py.Ok filtered => filtered
      | Py.Raise _ => []
      end
  end.

(** The argument list of [gh pr list] before the state filter. *)
Definition list_cmd (repo username : string) : list string :=
  ["gh"; "pr"; "list";
   "--repo"; repo;
   "--author"; username;
   "--json";
   "number,title,body,createdAt,updatedAt,mergedAt,closedAt,additions,deletions,url,headRefName,baseRefName,labels,state";
   "--limit"; "1000"]%string.

(** [GitHubCLIAnalyzer._get_prs_for_repo]: the list it returns, and the
    CLI commands it ran, in order. *)
Definition _get_prs_for_repo (repo username : string)
    (date_from date_to : option Py.datetime) (include_closed include_merged : bool)
  : list GitHubPRData * list (list string) :=
  let cmd := list_cmd repo username in
  (* Add state filters *)
  let states := [] in
  let states := if include_closed then states ++ ["closed"%string] else states in
  let states := if include_merged then states ++ ["merged"%string] else states in
  let states := states ++ ["open"%string] in
  fetch_states cmd states repo username date_from date_to [].

End WithCLI.

(** The states that [_get_prs_for_repo] selects, in the order it tries
    them. *)
Definition selected_states (include_closed include_merged : bool) : list string :=
  ((if include_closed then ["closed"%string] else [])
   ++ (if include_merged then ["merged"%string] else [])
   ++ ["open"%string])%list.

(** The call of [cmd] completes with an exit status other than 0. *)
Definition exits_nonzero (subprocess_run : list string -> option Py.CompletedProcess)
    (cmd : list string) : Prop :=
  exists result, subprocess_run cmd = Some result /\ Py.returncode result <> 0%Z.

(** [date_from <= created_at <= date_to] as points in time, for the
    bounds that are given. *)
Definition in_date_range (date_from date_to : option Py.datetime)
    (created_at : Py.datetime) : bool :=
  match date_from with
  | Some bound => (Py.instant bound <=? Py.instant created_at)%Z
  | None => true
  end
  && match date_to with
     | Some bound => (Py.instant created_at <=? Py.instant bound)%Z
     | None => true
     end.

(** *** The entry points *)

(** What [check_gh_cli] found wrong: the [e] of
    [Exception(f"GitHub CLI setup issue: {e}")]. *)
Inductive setup_cause : Type :=
| CLINotFound        (* Exception("GitHub CLI not found") *)
| NotAuthenticated   (* Exception("Not authenticated with GitHub CLI") *)
| RunRaised.         (* an exception of [subprocess.run] itself *)

Inductive checked : Type :=
| Returned (ok : bool)
| SetupIssue (e : setup_cause).

(** An element of the JSON array printed by [gh repo list --json name]. *)
Record repo_json : Type := { r_name : option string }.

(** Truth values of optional arguments, as [if x:] and [x or y] take
    them. *)
Definition given_list {A : Type} (x : option (list A)) : bool :=
  match x with
  | Some (_ :: _) => true
  | _ => false
  end.

Definition given_str (x : option string) : bool :=
  match x with
  | Some s => negb (String.eqb s "")
  | None => false
  end.

Definition given_int (x : option Z) : bool :=
  match x with
  | Some n => negb (n =? 0)%Z
  | None => false
  end.

(** [prs.sort(key=lambda pr: pr.created_at, reverse=True)].  Sorting
    compares creation times, and comparing a naive with an aware one
    raises [TypeError]: a list that mixes the two kinds cannot be sorted,
    and a list of one kind is sorted by decreasing point in time, equal
    times keeping their order. *)
Definition sort_by_created_at_reverse (prs : list GitHubPRData)
  : Py.result (list GitHubPRData) :=
  if forallb (fun pr => Py.aware (created_at pr)) prs
     || forallb (fun pr => negb (Py.aware (created_at pr))) prs
  then Py.Ok (Py.sorted_reverse_by (fun pr => Py.instant (created_at pr)) prs)
  else Py.Raise Py.TypeError.

Section WithGitHub.

Variable subprocess_run : list string -> option Py.CompletedProcess.

(** [json.loads] of the output of [gh pr list] and [gh search prs];
    [None] when it raises. *)
Variable json_loads : string -> option (list pr_json).

(** [json.loads] of the output of [gh repo list]; [None] when it
    raises. *)
Variable json_loads_repos : string -> option (list repo_json).

Variable fromisoformat : string -> option Py.datetime.

(** [dt.strftime('%Y-%m-%d')] *)
Variable strftime_ymd : Py.datetime -> string.

Variable fl : Q -> Q.

(** [GitHubCLIAnalyzer.check_gh_cli]: what it returns or raises, and the
    commands it ran. *)
Definition check_gh_cli : checked * list (list string) :=
  let version_cmd := ["gh"; "--version"]%string in
  let auth_cmd := ["gh"; "auth"; "status"]%string in
  (* Check if gh CLI is installed *)
  match subprocess_run version_cmd with
  | None => (SetupIssue RunRaised, [version_cmd])
  | Some result =>
      if negb (Py.returncode result =? 0)%Z then (SetupIssue CLINotFound, [version_cmd])
      else
        (* Check if authenticated *)
        match subprocess_run auth_cmd with
        | None => (SetupIssue RunRaised, [version_cmd; auth_cmd])
        | Some result =>
            if negb (Py.returncode result =? 0)%Z
            then (SetupIssue NotAuthenticated, [version_cmd; auth_cmd])
            else (Returned true, [version_cmd; auth_cmd])
        end
  end.

(** [[f"{organization}/{repo['name']}" for repo in repos_data]]; a
    missing name raises [KeyError]. *)
Fixpoint names_with_owner (organization : string) (repos_data : list repo_json)
  : Py.result (list string) :=
  match repos_data with
  | [] => Py.Ok []
  | repo :: rest =>
      match r_name repo with
      | None => Py.Raise (Py.KeyError "name")
      | Some name =>
          Py.bind (names_with_owner organization rest) (fun names =>
          Py.Ok ((organization ++ "/" ++ name)%string :: names))
      end
  end.

(** The argument list of [gh repo list]. *)
Definition repo_list_cmd (organization : string) : list string :=
  ["gh"; "repo"; "list"; organization;
   "--json"; "name";
   "--limit"; "1000"]%string.

(** [GitHubCLIAnalyzer._get_organization_repos] *)
Definition _get_organization_repos (organization : string) : list string :=
  match subprocess_run (repo_list_cmd organization) with
  | None => []   (* except Exception: return [] *)
  | Some result =>
      if negb (Py.returncode result =? 0)%Z then []
      else
        match json_loads_repos (Py.stdout result) with
        | None => []   (* except Exception: return [] *)
        | Some repos_data =>
            match names_with_owner organization repos_data with
            | Py.Ok names => names
            | Py.Raise _ => []   (* except Exception: return [] *)
            end
        end
  end.

(** The argument list of [gh search prs]. *)
Definition search_cmd (username : string) (date_from date_to : option Py.datetime)
    (max_prs : option Z) : list string :=
  (* Build search query *)
  let query_parts := [("author:" ++ username)%string; "is:pr"%string] in
  let query_parts :=
    match date_from with
    | Some date_from => query_parts ++ [("created:>=" ++ strftime_ymd date_from)%string]
    | None => query_parts
    end in
  let query_parts :=
    match date_to with
    | Some date_to => query_parts ++ [("created:<=" ++ strftime_ymd date_to)%string]
    | None => query_parts
    end in
  let search_query := Py.join " " query_parts in
  ["gh"; "search"; "prs";
   "--query"; search_query;
   "--json"; "number,title,body,createdAt,mergedAt,closedAt,additions,deletions,url,repository";
   "--limit";
   Py.str_of_int (if given_int max_prs then get max_prs 100%Z else 100%Z)]%string.

(** [GitHubCLIAnalyzer._search_prs_globally] *)
Definition _search_prs_globally (username : string)
    (date_from date_to : option Py.datetime) (max_prs : option Z) : list GitHubPRData :=
  match subprocess_run (search_cmd username date_from date_to max_prs) with
  | None => []   (* except Exception: return [] *)
  | Some result =>
      if negb (Py.returncode result =? 0)%Z then []
      else
        match json_loads (Py.stdout result) with
        | None => []   (* except Exception: return [] *)
        | Some prs_data => _convert_to_pr_data fromisoformat fl prs_data username None
        end
  end.

(** The [for repo in repo_list] loop of [get_user_prs], from the list
    [all_prs] collected so far. *)
Fixpoint collect_prs (repo_list : list string) (username : string)
    (date_from date_to : option Py.datetime) (max_prs : option Z)
    (include_closed include_merged : bool) (all_prs : list GitHubPRData)
  : list GitHubPRData :=
  match repo_list with
  | [] => all_prs
  | repo :: rest =>
      let repo_prs :=
        fst (_get_prs_for_repo subprocess_run json_loads fromisoformat fl
               repo username date_from date_to include_closed include_merged) in
      let all_prs := all_prs ++ repo_prs in
      if given_int max_prs && (Z.of_nat (length all_prs) >=? get max_prs 0%Z)%Z
      then all_prs
      else collect_prs rest username date_from date_to max_prs
             include_closed include_merged all_prs
  end.

(** [GitHubCLIAnalyzer.get_user_prs] *)
Definition get_user_prs (username : string) (organization : option string)
    (repositories : option (list string)) (date_from date_to : option Py.datetime)
    (max_prs : option Z) (include_closed include_merged : bool)
  : Py.result (list GitHubPRData) :=
  let via (repo_list : list string) :=
    let all_prs :=
      collect_prs repo_list username date_from date_to max_prs
        include_closed include_merged [] in
    (* Sort by creation date and limit *)
    Py.bind (sort_by_created_at_reverse all_prs) (fun all_prs =>
    Py.Ok (if given_int max_prs then Py.slice_to (get max_prs 0%Z) all_prs else all_prs)) in
  if given_list repositories then
    (* Search specific repositories *)
    via (get repositories [])
  else if given_str organization then
    (* Get all repos for organization first *)
    via (_get_organization_repos (get organization ""%string))
  else
    (* Use search across all accessible repos *)
    Py.Ok (_search_prs_globally username date_from date_to max_prs).

End WithGitHub.

(** *** Inputs used below *)

(** A closed pull request as the CLI lists it, created on 15 January 2024
    at 10:30 UTC. *)
Definition closed_pr_json : pr_json :=
  {| j_number := Some 7%Z; j_title := Some "Add new feature"%string;
     j_body := Some ""%string;
     j_createdAt := Some "2024-01-15T10:30:00Z"%string;
     j_updatedAt := None; j_mergedAt := None; j_closedAt := None;
     j_additions := Some 150%Z; j_deletions := Some 25%Z;
     j_url := Some "https://github.com/acme/widgets/pull/7"%string;
     j_headRefName := Some "feature"%string; j_baseRefName := Some "main"%string;
     j_labels := None; j_state := Some "CLOSED"%string;
     j_repository_nameWithOwner := None |}.

(** 15 January 2024, 10:30, at UTC offset 0. *)
Definition jan_15_utc : Py.datetime :=
  {| Py.wall := 1705314600000000; Py.utcoffset := Some 0%Z |}.

(** 1 January 2024, 00:00, naive: the value of
    [datetime.strptime("2024-01-01", "%Y-%m-%d")]. *)
Definition jan_1_naive : Py.datetime :=
  {| Py.wall := 1704067200000000; Py.utcoffset := None |}.

(** A CLI whose every call exits with status 0 and prints [out]. *)
Definition cli_printing (out : string) (cmd : list string) : option Py.CompletedProcess :=
  Some {| Py.returncode := 0; Py.stdout := out; Py.stderr := "" |}.

(** A JSON reader that finds the single pull request [closed_pr_json]. *)
Definition one_closed_pr (out : string) : option (list pr_json) := Some [closed_pr_json].

(** An ISO parser that reads every timestamp as [jan_15_utc]. *)
Definition parse_as_jan_15 (s : string) : option Py.datetime := Some jan_15_utc.

(** A JSON reader that finds no repository list. *)
Definition no_repos (out : string) : option (list repo_json) := None.

(** A date formatter for runs that format no date. *)
Definition no_date (dt : Py.datetime) : string := ""%string.

(** A pull request as the CLI lists it once merged. *)
Definition merged_pr_json : pr_json :=
  {| j_number := Some 8%Z; j_title := Some "Fix the build"%string;
     j_body := Some ""%string;
     j_createdAt := Some "2024-01-15T10:30:00Z"%string;
     j_updatedAt := None;
     j_mergedAt := Some "2024-01-15T10:30:00Z"%string;
     j_closedAt := Some "2024-01-15T10:30:00Z"%string;
     j_additions := Some 10%Z; j_deletions := Some 2%Z;
     j_url := Some "https://github.com/acme/widgets/pull/8"%string;
     j_headRefName := Some "fix"%string; j_baseRefName := Some "main"%string;
     j_labels := None; j_state := Some "MERGED"%string;
     j_repository_nameWithOwner := None |}.

End CLIAnalyzer.

(* --------------------------------------------------------------------- *)
(** ** github-pr-scraper/github_pr_scraper/exporter.py                    *)
(* --------------------------------------------------------------------- *)

Module ScraperExporter.
Import ScraperModels.

(** [d[k] = d.get(k, 0) + n] on a dict, whose keys keep their order of
    insertion. *)
Fixpoint dict_add (k : string) (n : Z) (d : list (string * Z)) : list (string * Z) :=
  match d with
  | [] => [(k, (0 + n)%Z)]
  | (k', m) :: d' =>
      if String.eqb k k' then (k', (m + n)%Z) :: d' else (k', m) :: dict_add k n d'
  end.

(** [max(a, b)] on floats: the first argument unless the second is
    greater. *)
Definition max2 (a b : Q) : Q :=
  match (b ?= a)%Q with
  | Gt => b
  | _ => a
  end.

(** [min(values)] and [max(values)] of a non-empty list headed by
    [best]. *)
Definition min_of (best : Q) (values : list Q) : Q := fold_left min2 values best.

Definition max_of (best : Q) (values : list Q) : Q := fold_left max2 values best.

(** The ['summary'] entry of the statistics. *)
Record Summary : Type := {
  summary_total_prs : Z;
  summary_merged_prs : Z;
  summary_closed_prs : Z;
  summary_open_prs : Z;
  summary_merge_rate : Q
}.

(** The ['code_metrics'] entry. *)
Record CodeMetrics : Type := {
  code_total_additions : Z;
  code_total_deletions : Z;
  code_net_changes : Z;
  code_total_files_changed : Z;
  code_avg_additions_per_pr : Q;
  code_avg_deletions_per_pr : Q
}.

(** The ['review_metrics'] entry. *)
Record ReviewAverages : Type := {
  avg_reviewers_per_pr : Q;
  avg_review_comments_per_pr : Q
}.

(** The ['distributions'] entry. *)
Record Distributions : Type := {
  dist_repositories : list (string * Z);
  dist_programming_languages : list (string * Z);
  dist_file_types : list (string * Z)
}.

(** The ['time_metrics'] entry when it is not empty. *)
Record TimeStats : Type := {
  avg_time_to_merge_hours : Q;
  min_time_to_merge_hours : Q;
  max_time_to_merge_hours : Q
}.

Record SummaryStats : Type := {
  summary : Summary;
  code_metrics : CodeMetrics;
  review_averages : ReviewAverages;
  distributions : Distributions;
  time_stats : option TimeStats
}.

Section WithFloats.

(** The rounding of float operations. *)
Variable fl : Q -> Q.

(** [sum(values)] of a list of floats; the summation algorithm depends on
    the interpreter. *)
Variable fsum : list Q -> Q.

(** [total / total_prs if total_prs > 0 else 0] *)
Definition per_pr (total total_prs : Z) : Py.result Q :=
  if (total_prs >? 0)%Z then Py.truediv fl total total_prs else Py.Ok 0%Q.

(** [DataProcessor.calculate_summary_stats]; [None] is the empty dict. *)
Definition calculate_summary_stats (prs : list GitHubPRData)
  : Py.result (option SummaryStats) :=
  match prs with
  | [] => Py.Ok None
  | _ :: _ =>
      let total_prs := Z.of_nat (length prs) in
      let merged_prs :=
        Z.of_nat (length (List.filter (fun pr => String.eqb (status pr) "merged") prs)) in
      let closed_prs :=
        Z.of_nat (length (List.filter (fun pr => String.eqb (status pr) "closed") prs)) in
      let open_prs :=
        Z.of_nat (length (List.filter (fun pr => String.eqb (status pr) "open") prs)) in
      (* Code metrics *)
      let total_additions := Py.sum (map additions prs) in
      let total_deletions := Py.sum (map deletions prs) in
      let total_files_changed :=
        Py.sum (map (fun pr => total_files_changed (file_analysis pr)) prs) in
      (* Review metrics *)
      Py.bind (per_pr (Py.sum (map (fun pr => total_reviewers (review_metrics pr)) prs))
                      total_prs) (fun avg_reviewers =>
      Py.bind (per_pr (Py.sum (map (fun pr => review_comments_count (review_metrics pr)) prs))
                      total_prs) (fun avg_review_comments =>
      (* Repository distribution *)
      let repo_counts := fold_left (fun d pr => dict_add (repository pr) 1 d) prs [] in
      (* Language distribution *)
      let language_counts :=
        fold_left
          (fun d pr =>
             fold_left (fun d item => dict_add (fst item) (snd item) d)
                       (programming_languages (file_analysis pr)) d)
          prs [] in
      (* File type distribution *)
      let file_type_counts :=
        fold_left
          (fun d pr =>
             fold_left (fun d item => dict_add (fst item) (snd item) d)
                       (file_types (file_analysis pr)) d)
          prs [] in
      (* Time metrics (if available) *)
      let time_to_merge_values :=
        flat_map (fun pr =>
                    match time_to_merge_hours (time_metrics pr) with
                    | Some hours => [hours]
                    | None => []
                    end) prs in
      let time_stats :=
        match time_to_merge_values with
        | [] => None
        | first :: rest =>
            Some
              {| avg_time_to_merge_hours :=
                   fl (fsum time_to_merge_values
                       / inject_Z (Z.of_nat (length time_to_merge_values)))%Q;
                 min_time_to_merge_hours := min_of first rest;
                 max_time_to_merge_hours := max_of first rest |}
        end in
      Py.bind (if (total_prs >? 0)%Z
               then Py.bind (Py.truediv fl merged_prs total_prs)
                            (fun q => Py.Ok (fl (q * 100))%Q)
               else Py.Ok 0%Q) (fun merge_rate =>
      Py.bind (per_pr total_additions total_prs) (fun avg_additions_per_pr =>
      Py.bind (per_pr total_deletions total_prs) (fun avg_deletions_per_pr =>
      Py.Ok
        (Some
           {| summary :=
                {| summary_total_prs := total_prs;
                   summary_merged_prs := merged_prs;
                   summary_closed_prs := closed_prs;
                   summary_open_prs := open_prs;
                   summary_merge_rate := merge_rate |};
              code_metrics :=
                {| code_total_additions := total_additions;
                   code_total_deletions := total_deletions;
                   code_net_changes := total_additions - total_deletions;
                   code_total_files_changed := total_files_changed;
                   code_avg_additions_per_pr := avg_additions_per_pr;
                   code_avg_deletions_per_pr := avg_deletions_per_pr |};
              review_averages :=
                {| avg_reviewers_per_pr := Py.round fl avg_reviewers;
                   avg_review_comments_per_pr := Py.round fl avg_review_comments |};
              distributions :=
                {| dist_repositories := Py.sorted_reverse_by snd repo_counts;
                   dist_programming_languages := Py.sorted_reverse_by snd language_counts;
                   dist_file_types := Py.sorted_reverse_by snd file_type_counts |};
              time_stats := time_stats |}))))))
  end.

End WithFloats.

(** A summing of floats for runs that hold no merge time. *)
Definition no_fsum (values : list Q) : Q := 0%Q.

End ScraperExporter.

(* --------------------------------------------------------------------- *)
(** ** github-pr-scraper/github_pr_scraper/cli.py                         *)
(* --------------------------------------------------------------------- *)

Module ScraperCLI.
Import ScraperModels.

(** The [ScrapingResult] that [_run_analysis] builds from the pull
    requests it fetched. *)
Definition result_of_run (prs : list GitHubPRData) (processing_time : Q) : ScrapingResult :=
  {| prs := prs;
     total_processed := Z.of_nat (length prs);
     successful_scrapes := Z.of_nat (length prs);
     failed_scrapes := 0;
     errors := [];
     processing_time_seconds := processing_time |}.

End ScraperCLI.

(* ===================================================================== *)
(** * Part II: properties                                                  *)
(* ===================================================================== *)

Module PatModelsFacts.
Import PatModels.

Lemma sum_from (l : list Z) (a : Z) : fold_left Z.add l a = (a + Py.sum l)%Z.
Proof.
  unfold Py.sum. revert a.
  induction l as [|x l IH]; intro a; simpl.
  - lia.
  - rewrite (IH (a + x)%Z), (IH (0 + x)%Z). lia.
Qed.

Lemma sum_cons (x : Z) (l : list Z) : Py.sum (x :: l) = (x + Py.sum l)%Z.
Proof. unfold Py.sum at 1. simpl. apply sum_from. Qed.

Lemma count_if_nil (A : Type) (p : A -> bool) : count_if p [] = 0%Z.
Proof. reflexivity. Qed.

Lemma count_if_cons (A : Type) (p : A -> bool) (x : A) (xs : list A) :
  count_if p (x :: xs) = ((if p x then 1 else 0) + count_if p xs)%Z.
Proof.
  unfold count_if. simpl. destruct (p x); simpl.
  - apply sum_cons.
  - lia.
Qed.

Lemma count_if_length (A : Type) (p : A -> bool) (xs : list A) :
  count_if p xs = Z.of_nat (length (List.filter p xs)).
Proof.
  induction xs as [|x xs IH].
  - reflexivity.
  - rewrite count_if_cons, IH. simpl. destruct (p x); simpl length; lia.
Qed.

End PatModelsFacts.

Module PatModelsProps.
Import PatModels PatModelsFacts.

(** The source's boolean filter selects the elements satisfying the
    matching proposition. *)
Lemma count_if_prop (A : Type) (p : A -> bool) (P : A -> Prop)
    `{!forall x, Decision (P x)} (xs : list A) :
  (forall x, p x = true <-> P x) ->
  count_if p xs = Z.of_nat (length (base.filter P xs)).
Proof.
  intros Hp. induction xs as [|x xs IH].
  - reflexivity.
  - rewrite count_if_cons, IH, filter_cons.
    destruct (decide (P x)) as [HP|HP].
    + apply Hp in HP. rewrite HP. simpl length. lia.
    + destruct (p x) eqn:E.
      * apply Hp in E. contradiction.
      * lia.
Qed.

Lemma count_if_bounds (A : Type) (p : A -> bool) (xs : list A) :
  (0 <= count_if p xs <= Z.of_nat (length xs))%Z.
Proof.
  induction xs as [|x xs IH].
  - rewrite count_if_nil. simpl. lia.
  - rewrite count_if_cons. simpl length. destruct (p x); lia.
Qed.

(** Two filters that never hold together select at most the whole list. *)
Lemma count_if_disjoint (A : Type) (p q : A -> bool) (xs : list A) :
  (forall x, p x && q x = false) ->
  (count_if p xs + count_if q xs <= Z.of_nat (length xs))%Z.
Proof.
  intros Hpq. induction xs as [|x xs IH].
  - rewrite !count_if_nil. simpl. lia.
  - rewrite !count_if_cons. simpl length. specialize (Hpq x).
    destruct (p x), (q x); simpl in Hpq; try discriminate; lia.
Qed.

Lemma count_if_single (A : Type) (p : A -> bool) (x : A) :
  count_if p [x] = if p x then 1%Z else 0%Z.
Proof. rewrite count_if_cons, count_if_nil. destruct (p x); reflexivity. Qed.

Lemma eqb_closed_iff (pr : PRData) :
  String.eqb (state pr) "closed" && negb (merged pr) = true
  <-> state pr = "closed"%string /\ merged pr = false.
Proof.
  rewrite andb_true_iff, String.eqb_eq, negb_true_iff. reflexivity.
Qed.

Lemma times_counted_eq (r : AnalysisResult) (pr : PRData) :
  times_counted r pr =
  ((if merged pr then 1 else 0)
   + (if String.eqb (state pr) "open" then 1 else 0)
   + (if String.eqb (state pr) "closed" && negb (merged pr) then 1 else 0))%Z.
Proof.
  unfold times_counted, merged_prs, open_prs, closed_prs. simpl.
  rewrite !count_if_single. reflexivity.
Qed.

(** What it takes for one pull request to be counted exactly once. *)
Lemma times_counted_once (r : AnalysisResult) (pr : PRData) :
  times_counted r pr = 1%Z <->
  (merged pr = true -> state pr <> "open"%string)
  /\ (merged pr = false -> state pr = "open"%string \/ state pr = "closed"%string).
Proof.
  rewrite times_counted_eq.
  destruct (merged pr);
    destruct (String.eqb_spec (state pr) "open") as [Ho|Ho];
    destruct (String.eqb_spec (state pr) "closed") as [Hc|Hc]; simpl;
    try (rewrite Ho in Hc; discriminate Hc);
    (split; [intros Hs; try lia; split; intros; try discriminate; auto
            | intros [H1 H2]; try reflexivity; exfalso]).
  - exact (H1 eq_refl Ho).
  - destruct (H2 eq_refl); contradiction.
Qed.

(** C7: no pull request is counted in both [merged_prs] and
    [closed_prs].  [merged_prs] is the number of pull requests whose
    merged flag is true, [closed_prs] the number of those with raw state
    "closed" and a false merged flag; no single pull request enters both
    counts, and their sum never exceeds the number of pull requests. *)
Theorem merged_closed_mutually_exclusive (r : AnalysisResult) :
  merged_prs r
  = Z.of_nat (length (base.filter (fun pr => merged pr = true) (pull_requests r)))
  /\ closed_prs r
     = Z.of_nat (length (base.filter
                           (fun pr => state pr = "closed"%string /\ merged pr = false)
                           (pull_requests r)))
  /\ (forall pr, ~ (merged_prs (with_prs r [pr]) = 1%Z
                    /\ closed_prs (with_prs r [pr]) = 1%Z))
  /\ (merged_prs r + closed_prs r <= Z.of_nat (length (pull_requests r)))%Z.
Proof.
  repeat split.
  - unfold merged_prs. apply count_if_prop. intros pr. reflexivity.
  - unfold closed_prs. apply count_if_prop. apply eqb_closed_iff.
  - intros pr. unfold merged_prs, closed_prs. simpl.
    rewrite !count_if_single.
    destruct (merged pr); rewrite ?andb_false_r; simpl; lia.
  - unfold merged_prs, closed_prs. apply count_if_disjoint.
    intros pr. destruct (merged pr); rewrite ?andb_false_r; reflexivity.
Qed.

(** A merged pull request in a state other than "open" and "closed" is
    counted once, so the counts partition a list in which a merged pull
    request is not "closed". *)
Lemma partition_with_merged_draft :
  partitions (result_of_prs [pr_with "draft" true])
  /\ exists pr, In pr (pull_requests (result_of_prs [pr_with "draft" true]))
                /\ merged pr = true /\ state pr <> "closed"%string.
Proof.
  split.
  - intros pr [<-|[]]. reflexivity.
  - exists (pr_with "draft" true). repeat split.
    + left. reflexivity.
    + discriminate.
Qed.

(** C10 (amended): [open_prs] is the number of pull requests whose raw
    state is "open", whatever their merged flag; an open and merged pull
    request enters both [open_prs] and [merged_prs], so the three counts
    can add up to more than the number of pull requests.  The counts
    partition the list exactly when no merged pull request is "open" and
    every unmerged one is "open" or "closed"; when all raw states are
    "open" or "closed", that is exactly when every merged pull request is
    "closed". *)
Theorem open_prs_ignores_merged_flag (r : AnalysisResult) :
  open_prs r
  = Z.of_nat (length (base.filter (fun pr => state pr = "open"%string) (pull_requests r)))
  /\ (forall pr, state pr = "open"%string -> merged pr = true ->
        open_prs (with_prs r [pr]) = 1%Z /\ merged_prs (with_prs r [pr]) = 1%Z)
  /\ (let r' := result_of_prs [pr_with "open" true] in
      (merged_prs r' + open_prs r' + closed_prs r' > Z.of_nat (length (pull_requests r')))%Z)
  /\ (partitions r <->
      forall pr, In pr (pull_requests r) ->
        (merged pr = true -> state pr <> "open"%string)
        /\ (merged pr = false -> state pr = "open"%string \/ state pr = "closed"%string))
  /\ ((forall pr, In pr (pull_requests r) ->
         state pr = "open"%string \/ state pr = "closed"%string) ->
      (partitions r <->
       forall pr, In pr (pull_requests r) -> merged pr = true -> state pr = "closed"%string)).
Proof.
  split; [|split; [|split; [|split]]].
  - unfold open_prs. apply count_if_prop. intros pr. apply String.eqb_eq.
  - intros pr Ho Hm. unfold open_prs, merged_prs. simpl.
    rewrite !count_if_single, Ho, Hm. split; reflexivity.
  - reflexivity.
  - unfold partitions. split; intros H pr Hin.
    + apply (times_counted_once r). auto.
    + apply times_counted_once. auto.
  - intros Hdom. unfold partitions. split; intros H pr Hin.
    + intros Hm. specialize (H pr Hin). apply times_counted_once in H.
      destruct H as [H _]. destruct (Hdom pr Hin) as [Ho|Hc]; [|exact Hc].
      exfalso. exact (H Hm Ho).
    + apply times_counted_once. split.
      * intros Hm Ho. specialize (H pr Hin Hm). rewrite Ho in H. discriminate.
      * intros _. apply Hdom. exact Hin.
Qed.

End PatModelsProps.

Module AnalyzerProps.
Import PatModels Analyzer.

Lemma max2_max (a b : Z) : max2 a b = Z.max a b.
Proof.
  unfold max2. destruct (Z.gtb_spec b a); lia.
Qed.

Section Metrics.

Variable set_iter : list string -> list string.
Variable today : Z.
Variable fl : Q -> Q.

Lemma lines_added_unfold (self : DataAnalyzer) :
  empty (pr_df self) && empty (commit_df self) = false ->
  lines_added (calculate_contribution_metrics set_iter today fl self)
  = int (max2 (if negb (empty (pr_df self))
               then Py.sum (map pr_additions (pr_df self)) else 0%Z)
              (if negb (empty (commit_df self))
               then Py.sum (map cm_additions (commit_df self)) else 0%Z)).
Proof.
  intros E. unfold calculate_contribution_metrics. rewrite E. reflexivity.
Qed.

Lemma lines_deleted_unfold (self : DataAnalyzer) :
  empty (pr_df self) && empty (commit_df self) = false ->
  lines_deleted (calculate_contribution_metrics set_iter today fl self)
  = int (max2 (if negb (empty (pr_df self))
               then Py.sum (map pr_deletions (pr_df self)) else 0%Z)
              (if negb (empty (commit_df self))
               then Py.sum (map cm_deletions (commit_df self)) else 0%Z)).
Proof.
  intros E. unfold calculate_contribution_metrics. rewrite E. reflexivity.
Qed.

Lemma files_modified_unfold (self : DataAnalyzer) :
  empty (pr_df self) && empty (commit_df self) = false ->
  files_modified (calculate_contribution_metrics set_iter today fl self)
  = int (max2 (if negb (empty (pr_df self))
               then Py.sum (map pr_changed_files (pr_df self)) else 0%Z)
              (if negb (empty (commit_df self))
               then Py.sum (map cm_files_changed_count (commit_df self)) else 0%Z)).
Proof.
  intros E. unfold calculate_contribution_metrics. rewrite E. reflexivity.
Qed.

Lemma contribution_streak_unfold (self : DataAnalyzer) :
  contribution_streak (calculate_contribution_metrics set_iter today fl self)
  = if empty (pr_df self) && empty (commit_df self) then 0%Z
    else _calculate_contribution_streak today self.
Proof.
  unfold calculate_contribution_metrics.
  destruct (empty (pr_df self) && empty (commit_df self)); reflexivity.
Qed.

Lemma most_active_repository_unfold (self : DataAnalyzer) :
  most_active_repository (calculate_contribution_metrics set_iter today fl self)
  = if empty (pr_df self) && empty (commit_df self) then ""%string
    else
      match most_common_1
              (Counter
                 ((if negb (empty (pr_df self))
                   then set_iter (map pr_repository (pr_df self)) else [])
                  ++ (if negb (empty (commit_df self))
                      then set_iter (map cm_repository (commit_df self)) else [])))
      with
      | (name, _) :: _ => name
      | [] => ""%string
      end.
Proof.
  unfold calculate_contribution_metrics.
  destruct (empty (pr_df self) && empty (commit_df self)); reflexivity.
Qed.

(** A column sum is 0 on an empty projection, guarded or not. *)
Lemma guarded_sum (A : Type) (f : A -> Z) (df : list A) :
  (if negb (empty df) then Py.sum (map f df) else 0%Z) = Py.sum (map f df).
Proof. destruct df; reflexivity. Qed.

Lemma empty_map (A B : Type) (f : A -> B) (l : list A) : empty (map f l) = empty l.
Proof. destruct l; reflexivity. Qed.

End Metrics.



(** *** The contribution streak *)

(** The day of a commit made by [commit_on]. *)
Lemma date_commit_on (repo : string) (day : Z) :
  Py.date (authored_date (commit_on repo day)) = day.
Proof.
  unfold Py.date, commit_on, Py.microseconds_per_day. simpl.
  rewrite Z.div_add_l by lia. rewrite Z.div_small by lia. lia.
Qed.

(** After today and yesterday the loop holds [streak = 2] and
    [current_date = today - 1]; the day before is then at distance 1, not
    2, and the loop stops, whatever follows. *)
Lemma streak_loop_three_days (t : Z) (rest : list Z) :
  streak_loop (t :: (t - 1) :: (t - 2) :: rest)%Z 0 t = 2%Z.
Proof.
  simpl.
  replace (t - t =? 0)%Z with true by (symmetry; apply Z.eqb_eq; lia).
  replace (t - (t - 1) =? 0 + 1)%Z with true by (symmetry; apply Z.eqb_eq; lia).
  replace (t - 1 - (t - 2) =? 0 + 1 + 1)%Z with false by (symmetry; apply Z.eqb_neq; lia).
  reflexivity.
Qed.

(** One and two consecutive days are counted as they should be. *)
Lemma streak_loop_one_day (t d : Z) (rest : list Z) :
  (d < t - 1)%Z -> streak_loop (t :: d :: rest) 0 t = 1%Z.
Proof.
  intros H. simpl.
  replace (t - t =? 0)%Z with true by (symmetry; apply Z.eqb_eq; lia).
  replace (t - d =? 0 + 1)%Z with false by (symmetry; apply Z.eqb_neq; lia).
  reflexivity.
Qed.

Lemma commit_dates_three_days (t : Z) :
  sorted_reverse (unique [t; t - 1; t - 2])%Z = [t; t - 1; t - 2]%Z.
Proof.
  unfold unique. simpl.
  replace (t - 1 =? t)%Z with false by (symmetry; apply Z.eqb_neq; lia).
  replace (t - 2 =? t - 1)%Z with false by (symmetry; apply Z.eqb_neq; lia).
  replace (t - 2 =? t)%Z with false by (symmetry; apply Z.eqb_neq; lia).
  simpl.
  replace (t - 2 <? t - 1)%Z with true by (symmetry; apply Z.ltb_lt; lia).
  simpl.
  replace (t - 1 <? t)%Z with true by (symmetry; apply Z.ltb_lt; lia).
  reflexivity.
Qed.

Lemma commit_dates_of (r : AnalysisResult) :
  map (fun row => Py.date (cm_authored_date row)) (commit_df (__init__ r))
  = map (fun c => Py.date (authored_date c)) (commits r).
Proof.
  simpl. unfold _create_commit_dataframe. rewrite map_map. reflexivity.
Qed.

(** C1 (at a failing input): with commits authored today, yesterday and
    the day before, and on no other day, the streak of three consecutive
    days is reported as 2. *)
Theorem streak_of_three_days_is_two
    (set_iter : list string -> list string) (today : Z) (fl : Q -> Q) :
  contribution_streak
    (calculate_contribution_metrics set_iter today fl (__init__ (three_day_run today)))
  = 2%Z.
Proof.
  rewrite contribution_streak_unfold.
  unfold _calculate_contribution_streak.
  change (empty (pr_df (__init__ (three_day_run today)))) with true.
  change (empty (commit_df (__init__ (three_day_run today)))) with false.
  cbn [andb].
  rewrite commit_dates_of.
  change (commits (three_day_run today))
    with [commit_on "test-repo" today; commit_on "test-repo" (today - 1);
          commit_on "test-repo" (today - 2)].
  cbn [map].
  rewrite !date_commit_on, commit_dates_three_days.
  cbn [empty]. apply streak_loop_three_days.
Qed.

(** *** The most active repository *)

Lemma set_iter_pair (set_iter : list string -> list string) (xs : list string)
    (a b : string) :
  set_iter_ok set_iter -> nodup string_dec xs = [a; b] ->
  set_iter xs = [a; b] \/ set_iter xs = [b; a].
Proof.
  intros Hok Hxs. specialize (Hok xs). rewrite Hxs in Hok.
  apply Permutation_sym, Permutation_length_2_inv in Hok. exact Hok.
Qed.

Lemma set_iter_single (set_iter : list string -> list string) (xs : list string)
    (a : string) :
  set_iter_ok set_iter -> nodup string_dec xs = [a] -> set_iter xs = [a].
Proof.
  intros Hok Hxs. specialize (Hok xs). rewrite Hxs in Hok.
  apply Permutation_sym, Permutation_length_1_inv in Hok. exact Hok.
Qed.

(** C2 (at a failing input): with three pull requests in "widgets" and one
    pull request plus one commit in "gadgets", "widgets" has the higher
    combined row count (3 against 2), and the most active repository is
    reported as "gadgets", in whatever order the sets are iterated. *)
Theorem most_active_repository_ignores_row_counts
    (set_iter : list string -> list string) (today : Z) (fl : Q -> Q) :
  set_iter_ok set_iter ->
  most_active_repository
    (calculate_contribution_metrics set_iter today fl (__init__ widgets_and_gadgets))
  = "gadgets"%string
  /\ combined_row_count (__init__ widgets_and_gadgets) "widgets" = 3%Z
  /\ combined_row_count (__init__ widgets_and_gadgets) "gadgets" = 2%Z.
Proof.
  intros Hok. split; [|split; reflexivity].
  rewrite most_active_repository_unfold.
  change (empty (pr_df (__init__ widgets_and_gadgets))) with false.
  change (empty (commit_df (__init__ widgets_and_gadgets))) with false.
  cbn [andb negb].
  change (map pr_repository (pr_df (__init__ widgets_and_gadgets)))
    with ["widgets"; "widgets"; "widgets"; "gadgets"]%string.
  change (map cm_repository (commit_df (__init__ widgets_and_gadgets)))
    with ["gadgets"]%string.
  rewrite (@set_iter_single set_iter ["gadgets"]%string "gadgets" Hok eq_refl).
  destruct (@set_iter_pair set_iter ["widgets"; "widgets"; "widgets"; "gadgets"]%string
              "widgets" "gadgets" Hok eq_refl) as [E|E];
    rewrite E; reflexivity.
Qed.

Lemma nodup_set_iter_ok : set_iter_ok (nodup string_dec).
Proof. intros xs. apply Permutation_refl. Qed.

Lemma most_active_repository_with_nodup :
  set_iter_ok (nodup string_dec)
  /\ most_active_repository
       (calculate_contribution_metrics (nodup string_dec) 19742 Py.exact
          (__init__ widgets_and_gadgets))
     = "gadgets"%string.
Proof.
  split.
  - exact nodup_set_iter_ok.
  - exact (proj1 (most_active_repository_ignores_row_counts 19742 Py.exact nodup_set_iter_ok)).
Defined.

End AnalyzerProps.

Module ReFacts.
Import Re.

Local Open Scope string_scope.

(** [String.append] is kept folded by [simpl]; these two equations
    unfold it one step. *)
Lemma append_nil (s : string) : "" ++ s = s.
Proof. reflexivity. Qed.

Lemma append_cons (x : ascii) (a b : string) : String x a ++ b = String x (a ++ b).
Proof. reflexivity. Qed.

Lemma append_assoc (a b c : string) : (a ++ b) ++ c = a ++ (b ++ c).
Proof.
  induction a as [|x a IH]; [reflexivity|].
  rewrite !append_cons, IH. reflexivity.
Qed.

Lemma length_append (a b : string) :
  String.length (a ++ b) = (String.length a + String.length b)%nat.
Proof.
  induction a as [|x a IH]; [reflexivity|].
  rewrite append_cons. simpl. now rewrite IH.
Qed.

Lemma take_chars_append (p q : string) : Py.take_chars (String.length p) (p ++ q) = p.
Proof.
  induction p as [|x p IH].
  - rewrite append_nil. now destruct q.
  - rewrite append_cons. simpl. now rewrite IH.
Qed.

Lemma span_append (cl : charclass) (s : string) :
  fst (span cl s) ++ snd (span cl s) = s.
Proof.
  induction s as [|a s IH]; simpl; [reflexivity|].
  destruct (in_class cl a); simpl; [|reflexivity].
  rewrite append_cons, IH. reflexivity.
Qed.

Lemma span_all_in_class (cl : charclass) (s : string) :
  all_in_class cl (fst (span cl s)) = true.
Proof.
  induction s as [|a s IH]; simpl; [reflexivity|].
  destruct (in_class cl a) eqn:E; simpl; [now rewrite E, IH | reflexivity].
Qed.

(** A run of class characters stopped by a character outside the class
    is the span of the whole. *)
Lemma span_stop (cl : charclass) (p : string) (c : ascii) (rest : string) :
  all_in_class cl p = true -> in_class cl c = false ->
  span cl (p ++ String c rest) = (p, String c rest).
Proof.
  intros Hp Hc. induction p as [|a p IH].
  - rewrite append_nil. simpl. now rewrite Hc.
  - simpl in Hp. apply andb_true_iff in Hp as [Ha Hp].
    rewrite append_cons. simpl. rewrite Ha, (IH Hp). reflexivity.
Qed.

Lemma consumed_span (cl : charclass) (a : ascii) (s : string) :
  consumed (String a s) (snd (span cl s)) = String a (fst (span cl s)).
Proof.
  unfold consumed.
  pose proof (span_append cl s) as H.
  destruct (span cl s) as [p q]. cbn [fst snd] in *. subst s.
  cbn [String.length]. rewrite length_append.
  replace (S (String.length p + String.length q) - String.length q)%nat
    with (S (String.length p)) by lia.
  cbn [Py.take_chars]. now rewrite take_chars_append.
Qed.

Lemma strip_prefix_append (t s : string) : strip_prefix t (t ++ s) = Some s.
Proof.
  induction t as [|c t IH]; [reflexivity|].
  rewrite append_cons. simpl. now rewrite Ascii.eqb_refl.
Qed.

Lemma strip_prefix_some (t s rest : string) :
  strip_prefix t s = Some rest -> s = t ++ rest.
Proof.
  revert s. induction t as [|c t IH]; intros s H; simpl in *.
  - now inversion H.
  - destruct s as [|a s]; [discriminate|].
    destruct (Ascii.eqb_spec a c) as [->|]; [|discriminate].
    rewrite append_cons. now rewrite (IH _ H).
Qed.

(** Greedy repetition before a continuation that refuses every
    character of the class: backtracking never helps, and the
    continuation sees what follows the longest run. *)
Lemma many_committed (A : Type) (cl : charclass) (s : string) (k : string -> option A) :
  (forall a t, in_class cl a = true -> k (String a t) = None) ->
  many cl s k = k (snd (span cl s)).
Proof.
  intros Hk. induction s as [|a s IH]; simpl; [reflexivity|].
  destruct (in_class cl a) eqn:E; simpl; [|reflexivity].
  rewrite IH. destruct (k (snd (span cl s))) eqn:Ek; [reflexivity|].
  now apply Hk.
Qed.

(** Greedy repetition before a continuation that accepts anything. *)
Lemma many_accepting (A : Type) (cl : charclass) (s : string) (x : A) :
  many cl s (fun _ => Some x) = Some x.
Proof.
  induction s as [|a s IH]; simpl; [reflexivity|].
  destruct (in_class cl a); [now rewrite IH | reflexivity].
Qed.

Lemma run_text (A : Type) (t s : string) (gs : list string)
    (k : string -> list string -> option A) :
  run (text t) s gs k
  = match strip_prefix t s with
    | Some rest => k rest gs
    | None => None
    end.
Proof.
  revert s. induction t as [|c t IH]; intros s; simpl; [reflexivity|].
  destruct s as [|a s]; [reflexivity|].
  destruct (Ascii.eqb a c); [apply IH | reflexivity].
Qed.

Lemma run_group_many1 (A : Type) (cl : charclass) (s : string) (gs : list string)
    (k : string -> list string -> option A) :
  (forall a t g, in_class cl a = true -> k (String a t) g = None) ->
  run (Group (Many1 cl)) s gs k
  = match s with
    | String a s' =>
        if in_class cl a
        then k (snd (span cl s')) (gs ++ [String a (fst (span cl s'))])%list
        else None
    | EmptyString => None
    end.
Proof.
  intros Hk. cbn [run]. destruct s as [|a s']; [reflexivity|].
  destruct (in_class cl a); [|reflexivity].
  rewrite many_committed.
  - now rewrite consumed_span.
  - intros b t Hb. now apply Hk.
Qed.

Lemma notlit_true (c a : ascii) : in_class (NotLit c) a = true <-> a <> c.
Proof.
  simpl. rewrite negb_true_iff. destruct (Ascii.eqb_spec a c); split; congruence.
Qed.

Lemma notlit_self (c : ascii) : in_class (NotLit c) c = false.
Proof. simpl. now rewrite Ascii.eqb_refl. Qed.

End ReFacts.

Module EnhanceScriptProps.
Import Re ReFacts EnhanceScript.

Local Open Scope string_scope.

Lemma run_seq (A : Type) (r1 r2 : regex) (s : string) (gs : list string)
    (k : string -> list string -> option A) :
  run (Seq r1 r2) s gs k = run r1 s gs (fun rest gs' => run r2 rest gs' k).
Proof. reflexivity. Qed.

Lemma run_one (A : Type) (cl : charclass) (s : string) (gs : list string)
    (k : string -> list string -> option A) :
  run (One cl) s gs k
  = match s with
    | String a s' => if in_class cl a then k s' gs else None
    | EmptyString => None
    end.
Proof. reflexivity. Qed.

Lemma run_many1_accepting (cl : charclass) (s : string) (gs : list string) :
  run (Many1 cl) s gs (fun _ g => Some g)
  = match s with
    | String a _ => if in_class cl a then Some gs else None
    | EmptyString => None
    end.
Proof.
  cbn [run]. destruct s as [|a s]; [reflexivity|].
  destruct (in_class cl a); [apply many_accepting | reflexivity].
Qed.

(** The match of the pattern, read off the input from left to right. *)
Lemma extract_repo_from_url_unfold (url : string) :
  extract_repo_from_url url
  = match strip_prefix "https://github.com/" url with
    | Some (String a s1) =>
        if in_class (NotLit "/") a then
          match snd (span (NotLit "/") s1) with
          | String c (String b s2) =>
              if in_class (Lit "/") c then
                if in_class (NotLit "/") b then
                  match strip_prefix "/pull/" (snd (span (NotLit "/") s2)) with
                  | Some (String d _) =>
                      if in_class Digit d
                      then Some (String a (fst (span (NotLit "/") s1)) ++ "/"
                                 ++ String b (fst (span (NotLit "/") s2)))
                      else None
                  | _ => None
                  end
                else None
              else None
          | _ => None
          end
        else None
    | _ => None
    end.
Proof.
  unfold extract_repo_from_url, re_match, pr_url_pattern.
  rewrite run_seq, run_text.
  destruct (strip_prefix "https://github.com/" url) as [s0|]; [|reflexivity].
  rewrite run_seq, run_group_many1.
  2:{ intros a t g Ha. rewrite run_seq, run_one.
      apply notlit_true in Ha. simpl.
      destruct (Ascii.eqb_spec a "/"); [contradiction | reflexivity]. }
  destruct s0 as [|a s1]; [reflexivity|].
  destruct (in_class (NotLit "/") a); [|reflexivity].
  rewrite run_seq, run_one.
  destruct (snd (span (NotLit "/") s1)) as [|c s2']; [reflexivity|].
  destruct (in_class (Lit "/") c).
  2:{ destruct s2'; reflexivity. }
  rewrite run_seq, run_group_many1.
  2:{ intros a' t g Ha. rewrite run_seq, run_text.
      apply notlit_true in Ha. simpl.
      destruct (Ascii.eqb_spec a' "/"); [contradiction | reflexivity]. }
  destruct s2' as [|b s2]; [reflexivity|].
  destruct (in_class (NotLit "/") b); [|reflexivity].
  rewrite run_seq, run_text.
  destruct (strip_prefix "/pull/" (snd (span (NotLit "/") s2))) as [s3|]; [|reflexivity].
  rewrite run_many1_accepting.
  destruct s3 as [|d s3]; [reflexivity|].
  destruct (in_class Digit d); reflexivity.
Qed.

Lemma all_in_class_cons (cl : charclass) (s : string) :
  s <> "" -> all_in_class cl s = true ->
  exists a s', s = String a s' /\ in_class cl a = true /\ all_in_class cl s' = true.
Proof.
  intros Hne H. destruct s as [|a s']; [contradiction|].
  simpl in H. apply andb_true_iff in H as [Ha Hs]. eauto.
Qed.

(** What the pattern accepts is a prefix of the input. *)
Lemma extract_of_prefix (url owner repo : string) :
  pr_url_prefix url owner repo ->
  extract_repo_from_url url = Some (owner ++ "/" ++ repo).
Proof.
  intros (d & rest & -> & Ho & Hoc & Hr & Hrc & Hd).
  destruct (@all_in_class_cons _ _ Ho Hoc) as (a & o & -> & Ha & Hoc').
  destruct (@all_in_class_cons _ _ Hr Hrc) as (b & r & -> & Hb & Hrc').
  rewrite extract_repo_from_url_unfold, strip_prefix_append.
  rewrite append_cons, Ha.
  change ("/" ++ String b r ++ "/pull/" ++ String d rest)
    with (String "/" (String b (r ++ String "/" ("pull/" ++ String d rest)))).
  rewrite (@span_stop _ _ _ _ Hoc' (notlit_self "/")). cbn [fst snd].
  change (in_class (Lit "/") "/") with true. cbn iota. rewrite Hb.
  rewrite (@span_stop _ _ _ _ Hrc' (notlit_self "/")). cbn [fst snd].
  change (String "/" ("pull/" ++ String d rest)) with ("/pull/" ++ String d rest).
  rewrite strip_prefix_append.
  change (in_class Digit d) with (is_digit d). rewrite Hd. reflexivity.
Qed.

Lemma prefix_of_extract (url result : string) :
  extract_repo_from_url url = Some result ->
  exists owner repo, pr_url_prefix url owner repo /\ result = owner ++ "/" ++ repo.
Proof.
  rewrite extract_repo_from_url_unfold.
  destruct (strip_prefix "https://github.com/" url) as [[|a s1]|] eqn:E0; try discriminate.
  destruct (in_class (NotLit "/") a) eqn:Ea; [|discriminate].
  destruct (snd (span (NotLit "/") s1)) as [|c [|b s2]] eqn:E1; try discriminate.
  destruct (in_class (Lit "/") c) eqn:Ec; [|discriminate].
  destruct (in_class (NotLit "/") b) eqn:Eb; [|discriminate].
  destruct (strip_prefix "/pull/" (snd (span (NotLit "/") s2))) as [[|d s3]|] eqn:E2;
    try discriminate.
  destruct (in_class Digit d) eqn:Ed; [|discriminate].
  intros [= <-].
  exists (String a (fst (span (NotLit "/") s1))), (String b (fst (span (NotLit "/") s2))).
  split; [|reflexivity].
  exists d, s3. repeat split.
  - apply strip_prefix_some in E0, E2. rewrite E0.
    rewrite <- (span_append (NotLit "/") s1) at 1. rewrite E1.
    simpl in Ec. apply Ascii.eqb_eq in Ec. subst c.
    rewrite <- (span_append (NotLit "/") s2) at 1. rewrite E2.
    reflexivity.
  - discriminate.
  - simpl all_in_class. now rewrite span_all_in_class, andb_true_r.
  - discriminate.
  - simpl all_in_class. now rewrite span_all_in_class, andb_true_r.
  - exact Ed.
Qed.

Lemma ends_in_digits (x digits : string) :
  digits <> "" -> all_in_class Digit digits = true ->
  ends_in_class Digit (x ++ digits) = true.
Proof.
  intros Hne Hd.
  assert (Hself : ends_in_class Digit digits = true).
  { clear x. induction digits as [|a s IH]; [contradiction|].
    simpl in Hd. apply andb_true_iff in Hd as [Ha Hs].
    destruct s as [|b s]; [exact Ha|]. apply IH; [discriminate | exact Hs]. }
  induction x as [|a x IH].
  - exact Hself.
  - rewrite append_cons. simpl.
    destruct (x ++ digits) as [|b t] eqn:E; [|exact IH].
    destruct x as [|c x'].
    + rewrite append_nil in E. contradiction.
    + rewrite append_cons in E. discriminate E.
Qed.



(** *** The enrichment loop *)

Section Loop.

Variable subprocess_run : list string -> option Py.CompletedProcess.
Variable json_loads : string -> option Py.json.
Variable enhanced_record :
  string -> string -> gmap string string -> Py.json -> Py.result (list (string * value)).

(** A string of digits never starts with a hyphen, so the guarded
    conversion of the "Additions" and "Deletions" cells cannot raise. *)
Lemma int_if_digits_ok (row : gmap string string) (key : string) :
  exists z, int_if_digits row key = Py.Ok z.
Proof.
  unfold int_if_digits, get. destruct (row !! key) as [v|].
  - destruct (isdigit v) eqn:E; [|eauto].
    destruct v as [|a v]; [discriminate|].
    unfold int_of_str.
    destruct a as [[] [] [] [] [] [] [] []]; try (rewrite E; eauto); discriminate.
  - simpl. eauto.
Qed.


(** One turn of the loop appends one record when the row's URL parses
    and none when it does not. *)
Lemma process_row_emits (row : gmap string string)
    (emitted : list (list (string * value))) :
  process_row subprocess_run json_loads enhanced_record row = Py.Ok emitted ->
  length emitted = if url_parses row then 1%nat else 0%nat.
Proof.
  unfold process_row, url_parses, getitem.
  destruct (row !! "URL") as [url|]; [|discriminate]. cbn [Py.bind].
  destruct (row !! "PR #") as [pr_number|]; [|discriminate]. cbn [Py.bind].
  destruct (extract_repo_from_url url) as [owner_repo|].
  2:{ intros [= <-]. reflexivity. }
  destruct (get_pr_details subprocess_run json_loads owner_repo pr_number) as [details|].
  - destruct (Py.truthy details).
    + destruct (enhanced_record owner_repo pr_number row details); [|discriminate].
      intros [= <-]. reflexivity.
    + destruct (reduced_record owner_repo pr_number row); [|discriminate].
      intros [= <-]. reflexivity.
  - destruct (reduced_record owner_repo pr_number row); [|discriminate].
    intros [= <-]. reflexivity.
Qed.

(** A run that completes has emitted exactly one record for each row
    whose URL parses, and none for the others. *)
Lemma enhance_pr_data_one_record_per_parsed_row (rows : list (gmap string string))
    (enhanced_prs : list (list (string * value))) :
  enhance_pr_data subprocess_run json_loads enhanced_record rows = Py.Ok enhanced_prs ->
  length enhanced_prs = length (List.filter url_parses rows).
Proof.
  revert enhanced_prs. induction rows as [|row rows IH]; intros enhanced_prs.
  - intros [= <-]. reflexivity.
  - cbn [enhance_pr_data].
    destruct (process_row subprocess_run json_loads enhanced_record row)
      as [emitted|] eqn:Erow; [|discriminate]. cbn [Py.bind].
    destruct (enhance_pr_data subprocess_run json_loads enhanced_record rows)
      as [later|]; [|discriminate]. cbn [Py.bind].
    intros [= <-]. rewrite length_app, (process_row_emits _ Erow), (IH later eq_refl).
    cbn [List.filter]. destruct (url_parses row); reflexivity.
Qed.

(** C8 (at a failing input): a row whose URL parses, whose CLI call
    fails and whose "Net Lines" cell reads [5-] makes the run raise
    [ValueError]; no record is emitted for it. *)
Theorem enhance_pr_data_raises_on_trailing_hyphen :
  get_pr_details subprocess_run json_loads "acme/widgets" "7" = None ->
  extract_repo_from_url "https://github.com/acme/widgets/pull/7" = Some "acme/widgets"
  /\ enhance_pr_data subprocess_run json_loads enhanced_record
       [csv_row "https://github.com/acme/widgets/pull/7" "7" "Add new feature" "5-"]
     = Py.Raise Py.ValueError.
Proof.
  intros HD. split; [reflexivity|].
  set (row := csv_row "https://github.com/acme/widgets/pull/7" "7" "Add new feature" "5-").
  assert (HU : getitem row "URL" = Py.Ok "https://github.com/acme/widgets/pull/7")
    by (vm_compute; reflexivity).
  assert (HP : getitem row "PR #" = Py.Ok "7") by (vm_compute; reflexivity).
  assert (HR : reduced_record "acme/widgets" "7" row = Py.Raise Py.ValueError)
    by (vm_compute; reflexivity).
  cbn [enhance_pr_data]. unfold process_row.
  rewrite HU. cbn [Py.bind]. rewrite HP. cbn [Py.bind].
  change (extract_repo_from_url "https://github.com/acme/widgets/pull/7")
    with (Some "acme/widgets").
  cbn iota. rewrite HD, HR. reflexivity.
Qed.

End Loop.


Lemma enhance_pr_data_on_two_rows :
  enhance_pr_data failing_cli no_json no_record
    [csv_row "https://gitlab.com/acme/widgets/pull/7" "7" "Elsewhere" "5";
     csv_row "https://github.com/acme/widgets/pull/8" "8" "Add new feature" "-30"]
  = Py.Ok
      [[("repository", VStr "acme/widgets");
        ("pr_number", VStr "8");
        ("title", VStr "Add new feature");
        ("original_state", VStr "MERGED");
        ("created_at", VStr "2024-01-15 10:30:00");
        ("merged_at", VStr "2024-01-16 14:20:00");
        ("closed_at", VStr "2024-01-16 14:20:00");
        ("original_additions", VInt 150);
        ("original_deletions", VInt 25);
        ("net_lines", VInt (-30));
        ("url", VStr "https://github.com/acme/widgets/pull/8");
        ("description", VStr "");
        ("enhancement_failed", VBool true)]]
  /\ length
       [[("repository", VStr "acme/widgets");
         ("pr_number", VStr "8");
         ("title", VStr "Add new feature");
         ("original_state", VStr "MERGED");
         ("created_at", VStr "2024-01-15 10:30:00");
         ("merged_at", VStr "2024-01-16 14:20:00");
         ("closed_at", VStr "2024-01-16 14:20:00");
         ("original_additions", VInt 150);
         ("original_deletions", VInt 25);
         ("net_lines", VInt (-30));
         ("url", VStr "https://github.com/acme/widgets/pull/8");
         ("description", VStr "");
         ("enhancement_failed", VBool true)]]
     = length
         (List.filter url_parses
            [csv_row "https://gitlab.com/acme/widgets/pull/7" "7" "Elsewhere" "5";
             csv_row "https://github.com/acme/widgets/pull/8" "8" "Add new feature" "-30"]).
Proof.
  assert (H : enhance_pr_data failing_cli no_json no_record
                [csv_row "https://gitlab.com/acme/widgets/pull/7" "7" "Elsewhere" "5";
                 csv_row "https://github.com/acme/widgets/pull/8" "8" "Add new feature" "-30"]
              = Py.Ok
                  [[("repository", VStr "acme/widgets");
                    ("pr_number", VStr "8");
                    ("title", VStr "Add new feature");
                    ("original_state", VStr "MERGED");
                    ("created_at", VStr "2024-01-15 10:30:00");
                    ("merged_at", VStr "2024-01-16 14:20:00");
                    ("closed_at", VStr "2024-01-16 14:20:00");
                    ("original_additions", VInt 150);
                    ("original_deletions", VInt 25);
                    ("net_lines", VInt (-30));
                    ("url", VStr "https://github.com/acme/widgets/pull/8");
                    ("description", VStr "");
                    ("enhancement_failed", VBool true)]])
    by (vm_compute; reflexivity).
  split; [exact H|].
  exact (@enhance_pr_data_one_record_per_parsed_row failing_cli no_json no_record _ _ H).
Defined.

Lemma enhance_pr_data_with_failing_cli :
  get_pr_details failing_cli no_json "acme/widgets" "7" = None
  /\ enhance_pr_data failing_cli no_json no_record
       [csv_row "https://github.com/acme/widgets/pull/7" "7" "Add new feature" "5-"]
     = Py.Raise Py.ValueError.
Proof.
  split; [reflexivity|].
  exact (proj2 (enhance_pr_data_raises_on_trailing_hyphen
                  failing_cli no_json no_record eq_refl)).
Defined.

End EnhanceScriptProps.

Module ScraperModelsProps.
Import ScraperModels.

Local Open Scope Q_scope.

Lemma min2_Qmin (a b : Q) : min2 a b = Qmin a b.
Proof.
  unfold min2, Qmin, GenericMinMax.gmin.
  rewrite <- (Qcompare_antisym a b). destruct (a ?= b); reflexivity.
Qed.

Lemma min2_le_cap (a b : Q) : min2 a b <= b.
Proof. rewrite min2_Qmin. apply Q.le_min_r. Qed.

Lemma min2_nonneg (a b : Q) : 0 <= a -> 0 <= b -> 0 <= min2 a b.
Proof. intros Ha Hb. rewrite min2_Qmin. apply Q.min_glb; assumption. Qed.

Lemma round_half_even_comp (q q' : Q) :
  q == q' -> Py.round_half_even q = Py.round_half_even q'.
Proof.
  intros H. unfold Py.round_half_even. cbv zeta.
  assert (Hf : Qfloor q = Qfloor q') by (apply Qfloor_comp; exact H).
  rewrite Hf.
  assert (Hc : (q - inject_Z (Qfloor q') ?= 1 # 2) = (q' - inject_Z (Qfloor q') ?= 1 # 2)).
  { apply Qcompare_comp; [rewrite H|]; reflexivity. }
  rewrite Hc. reflexivity.
Qed.

Lemma round2_comp (q q' : Q) : q == q' -> Py.round2 q = Py.round2 q'.
Proof.
  intros H. unfold Py.round2. f_equal. apply round_half_even_comp.
  rewrite H. reflexivity.
Qed.

(** Rounding to the nearest integer never crosses an integer. *)
Lemma round_half_even_lower (q : Q) (n : Z) :
  inject_Z n <= q -> (n <= Py.round_half_even q)%Z.
Proof.
  intros H. unfold Py.round_half_even. cbv zeta.
  assert (Hf : (n <= Qfloor q)%Z).
  { rewrite <- (Qfloor_Z n). apply Qfloor_resp_le. exact H. }
  destruct (q - inject_Z (Qfloor q) ?= 1 # 2); [destruct (Z.even (Qfloor q))| |]; lia.
Qed.

Lemma round_half_even_upper (q : Q) (n : Z) :
  q <= inject_Z n -> (Py.round_half_even q <= n)%Z.
Proof.
  intros H. unfold Py.round_half_even. cbv zeta.
  pose proof (Qfloor_le q) as Hle.
  assert (Hf : (Qfloor q <= n)%Z).
  { rewrite <- (Qfloor_Z n). apply Qfloor_resp_le. exact H. }
  assert (Hhalf : 1 # 2 <= q - inject_Z (Qfloor q) -> (Qfloor q + 1 <= n)%Z).
  { intros Hr.
    assert (Hlt : inject_Z (Qfloor q) < inject_Z n) by lra.
    rewrite <- Zlt_Qlt in Hlt. lia. }
  destruct (q - inject_Z (Qfloor q) ?= 1 # 2) eqn:E.
  - apply Qeq_alt in E. destruct (Z.even (Qfloor q)); [lia|].
    apply Hhalf. rewrite E. apply Qle_refl.
  - exact Hf.
  - apply Qgt_alt in E. apply Hhalf. apply Qlt_le_weak. exact E.
Qed.

Lemma round2_upper (q : Q) : q <= 55 -> Py.round2 q <= 55.
Proof.
  intros H. unfold Py.round2.
  assert (Hz : (Py.round_half_even (q * 100) <= 5500)%Z).
  { apply round_half_even_upper. change (inject_Z 5500) with (55 * 100). lra. }
  unfold Qle. simpl. lia.
Qed.

Lemma round2_lower (q : Q) : 0 <= q -> 0 <= Py.round2 q.
Proof.
  intros H. unfold Py.round2.
  assert (Hz : (0 <= Py.round_half_even (q * 100))%Z).
  { apply round_half_even_lower. change (inject_Z 0) with 0. lra. }
  unfold Qle. simpl. lia.
Qed.

(** Exact arithmetic is a rounding. *)
Lemma exact_is_float_rounding : Py.float_rounding Py.exact.
Proof.
  split; unfold Py.exact.
  - intros a b H. exact H.
  - intros n k _ _. reflexivity.
Qed.

Section Floats.

Variable fl : Q -> Q.
Hypothesis fl_ok : Py.float_rounding fl.

Lemma fl_comp (a b : Q) : a == b -> fl a == fl b.
Proof.
  intros H. apply Qle_antisym; apply (Py.fl_monotone fl_ok); rewrite H; apply Qle_refl.
Qed.

#[local] Instance fl_Proper : Proper (Qeq ==> Qeq) fl.
Proof. intros a b H. apply fl_comp. exact H. Qed.

(** Integers up to 2^53 in magnitude are doubles. *)
Lemma fl_int (n : Z) : (Z.abs n <= 2 ^ 53)%Z -> fl (inject_Z n) == inject_Z n.
Proof.
  intros Hn.
  assert (E : inject_Z n == inject_Z n / inject_Z (2 ^ Z.of_N 0)).
  { change (inject_Z (2 ^ Z.of_N 0)) with 1. field. }
  transitivity (fl (inject_Z n / inject_Z (2 ^ Z.of_N 0))); [apply fl_comp; exact E|].
  rewrite (@Py.fl_exact fl fl_ok n 0%N Hn) by lia. symmetry. exact E.
Qed.

Lemma fl_nonneg (a : Q) : 0 <= a -> 0 <= fl a.
Proof.
  intros H. rewrite <- (fl_int 0) by (simpl; lia).
  apply (Py.fl_monotone fl_ok). exact H.
Qed.

Lemma fl_le_int (a : Q) (n : Z) :
  (Z.abs n <= 2 ^ 53)%Z -> a <= inject_Z n -> fl a <= inject_Z n.
Proof.
  intros Hn H. rewrite <- (fl_int n Hn). apply (Py.fl_monotone fl_ok). exact H.
Qed.

(** Every partial sum stays under the sum of the caps met so far. *)
Lemma complexity_score_upper (self : GitHubPRData) : complexity_score fl self <= 55.
Proof.
  unfold complexity_score, Py.round. cbv zeta.
  set (t1 := min2 (fl (Py.float fl (total_files_changed (file_analysis self)) * fl (1 # 2))) 10).
  set (t2 := min2 (fl (Py.float fl (total_lines_changed self) * fl (1 # 100))) 20).
  set (t3 := min2 (inject_Z (review_cycles (review_metrics self) * 2)) 10).
  pose proof (min2_le_cap
                (fl (Py.float fl (total_files_changed (file_analysis self)) * fl (1 # 2))) 10)
    as H1.
  pose proof (min2_le_cap (fl (Py.float fl (total_lines_changed self) * fl (1 # 100))) 20)
    as H2.
  pose proof (min2_le_cap (inject_Z (review_cycles (review_metrics self) * 2)) 10) as H3.
  fold t1 in H1. fold t2 in H2. fold t3 in H3.
  assert (S1 : fl (0 + t1) <= inject_Z 10).
  { apply fl_le_int; [simpl; lia|]. change (inject_Z 10) with 10. lra. }
  assert (S2 : fl (fl (0 + t1) + t2) <= inject_Z 30).
  { apply fl_le_int; [simpl; lia|].
    change (inject_Z 10) with 10 in S1. change (inject_Z 30) with 30. lra. }
  assert (S3 : fl (fl (fl (0 + t1) + t2) + t3) <= inject_Z 40).
  { apply fl_le_int; [simpl; lia|].
    change (inject_Z 30) with 30 in S2. change (inject_Z 40) with 40. lra. }
  change (inject_Z 40) with 40 in S3.
  apply (fl_le_int (n := 55)); [simpl; lia|]. change (inject_Z 55) with 55.
  apply round2_upper.
  destruct (time_open_hours (time_metrics self)) as [h|]; [|lra].
  destruct (nonzero h); [|lra].
  pose proof (min2_le_cap (fl (h * fl (1 # 10))) 15) as H4.
  apply (fl_le_int (n := 55)); [simpl; lia|]. change (inject_Z 55) with 55. lra.
Qed.

Lemma complexity_score_lower (self : GitHubPRData) :
  (0 <= total_files_changed (file_analysis self))%Z ->
  (0 <= total_lines_changed self)%Z ->
  (0 <= review_cycles (review_metrics self))%Z ->
  (forall h, time_open_hours (time_metrics self) = Some h -> 0 <= h) ->
  0 <= complexity_score fl self.
Proof.
  intros Hf Hl Hc Hh.
  unfold complexity_score, Py.round, Py.float. cbv zeta.
  rewrite Zle_Qle in Hf, Hl. change (inject_Z 0) with 0 in Hf, Hl.
  assert (Hc2 : 0 <= inject_Z (review_cycles (review_metrics self) * 2)).
  { change 0 with (inject_Z 0). rewrite <- Zle_Qle. lia. }
  assert (K1 : 0 <= fl (1 # 2)) by (apply fl_nonneg; discriminate).
  assert (K2 : 0 <= fl (1 # 100)) by (apply fl_nonneg; discriminate).
  assert (K3 : 0 <= fl (1 # 10)) by (apply fl_nonneg; discriminate).
  assert (T1 : 0 <= min2 (fl (fl (inject_Z (total_files_changed (file_analysis self)))
                              * fl (1 # 2))) 10).
  { apply min2_nonneg; [|discriminate]. apply fl_nonneg.
    apply Qmult_le_0_compat; [apply fl_nonneg; exact Hf | exact K1]. }
  assert (T2 : 0 <= min2 (fl (fl (inject_Z (total_lines_changed self)) * fl (1 # 100))) 20).
  { apply min2_nonneg; [|discriminate]. apply fl_nonneg.
    apply Qmult_le_0_compat; [apply fl_nonneg; exact Hl | exact K2]. }
  assert (T3 : 0 <= min2 (inject_Z (review_cycles (review_metrics self) * 2)) 10).
  { apply min2_nonneg; [exact Hc2 | discriminate]. }
  set (t1 := min2 (fl (fl (inject_Z (total_files_changed (file_analysis self)))
                       * fl (1 # 2))) 10) in *.
  set (t2 := min2 (fl (fl (inject_Z (total_lines_changed self)) * fl (1 # 100))) 20) in *.
  set (t3 := min2 (inject_Z (review_cycles (review_metrics self) * 2)) 10) in *.
  assert (S1 : 0 <= fl (0 + t1)) by (apply fl_nonneg; lra).
  assert (S2 : 0 <= fl (fl (0 + t1) + t2)) by (apply fl_nonneg; lra).
  assert (S3 : 0 <= fl (fl (fl (0 + t1) + t2) + t3)) by (apply fl_nonneg; lra).
  apply fl_nonneg, round2_lower.
  destruct (time_open_hours (time_metrics self)) as [h|]; [|exact S3].
  destruct (nonzero h); [|exact S3].
  specialize (Hh h eq_refl).
  assert (T4 : 0 <= min2 (fl (h * fl (1 # 10))) 15).
  { apply min2_nonneg; [|discriminate]. apply fl_nonneg.
    apply Qmult_le_0_compat; assumption. }
  apply fl_nonneg. lra.
Qed.

(** With -2 changed files and nothing else the score is -1, under every
    rounding: each value met on the way is a double. *)
Lemma complexity_score_minus_one :
  complexity_score fl (pr_measuring (-2) 0 0 0 None) == -1.
Proof.
  unfold complexity_score, Py.round, Py.float. cbv zeta.
  change (total_files_changed (file_analysis (pr_measuring (-2) 0 0 0 None))) with (-2)%Z.
  change (total_lines_changed (pr_measuring (-2) 0 0 0 None)) with 0%Z.
  change (review_cycles (review_metrics (pr_measuring (-2) 0 0 0 None))) with 0%Z.
  change (time_open_hours (time_metrics (pr_measuring (-2) 0 0 0 None))) with (@None Q).
  cbv iota.
  assert (Hh : fl (1 # 2) == 1 # 2).
  { assert (E : 1 # 2 == inject_Z 1 / inject_Z (2 ^ Z.of_N 1)) by reflexivity.
    rewrite (fl_comp E). rewrite (@Py.fl_exact fl fl_ok 1 1%N); [reflexivity | simpl; lia | lia]. }
  assert (E1 : fl (fl (inject_Z (-2)) * fl (1 # 2)) == -1).
  { rewrite (fl_comp (a := fl (inject_Z (-2)) * fl (1 # 2)) (b := inject_Z (-1))).
    - apply fl_int. simpl. lia.
    - rewrite (fl_int (-2)) by (simpl; lia). rewrite Hh. reflexivity. }
  assert (M1 : min2 (fl (fl (inject_Z (-2)) * fl (1 # 2))) 10 == -1).
  { rewrite min2_Qmin. rewrite Q.min_l; [exact E1 | rewrite E1; discriminate]. }
  assert (E2 : fl (fl (inject_Z 0) * fl (1 # 100)) == 0).
  { rewrite (fl_comp (a := fl (inject_Z 0) * fl (1 # 100)) (b := inject_Z 0)).
    - apply fl_int. simpl. lia.
    - rewrite (fl_int 0) by (simpl; lia). change (inject_Z 0) with 0. ring. }
  assert (M2 : min2 (fl (fl (inject_Z 0) * fl (1 # 100))) 20 == 0).
  { rewrite min2_Qmin. rewrite Q.min_l; [exact E2 | rewrite E2; discriminate]. }
  assert (M3 : min2 (inject_Z (0 * 2)) 10 == 0) by reflexivity.
  assert (S1 : fl (0 + min2 (fl (fl (inject_Z (-2)) * fl (1 # 2))) 10) == -1).
  { rewrite (fl_comp (b := inject_Z (-1))); [apply fl_int; simpl; lia|].
    rewrite M1. reflexivity. }
  assert (S2 : fl (fl (0 + min2 (fl (fl (inject_Z (-2)) * fl (1 # 2))) 10)
                   + min2 (fl (fl (inject_Z 0) * fl (1 # 100))) 20) == -1).
  { rewrite (fl_comp (b := inject_Z (-1))); [apply fl_int; simpl; lia|].
    rewrite S1, M2. reflexivity. }
  assert (S3 : fl (fl (fl (0 + min2 (fl (fl (inject_Z (-2)) * fl (1 # 2))) 10)
                       + min2 (fl (fl (inject_Z 0) * fl (1 # 100))) 20)
                   + min2 (inject_Z (0 * 2)) 10) == -1).
  { rewrite (fl_comp (b := inject_Z (-1))); [apply fl_int; simpl; lia|].
    rewrite S2, M3. reflexivity. }
  rewrite (fl_comp (b := inject_Z (-1))); [apply fl_int; simpl; lia|].
  rewrite (round2_comp S3). reflexivity.
Qed.

End Floats.

(** In exact arithmetic the score is the rounded sum of the four capped
    terms. *)
Lemma complexity_score_formula (self : GitHubPRData) :
  complexity_score Py.exact self = Py.round2 (capped_terms self).
Proof.
  unfold complexity_score, capped_terms, Py.round, Py.float, Py.exact. cbv zeta.
  apply round2_comp. rewrite !min2_Qmin.
  assert (Hc : inject_Z (review_cycles (review_metrics self) * 2)
               == inject_Z (review_cycles (review_metrics self)) * 2).
  { rewrite inject_Z_mult. reflexivity. }
  destruct (time_open_hours (time_metrics self)) as [h|].
  - unfold nonzero. destruct (Qeq_bool h 0) eqn:E; simpl.
    + apply Qeq_bool_iff in E.
      assert (Hm : Qmin (h * (1 # 10)) 15 == 0).
      { rewrite Q.min_l; [rewrite E; reflexivity | rewrite E; discriminate]. }
      rewrite Hm, Hc. ring.
    + rewrite min2_Qmin, Hc. ring.
  - rewrite Hc. ring.
Qed.





End ScraperModelsProps.

Module CLIAnalyzerProps.
Import ScraperModels CLIAnalyzer.

Section Fetch.

Variable subprocess_run : list string -> option Py.CompletedProcess.
Variable json_loads : string -> option (list pr_json).
Variable fromisoformat : string -> option Py.datetime.
Variable fl : Q -> Q.

(** The loop returns at the first state whose fetch exits with status 0:
    the states after it are not run. *)
Lemma fetch_states_first_success (cmd : list string) (state : string)
    (states : list string) (repo username : string)
    (date_from date_to : option Py.datetime) (ran : list (list string))
    (result : Py.CompletedProcess) (prs_data : list pr_json) :
  subprocess_run (cmd ++ ["--state"; state]%string) = Some result ->
  Py.returncode result = 0%Z ->
  json_loads (Py.stdout result) = Some prs_data ->
  fetch_states subprocess_run json_loads fromisoformat fl cmd (state :: states)
    repo username date_from date_to ran
  = (returned_after fromisoformat fl prs_data repo username date_from date_to,
     ran ++ [cmd ++ ["--state"; state]%string]).
Proof.
  intros Hrun Hrc Hjson. cbn [fetch_states].
  rewrite Hrun, Hrc, Hjson. cbn [Z.eqb negb]. unfold returned_after.
  destruct date_from, date_to; cbn iota;
    try destruct (_filter_prs_by_date _ _ _); reflexivity.
Qed.

(** With [include_closed] set, a "closed" fetch that exits with status 0
    and prints JSON is the only command run, whatever [include_merged]
    is. *)
Lemma closed_fetch_is_the_only_one (repo username : string)
    (date_from date_to : option Py.datetime) (include_merged : bool)
    (result : Py.CompletedProcess) (prs_data : list pr_json) :
  subprocess_run (list_cmd repo username ++ ["--state"; "closed"]%string) = Some result ->
  Py.returncode result = 0%Z ->
  json_loads (Py.stdout result) = Some prs_data ->
  _get_prs_for_repo subprocess_run json_loads fromisoformat fl repo username
    date_from date_to true include_merged
  = (returned_after fromisoformat fl prs_data repo username date_from date_to,
     [list_cmd repo username ++ ["--state"; "closed"]%string]).
Proof.
  intros Hrun Hrc Hjson. unfold _get_prs_for_repo.
  destruct include_merged; cbn [app];
    rewrite (@fetch_states_first_success _ _ _ _ _ _ _ _ _ _ Hrun Hrc Hjson); reflexivity.
Qed.

(** Without a date bound, or with bounds that compare with every
    creation time, the converted and filtered list is returned. *)
Lemma returned_after_no_bounds (prs_data : list pr_json) (repo username : string) :
  returned_after fromisoformat fl prs_data repo username None None
  = _convert_to_pr_data fromisoformat fl prs_data username (Some repo).
Proof. reflexivity. Qed.

(** C3 (at a failing input): [include_closed] and [include_merged] are
    set, the "closed" fetch exits with status 0 and lists one pull
    request created on 15 January 2024 (an aware timestamp), and the
    lower date bound is the naive 1 January 2024.  Only the "closed"
    command is run; the converted pull request lies after the bound, yet
    the list returned is empty, because comparing its aware creation time
    with the naive bound raises. *)
Theorem closed_fetch_with_naive_bound_returns_nothing (repo username : string)
    (result : Py.CompletedProcess) :
  subprocess_run (list_cmd repo username ++ ["--state"; "closed"]%string) = Some result ->
  Py.returncode result = 0%Z ->
  json_loads (Py.stdout result) = Some [closed_pr_json] ->
  fromisoformat "2024-01-15T10:30:00+00:00"%string = Some jan_15_utc ->
  _get_prs_for_repo subprocess_run json_loads fromisoformat fl repo username
    (Some jan_1_naive) None true true
  = ([], [list_cmd repo username ++ ["--state"; "closed"]%string])
  /\ exists pr,
       _convert_to_pr_data fromisoformat fl [closed_pr_json] username (Some repo) = [pr]
       /\ created_at pr = jan_15_utc
       /\ (Py.wall jan_1_naive < Py.wall (created_at pr))%Z
       /\ _filter_prs_by_date [pr] (Some jan_1_naive) None = Py.Raise Py.TypeError.
Proof.
  intros Hrun Hrc Hjson Hiso.
  assert (Hconv : exists pr,
             _convert_to_pr_data fromisoformat fl [closed_pr_json] username (Some repo) = [pr]
             /\ created_at pr = jan_15_utc).
  { cbn [_convert_to_pr_data]. unfold convert_one.
    change (j_createdAt closed_pr_json) with (Some "2024-01-15T10:30:00Z"%string).
    cbn beta iota.
    change (replace_Z "2024-01-15T10:30:00Z") with "2024-01-15T10:30:00+00:00"%string.
    rewrite Hiso. cbn. eexists. split; reflexivity. }
  destruct Hconv as (pr & Hpr & Hcreated).
  assert (Hfilter : _filter_prs_by_date [pr] (Some jan_1_naive) None
                    = Py.Raise Py.TypeError).
  { cbn [_filter_prs_by_date]. rewrite Hcreated. reflexivity. }
  split.
  - rewrite (@closed_fetch_is_the_only_one _ _ _ _ _ _ _ Hrun Hrc Hjson).
    unfold returned_after. rewrite Hpr, Hfilter. reflexivity.
  - exists pr. rewrite Hcreated. repeat split; assumption.
Qed.

(** With [include_closed] set and a "closed" fetch that exits with
    status 0 and prints a JSON list, only the "closed" command is run,
    whatever [include_merged] is.  The converted list is returned as it is
    when no date bound is given, and filtered by date when one is; the
    empty list is returned when the filter raises. *)
Theorem first_successful_state_ends_the_fetch (repo username : string)
    (date_from date_to : option Py.datetime) (include_merged : bool)
    (result : Py.CompletedProcess) (prs_data : list pr_json) :
  subprocess_run (list_cmd repo username ++ ["--state"; "closed"]%string) = Some result ->
  Py.returncode result = 0%Z ->
  json_loads (Py.stdout result) = Some prs_data ->
  let repo_prs := _convert_to_pr_data fromisoformat fl prs_data username (Some repo) in
  let returned :=
    _get_prs_for_repo subprocess_run json_loads fromisoformat fl repo username
      date_from date_to true include_merged in
  snd returned = [list_cmd repo username ++ ["--state"; "closed"]%string]
  /\ (date_from = None -> date_to = None -> fst returned = repo_prs)
  /\ (forall filtered,
        date_from <> None \/ date_to <> None ->
        _filter_prs_by_date repo_prs date_from date_to = Py.Ok filtered ->
        fst returned = filtered)
  /\ (forall e,
        date_from <> None \/ date_to <> None ->
        _filter_prs_by_date repo_prs date_from date_to = Py.Raise e ->
        fst returned = []).
Proof.
  intros Hrun Hrc Hjson repo_prs returned. subst returned.
  rewrite (@closed_fetch_is_the_only_one _ _ _ _ _ _ _ Hrun Hrc Hjson).
  cbn [fst snd]. unfold returned_after. fold repo_prs.
  split; [reflexivity|]. split; [|split].
  - intros -> ->. reflexivity.
  - intros filtered Hb Hf. rewrite Hf.
    destruct date_from, date_to; try reflexivity. destruct Hb; contradiction.
  - intros e Hb Hf. rewrite Hf.
    destruct date_from, date_to; try reflexivity. destruct Hb; contradiction.
Qed.

End Fetch.

Local Open Scope string_scope.

Lemma closed_fetch_on_sample_cli :
  cli_printing "[{}]" (list_cmd "acme/widgets" "testuser" ++ ["--state"; "closed"])%list
  = Some {| Py.returncode := 0; Py.stdout := "[{}]"; Py.stderr := "" |}
  /\ one_closed_pr "[{}]" = Some [closed_pr_json]
  /\ parse_as_jan_15 "2024-01-15T10:30:00+00:00" = Some jan_15_utc
  /\ _get_prs_for_repo (cli_printing "[{}]") one_closed_pr parse_as_jan_15 Py.exact
       "acme/widgets" "testuser" (Some jan_1_naive) None true true
     = ([], [(list_cmd "acme/widgets" "testuser" ++ ["--state"; "closed"])%list]).
Proof.
  split; [reflexivity|]. split; [reflexivity|]. split; [reflexivity|].
  exact (proj1 (@closed_fetch_with_naive_bound_returns_nothing
                  (cli_printing "[{}]") one_closed_pr parse_as_jan_15 Py.exact
                  "acme/widgets" "testuser"
                  {| Py.returncode := 0; Py.stdout := "[{}]"; Py.stderr := "" |}
                  eq_refl eq_refl eq_refl eq_refl)).
Defined.

Lemma unbounded_fetch_on_sample_cli :
  cli_printing "[{}]" (list_cmd "acme/widgets" "testuser" ++ ["--state"; "closed"])%list
  = Some {| Py.returncode := 0; Py.stdout := "[{}]"; Py.stderr := "" |}
  /\ one_closed_pr "[{}]" = Some [closed_pr_json]
  /\ snd (_get_prs_for_repo (cli_printing "[{}]") one_closed_pr parse_as_jan_15 Py.exact
            "acme/widgets" "testuser" None None true true)
     = [(list_cmd "acme/widgets" "testuser" ++ ["--state"; "closed"])%list]
  /\ fst (_get_prs_for_repo (cli_printing "[{}]") one_closed_pr parse_as_jan_15 Py.exact
            "acme/widgets" "testuser" None None true true)
     = _convert_to_pr_data parse_as_jan_15 Py.exact [closed_pr_json] "testuser" (Some "acme/widgets").
Proof.
  split; [reflexivity|]. split; [reflexivity|].
  destruct (@first_successful_state_ends_the_fetch
              (cli_printing "[{}]") one_closed_pr parse_as_jan_15 Py.exact
              "acme/widgets" "testuser" None None true
              {| Py.returncode := 0; Py.stdout := "[{}]"; Py.stderr := "" |}
              [closed_pr_json] eq_refl eq_refl eq_refl) as (Hran & Hnone & _).
  split; [exact Hran | exact (Hnone eq_refl eq_refl)].
Defined.

End CLIAnalyzerProps.

Module FloatFacts.
Import ScraperModelsProps.
Local Open Scope Q_scope.

Lemma round2_le (q : Q) (n : Z) : q <= inject_Z n -> Py.round2 q <= inject_Z n.
Proof.
  intros H. unfold Py.round2.
  assert (Hz : (Py.round_half_even (q * 100) <= n * 100)%Z).
  { apply round_half_even_upper. rewrite inject_Z_mult. change (inject_Z 100) with 100.
    apply Qmult_le_compat_r; [exact H | discriminate]. }
  unfold Qle. simpl. lia.
Qed.

Lemma round2_ge (q : Q) (n : Z) : inject_Z n <= q -> inject_Z n <= Py.round2 q.
Proof.
  intros H. unfold Py.round2.
  assert (Hz : (n * 100 <= Py.round_half_even (q * 100))%Z).
  { apply round_half_even_lower. rewrite inject_Z_mult. change (inject_Z 100) with 100.
    apply Qmult_le_compat_r; [exact H | discriminate]. }
  unfold Qle. simpl. lia.
Qed.

Section Rounding.

Variable fl : Q -> Q.
Hypothesis fl_ok : Py.float_rounding fl.

Lemma fl_ge_int (a : Q) (n : Z) :
  (Z.abs n <= 2 ^ 53)%Z -> inject_Z n <= a -> inject_Z n <= fl a.
Proof.
  intros Hn H. rewrite <- (fl_int fl_ok n Hn). apply (Py.fl_monotone fl_ok). exact H.
Qed.

(** [round(x, 2)] keeps a value between the integers that bound it. *)
Lemma round_between (x : Q) (lo hi : Z) :
  (Z.abs lo <= 2 ^ 53)%Z -> (Z.abs hi <= 2 ^ 53)%Z ->
  inject_Z lo <= x <= inject_Z hi ->
  inject_Z lo <= Py.round fl x <= inject_Z hi.
Proof.
  intros Hlo Hhi [H1 H2]. unfold Py.round. split.
  - apply fl_ge_int; [exact Hlo|]. apply round2_ge. exact H1.
  - apply (fl_le_int fl_ok); [exact Hhi|]. apply round2_le. exact H2.
Qed.

(** A ratio of counts, as a percentage. *)
Lemma percentage_between (a b : Z) :
  (0 <= a <= b)%Z -> (0 < b)%Z ->
  0 <= fl (fl (inject_Z a / inject_Z b) * 100) <= 100.
Proof.
  intros [Ha Hab] Hb.
  assert (Hb' : 0 < inject_Z b) by (change 0 with (inject_Z 0); rewrite <- Zlt_Qlt; exact Hb).
  assert (Hq0 : 0 <= inject_Z a / inject_Z b).
  { apply Qle_shift_div_l; [exact Hb'|]. rewrite Qmult_0_l.
    change 0 with (inject_Z 0). rewrite <- Zle_Qle. exact Ha. }
  assert (Hq1 : inject_Z a / inject_Z b <= 1).
  { apply Qle_shift_div_r; [exact Hb'|]. rewrite Qmult_1_l. rewrite <- Zle_Qle. exact Hab. }
  assert (F0 : 0 <= fl (inject_Z a / inject_Z b)) by (apply (fl_nonneg fl_ok); exact Hq0).
  assert (F1 : fl (inject_Z a / inject_Z b) <= inject_Z 1).
  { apply (fl_le_int fl_ok); [simpl; lia | exact Hq1]. }
  change (inject_Z 1) with 1 in F1.
  split.
  - apply (fl_nonneg fl_ok). lra.
  - change 100 with (inject_Z 100). apply (fl_le_int fl_ok); [simpl; lia|].
    change (inject_Z 100) with 100. lra.
Qed.

Lemma percentage_of_all (b : Z) :
  (0 < b)%Z -> fl (fl (inject_Z b / inject_Z b) * 100) == 100.
Proof.
  intros Hb.
  assert (E : inject_Z b / inject_Z b == inject_Z 1).
  { change (inject_Z 1) with 1. field. intros H.
    unfold Qeq in H. simpl in H. lia. }
  assert (E1 : fl (inject_Z b / inject_Z b) == 1).
  { rewrite (fl_comp fl_ok E). apply (fl_int fl_ok). simpl. lia. }
  rewrite (fl_comp fl_ok (b := inject_Z 100)).
  - apply (fl_int fl_ok). simpl. lia.
  - rewrite E1. reflexivity.
Qed.

Lemma round_int (n : Z) :
  (Z.abs n <= 2 ^ 53)%Z -> Py.round fl (inject_Z n) == inject_Z n.
Proof.
  intros Hn. unfold Py.round.
  assert (E : Py.round2 (inject_Z n) == inject_Z n).
  { apply Qle_antisym; [apply round2_le | apply round2_ge]; apply Qle_refl. }
  rewrite (fl_comp fl_ok E). apply (fl_int fl_ok). exact Hn.
Qed.

Lemma round_comp (x y : Q) : x == y -> Py.round fl x == Py.round fl y.
Proof. intros H. unfold Py.round. rewrite (round2_comp H). reflexivity. Qed.

End Rounding.

End FloatFacts.

Module MetricsProps.
Import PatModels PatModelsFacts PatModelsProps Analyzer AnalyzerProps ScraperModelsProps FloatFacts.

Lemma len_filter_map (A B : Type) (f : A -> B) (p : B -> bool) (l : list A) :
  len (List.filter p (map f l)) = count_if (fun x => p (f x)) l.
Proof.
  rewrite count_if_length. unfold len. f_equal.
  induction l as [|x l IH]; simpl; [reflexivity|].
  destruct (p (f x)); simpl; rewrite IH; reflexivity.
Qed.

Lemma count_if_ext (A : Type) (p q : A -> bool) (l : list A) :
  (forall x, p x = q x) -> count_if p l = count_if q l.
Proof.
  intros H. induction l as [|x l IH]; [reflexivity|].
  rewrite !count_if_cons, IH, H. reflexivity.
Qed.

Lemma count_if_split (A : Type) (p q : A -> bool) (l : list A) :
  count_if (fun x => p x || q x) l
  = (count_if p l + count_if (fun x => negb (p x) && q x) l)%Z.
Proof.
  induction l as [|x l IH]; [reflexivity|].
  rewrite !count_if_cons, IH. destruct (p x), (q x); simpl; lia.
Qed.

Lemma count_if_all (A : Type) (p : A -> bool) (l : list A) :
  (forall x, In x l -> p x = true) -> count_if p l = len l.
Proof.
  intros H. induction l as [|x l IH]; [reflexivity|].
  rewrite count_if_cons, (H x) by (left; reflexivity).
  rewrite IH by (intros y Hy; apply H; right; exact Hy).
  unfold len. simpl length. lia.
Qed.

Lemma status_closed (pr : PRData) :
  String.eqb (status pr) "closed" = String.eqb (state pr) "closed" && negb (merged pr).
Proof.
  unfold status. destruct (merged pr); simpl.
  - rewrite andb_false_r. reflexivity.
  - rewrite andb_true_r. reflexivity.
Qed.

Lemma status_merged (pr : PRData) :
  String.eqb (status pr) "merged" = merged pr || String.eqb (state pr) "merged".
Proof. unfold status. destruct (merged pr); reflexivity. Qed.

Section Counts.

Variable set_iter : list string -> list string.
Variable today : Z.
Variable fl : Q -> Q.
Variable r : AnalysisResult.

Let m := calculate_contribution_metrics set_iter today fl (__init__ r).

Lemma prs_created_of : prs_created m = len (pull_requests r).
Proof.
  subst m. unfold calculate_contribution_metrics. cbn [pr_df commit_df __init__].
  unfold _create_pr_dataframe, _create_commit_dataframe. rewrite !empty_map.
  destruct (pull_requests r) as [|pr prs] eqn:E.
  - destruct (commits r); reflexivity.
  - cbn [empty andb negb prs_created]. unfold len. rewrite length_map. reflexivity.
Qed.

Lemma commits_made_of : commits_made m = len (commits r).
Proof.
  subst m. unfold calculate_contribution_metrics. cbn [pr_df commit_df __init__].
  unfold _create_pr_dataframe, _create_commit_dataframe. rewrite !empty_map.
  destruct (commits r) as [|c cs] eqn:E.
  - destruct (pull_requests r); reflexivity.
  - rewrite andb_false_r. cbn [empty negb commits_made]. unfold len.
    rewrite length_map. reflexivity.
Qed.

Lemma total_contributions_of :
  total_contributions m = (prs_created m + commits_made m)%Z.
Proof.
  subst m. unfold calculate_contribution_metrics.
  destruct (empty (pr_df (__init__ r)) && empty (commit_df (__init__ r))); reflexivity.
Qed.

Lemma prs_closed_of : prs_closed m = closed_prs r.
Proof.
  subst m. unfold calculate_contribution_metrics. cbn [pr_df commit_df __init__].
  unfold _create_pr_dataframe, _create_commit_dataframe. rewrite !empty_map.
  unfold closed_prs.
  destruct (pull_requests r) as [|pr prs] eqn:E.
  - destruct (commits r); reflexivity.
  - cbn [empty andb negb prs_closed].
    rewrite <- E. rewrite len_filter_map. apply count_if_ext.
    intros x. cbn [pr_status]. apply status_closed.
Qed.

Lemma prs_merged_of :
  prs_merged m
  = count_if (fun pr => merged pr || String.eqb (state pr) "merged") (pull_requests r).
Proof.
  subst m. unfold calculate_contribution_metrics. cbn [pr_df commit_df __init__].
  unfold _create_pr_dataframe, _create_commit_dataframe. rewrite !empty_map.
  destruct (pull_requests r) as [|pr prs] eqn:E.
  - destruct (commits r); reflexivity.
  - cbn [empty andb negb prs_merged].
    rewrite <- E. rewrite len_filter_map. apply count_if_ext.
    intros x. cbn [pr_status]. apply status_merged.
Qed.

Lemma merge_rate_of :
  merge_rate m
  = if empty (pull_requests r) && empty (commits r) then 0%Q
    else Py.round fl
           (if (prs_created m >? 0)%Z
            then fl (fl (inject_Z (prs_merged m) / inject_Z (prs_created m)) * 100)%Q
            else 0%Q).
Proof.
  subst m. unfold calculate_contribution_metrics. cbn [pr_df commit_df __init__].
  unfold _create_pr_dataframe, _create_commit_dataframe. rewrite !empty_map.
  destruct (empty (pull_requests r) && empty (commits r)); reflexivity.
Qed.

End Counts.

(** The metrics count every pull request and commit of the result once:
    [prs_created] and [commits_made] are the lengths of the two lists and
    [total_contributions] their sum; [prs_closed] is the result's
    [closed_prs]; [prs_merged] is the result's [merged_prs] plus the
    unmerged pull requests whose state reads "merged"; merged and closed
    pull requests together never exceed the pull requests created. *)
Theorem metrics_counts_agree_with_result
    (set_iter : list string -> list string) (today : Z) (fl : Q -> Q)
    (r : AnalysisResult) :
  let m := calculate_contribution_metrics set_iter today fl (__init__ r) in
  prs_created m = len (pull_requests r)
  /\ commits_made m = len (commits r)
  /\ total_contributions m = (len (pull_requests r) + len (commits r))%Z
  /\ prs_closed m = closed_prs r
  /\ prs_merged m
     = (merged_prs r
        + count_if (fun pr => negb (merged pr) && String.eqb (state pr) "merged")
                   (pull_requests r))%Z
  /\ (prs_merged m + prs_closed m <= prs_created m)%Z.
Proof.
  intros m. subst m.
  split; [apply prs_created_of|]. split; [apply commits_made_of|].
  split; [rewrite total_contributions_of, prs_created_of, commits_made_of; reflexivity|].
  split; [apply prs_closed_of|]. split.
  - rewrite prs_merged_of. unfold merged_prs. apply count_if_split.
  - rewrite prs_merged_of, prs_closed_of, prs_created_of. unfold closed_prs.
    apply count_if_disjoint. intros pr.
    destruct (merged pr); simpl; [rewrite andb_false_r; reflexivity|].
    destruct (String.eqb_spec (state pr) "merged") as [E|E]; [|reflexivity].
    rewrite E. reflexivity.
Qed.

Local Open Scope Q_scope.

(** [merge_rate] lies between 0 and 100; it is 0.0 without pull
    requests, where the division is skipped, and 100.0 when every pull
    request is merged. *)
Theorem merge_rate_is_a_percentage
    (set_iter : list string -> list string) (today : Z) (fl : Q -> Q)
    (r : AnalysisResult) :
  Py.float_rounding fl ->
  let m := calculate_contribution_metrics set_iter today fl (__init__ r) in
  0 <= merge_rate m <= 100
  /\ (pull_requests r = [] -> merge_rate m == 0)
  /\ (pull_requests r <> [] ->
      (forall pr, In pr (pull_requests r) -> merged pr = true) ->
      merge_rate m == 100).
Proof.
  intros Hfl m. subst m.
  pose proof (prs_created_of set_iter today fl r) as Hn.
  pose proof (prs_merged_of set_iter today fl r) as Hm.
  rewrite merge_rate_of.
  assert (Hb : (0 <= prs_merged (calculate_contribution_metrics set_iter today fl (__init__ r))
                <= prs_created (calculate_contribution_metrics set_iter today fl (__init__ r)))%Z).
  { rewrite Hm, Hn. apply count_if_bounds. }
  set (created := prs_created (calculate_contribution_metrics set_iter today fl (__init__ r))) in *.
  set (merged_n := prs_merged (calculate_contribution_metrics set_iter today fl (__init__ r))) in *.
  split; [|split].
  - destruct (empty (pull_requests r) && empty (commits r)); [split; discriminate|].
    change 0 with (inject_Z 0). change 100 with (inject_Z 100).
    apply (round_between Hfl); [simpl; lia | simpl; lia |].
    change (inject_Z 0) with 0. change (inject_Z 100) with 100.
    destruct (Z.gtb_spec created 0) as [Hpos|Hpos]; [|split; discriminate].
    apply (percentage_between Hfl); [exact Hb | lia].
  - intros E. assert (Hc : created = 0%Z) by (rewrite Hn, E; reflexivity).
    destruct (empty (pull_requests r) && empty (commits r)); [reflexivity|].
    rewrite Hc. cbn [Z.gtb Z.compare]. apply (round_int Hfl 0). simpl. lia.
  - intros Hne Hall.
    destruct (pull_requests r) as [|pr prs] eqn:E; [contradiction|].
    cbn [empty andb].
    assert (Hpos : (0 < created)%Z).
    { rewrite Hn. unfold len. simpl length. lia. }
    assert (Hmc : merged_n = created).
    { rewrite Hm, Hn. apply count_if_all. intros x Hx. rewrite (Hall x Hx). reflexivity. }
    destruct (Z.gtb_spec created 0) as [_|Hno]; [|lia].
    rewrite Hmc.
    rewrite (round_comp fl (percentage_of_all Hfl Hpos)).
    apply (round_int Hfl 100). simpl. lia.
Qed.

Lemma merge_rate_on_sample :
  Py.float_rounding Py.exact
  /\ merge_rate (calculate_contribution_metrics (nodup string_dec) 19742 Py.exact
                   (__init__ sample_analysis_result)) == 100.
Proof.
  split; [exact exact_is_float_rounding|].
  apply (proj2 (proj2 (merge_rate_is_a_percentage (nodup string_dec) 19742
                         sample_analysis_result exact_is_float_rounding))).
  - discriminate.
  - intros pr [<-|[]]. reflexivity.
Defined.

End MetricsProps.

Module RepositoryProps.
Import PatModels PatModelsFacts PatModelsProps Analyzer AnalyzerProps.

(** *** Hash sets *)

Section Sets.

Variable set_iter : list string -> list string.
Hypothesis set_iter_good : set_iter_ok set_iter.

Lemma set_iter_In (xs : list string) (x : string) : In x (set_iter xs) <-> In x xs.
Proof.
  split; intros H.
  - apply (Permutation_in _ (set_iter_good xs)) in H. apply nodup_In in H. exact H.
  - apply (Permutation_in _ (Permutation_sym (set_iter_good xs))). apply nodup_In. exact H.
Qed.

Lemma set_iter_NoDup (xs : list string) : NoDup (set_iter xs).
Proof.
  apply (Permutation_NoDup (Permutation_sym (set_iter_good xs))). apply NoDup_nodup.
Qed.

Lemma set_iter_nil : set_iter [] = [].
Proof. apply Permutation_nil. apply Permutation_sym. exact (set_iter_good []). Qed.

Lemma set_iter_length (xs : list string) :
  length (set_iter xs) = length (nodup string_dec xs).
Proof. apply Permutation_length. apply set_iter_good. Qed.

(** The union of two sets holds each element of either side once. *)
Lemma union_length (a b : list string) :
  length (set_iter (set_iter a ++ set_iter b)) = length (nodup string_dec (a ++ b)).
Proof.
  rewrite set_iter_length. apply Permutation_length.
  apply Permutation.NoDup_Permutation; try apply NoDup_nodup.
  intros x. rewrite !nodup_In, !in_app_iff, !set_iter_In. reflexivity.
Qed.

End Sets.

Lemma repositories_touched_of
    (set_iter : list string -> list string) (today : Z) (fl : Q -> Q)
    (r : AnalysisResult) :
  set_iter_ok set_iter ->
  repositories_touched (calculate_contribution_metrics set_iter today fl (__init__ r))
  = len (set_iter (set_iter (map repository (pull_requests r))
                   ++ set_iter (map c_repository (commits r)))).
Proof.
  intros Hok. unfold calculate_contribution_metrics. cbn [pr_df commit_df __init__].
  unfold _create_pr_dataframe, _create_commit_dataframe.
  rewrite !empty_map, !map_map. cbn [pr_repository cm_repository].
  destruct (pull_requests r) as [|pr prs], (commits r) as [|c cs];
    cbn [empty andb negb repositories_touched map];
    rewrite ?(set_iter_nil Hok); cbn [app]; rewrite ?(set_iter_nil Hok); reflexivity.
Qed.

(** *** Counters *)

Lemma tally_counter_add (k k' : string) (c : list (string * Z)) :
  tally k (counter_add k' c) = (tally k c + if String.eqb k k' then 1 else 0)%Z.
Proof.
  induction c as [|[k0 n] c IH]; simpl.
  - destruct (String.eqb k k'); reflexivity.
  - destruct (String.eqb_spec k' k0) as [->|Hne]; simpl.
    + destruct (String.eqb k k0); lia.
    + destruct (String.eqb_spec k k0) as [->|Hne'].
      * destruct (String.eqb_spec k0 k') as [<-|_]; [contradiction | lia].
      * exact IH.
Qed.

Lemma keys_counter_add (k : string) (c : list (string * Z)) (x : string) :
  In x (map fst (counter_add k c)) <-> x = k \/ In x (map fst c).
Proof.
  induction c as [|[k0 n] c IH]; simpl.
  - intuition.
  - destruct (String.eqb_spec k k0) as [->|Hne]; simpl.
    + intuition.
    + rewrite IH. intuition.
Qed.

Lemma NoDup_counter_add (k : string) (c : list (string * Z)) :
  NoDup (map fst c) -> NoDup (map fst (counter_add k c)).
Proof.
  induction c as [|[k0 n] c IH]; simpl; intros H.
  - constructor; [intros []|constructor].
  - inversion H as [|? ? Hnot Hnd]; subst.
    destruct (String.eqb_spec k k0) as [->|Hne]; simpl.
    + constructor; assumption.
    + constructor; [|apply IH; exact Hnd].
      intros Hin. apply keys_counter_add in Hin. destruct Hin as [->|Hin]; contradiction.
Qed.

Lemma counter_from (xs : list string) (c : list (string * Z)) :
  (forall k, tally k (fold_left (fun c k => counter_add k c) xs c)
             = (tally k c + Z.of_nat (count_occ string_dec xs k))%Z)
  /\ (forall k, In k (map fst (fold_left (fun c k => counter_add k c) xs c))
                <-> In k xs \/ In k (map fst c))
  /\ (NoDup (map fst c) ->
      NoDup (map fst (fold_left (fun c k => counter_add k c) xs c))).
Proof.
  revert c. induction xs as [|x xs IH]; intros c; cbn [fold_left].
  - split; [|split].
    + intros k. simpl. lia.
    + intros k. simpl. tauto.
    + tauto.
  - destruct (IH (counter_add x c)) as (Ht & Hk & Hn). split; [|split].
    + intros k. rewrite Ht, tally_counter_add. cbn [count_occ].
      destruct (string_dec x k) as [->|Hne].
      * rewrite String.eqb_refl. lia.
      * destruct (String.eqb_spec k x) as [->|_]; [contradiction | lia].
    + intros k. rewrite Hk, keys_counter_add. simpl. intuition.
    + intros H. apply Hn, NoDup_counter_add, H.
Qed.

Lemma tally_Counter (xs : list string) (k : string) :
  tally k (Counter xs) = Z.of_nat (count_occ string_dec xs k).
Proof. unfold Counter. rewrite (proj1 (counter_from xs [])). reflexivity. Qed.

Lemma keys_Counter (xs : list string) (k : string) :
  In k (map fst (Counter xs)) <-> In k xs.
Proof.
  unfold Counter. rewrite (proj1 (proj2 (counter_from xs []))). simpl. tauto.
Qed.

Lemma NoDup_Counter (xs : list string) : NoDup (map fst (Counter xs)).
Proof. unfold Counter. apply (proj2 (proj2 (counter_from xs []))). constructor. Qed.

Lemma tally_In (c : list (string * Z)) (k : string) (n : Z) :
  NoDup (map fst c) -> In (k, n) c -> tally k c = n.
Proof.
  induction c as [|[k0 n0] c IH]; simpl; intros Hnd H; [contradiction|].
  destruct H as [H|H].
  - injection H as -> ->. rewrite String.eqb_refl. reflexivity.
  - inversion Hnd as [|? ? Hnot Hnd']; subst.
    destruct (String.eqb_spec k k0) as [->|Hne].
    + exfalso. apply Hnot. apply (in_map fst) in H. exact H.
    + apply IH; assumption.
Qed.

(** The item picked holds a largest count. *)
Lemma max_by_count_spec (best : string * Z) (items : list (string * Z)) :
  In (max_by_count best items) (best :: items)
  /\ forall it, In it (best :: items) -> (snd it <= snd (max_by_count best items))%Z.
Proof.
  revert best. induction items as [|it items IH]; intros best; cbn [max_by_count].
  - split; [left; reflexivity|]. intros it [<-|[]]. lia.
  - destruct (Z.gtb_spec (snd it) (snd best)) as [Hgt|Hle].
    + destruct (IH it) as [Hin Hmax]. split.
      * right. exact Hin.
      * intros x [<-|Hx]; [|apply Hmax; exact Hx].
        specialize (Hmax it (or_introl eq_refl)). lia.
    + destruct (IH best) as [Hin Hmax]. split.
      * destruct Hin as [Hin|Hin]; [left; exact Hin | right; right; exact Hin].
      * intros x [<-|[<-|Hx]].
        -- apply Hmax. left. reflexivity.
        -- specialize (Hmax best (or_introl eq_refl)). lia.
        -- apply Hmax. right. exact Hx.
Qed.

(** The name picked from the counter of a non-empty list occurs in the
    list, at least as often as every other name. *)
Lemma most_common_1_Counter (xs : list string) :
  xs <> [] ->
  exists name n,
    most_common_1 (Counter xs) = [(name, n)]
    /\ In name xs
    /\ forall k, (count_occ string_dec xs k <= count_occ string_dec xs name)%nat.
Proof.
  intros Hne.
  destruct (Counter xs) as [|it items] eqn:E.
  - exfalso. destruct xs as [|x xs]; [contradiction|].
    assert (H : In x (map fst (Counter (x :: xs)))) by (apply keys_Counter; left; reflexivity).
    rewrite E in H. exact H.
  - cbn [most_common_1]. destruct (max_by_count_spec it items) as [Hin Hmax].
    destruct (max_by_count it items) as [name n] eqn:Em.
    exists name, n. split; [reflexivity|].
    rewrite <- E in Hin, Hmax.
    pose proof (NoDup_Counter xs) as Hnd.
    assert (Hn : n = Z.of_nat (count_occ string_dec xs name)).
    { rewrite <- tally_Counter. symmetry. apply tally_In; assumption. }
    split.
    + apply keys_Counter. apply (in_map fst) in Hin. exact Hin.
    + intros k. destruct (count_occ string_dec xs k) as [|c] eqn:Ec; [lia|].
      assert (Hk : In k xs) by (apply (count_occ_In string_dec); lia).
      apply keys_Counter in Hk. apply in_map_iff in Hk. destruct Hk as ([k' n'] & Hk' & Hk).
      simpl in Hk'. subst k'.
      pose proof (Hmax _ Hk) as Hle. cbn [snd] in Hle.
      assert (Hn' : n' = Z.of_nat (count_occ string_dec xs k)).
      { rewrite <- tally_Counter. symmetry. apply tally_In; assumption. }
      rewrite Ec in Hn'. lia.
Qed.

(** [repositories_touched] is the number of distinct repository names
    among the pull requests and the commits, in whatever order the hash
    sets are iterated. *)
Theorem repositories_touched_counts_distinct_names
    (set_iter : list string -> list string) (today : Z) (fl : Q -> Q)
    (r : AnalysisResult) :
  set_iter_ok set_iter ->
  repositories_touched (calculate_contribution_metrics set_iter today fl (__init__ r))
  = len (nodup string_dec (map repository (pull_requests r) ++ map c_repository (commits r))).
Proof.
  intros Hok. rewrite (repositories_touched_of today fl r Hok). unfold len.
  rewrite (union_length Hok). reflexivity.
Qed.

Lemma repositories_touched_on_widgets_and_gadgets :
  set_iter_ok (nodup string_dec)
  /\ repositories_touched
       (calculate_contribution_metrics (nodup string_dec) 19742 Py.exact
          (__init__ widgets_and_gadgets)) = 2%Z.
Proof.
  split; [exact nodup_set_iter_ok|].
  rewrite (repositories_touched_counts_distinct_names 19742 Py.exact widgets_and_gadgets
             nodup_set_iter_ok).
  reflexivity.
Defined.

Lemma count_occ_NoDup_le (l : list string) (x : string) :
  NoDup l -> (count_occ string_dec l x <= 1)%nat.
Proof. intros H. apply (proj1 (NoDup_count_occ string_dec l) H). Qed.

(** [most_active_repository] names a repository of the result, and one
    that has both pull requests and commits whenever there is one. *)
Theorem most_active_repository_prefers_shared_names
    (set_iter : list string -> list string) (today : Z) (fl : Q -> Q)
    (r : AnalysisResult) :
  set_iter_ok set_iter ->
  let name :=
    most_active_repository
      (calculate_contribution_metrics set_iter today fl (__init__ r)) in
  let pr_names := map repository (pull_requests r) in
  let commit_names := map c_repository (commits r) in
  (pull_requests r = [] -> commits r = [] -> name = ""%string)
  /\ (pull_requests r <> [] \/ commits r <> [] -> In name pr_names \/ In name commit_names)
  /\ ((exists shared, In shared pr_names /\ In shared commit_names) ->
      In name pr_names /\ In name commit_names).
Proof.
  intros Hok name pr_names commit_names. subst name.
  rewrite most_active_repository_unfold. cbn [pr_df commit_df __init__].
  unfold _create_pr_dataframe, _create_commit_dataframe.
  rewrite !empty_map, !map_map. cbn [pr_repository cm_repository].
  change (map (fun x : PRData => repository x) (pull_requests r)) with pr_names.
  change (map (fun x : CommitData => c_repository x) (commits r)) with commit_names.
  assert (Ha : (if negb (empty (pull_requests r)) then set_iter pr_names else [])
               = set_iter pr_names).
  { subst pr_names. destruct (pull_requests r); [|reflexivity].
    simpl. symmetry. apply (set_iter_nil Hok). }
  assert (Hb : (if negb (empty (commits r)) then set_iter commit_names else [])
               = set_iter commit_names).
  { subst commit_names. destruct (commits r); [|reflexivity].
    simpl. symmetry. apply (set_iter_nil Hok). }
  rewrite Ha, Hb. clear Ha Hb.
  split; [|split].
  - intros -> ->. reflexivity.
  - intros Hne.
    assert (E : empty (pull_requests r) && empty (commits r) = false).
    { destruct (pull_requests r), (commits r); try reflexivity.
      destruct Hne as [H|H]; contradiction. }
    rewrite E.
    assert (Hxs : set_iter pr_names ++ set_iter commit_names <> []).
    { intros Hnil. apply app_eq_nil in Hnil. destruct Hnil as [H1 H2].
      assert (P1 : pr_names = []).
      { destruct pr_names as [|x l] eqn:Ex; [reflexivity|].
        assert (Hin : In x (set_iter (x :: l))) by (apply (set_iter_In Hok); left; reflexivity).
        rewrite H1 in Hin. destruct Hin. }
      assert (P2 : commit_names = []).
      { destruct commit_names as [|x l] eqn:Ex; [reflexivity|].
        assert (Hin : In x (set_iter (x :: l))) by (apply (set_iter_In Hok); left; reflexivity).
        rewrite H2 in Hin. destruct Hin. }
      subst pr_names commit_names.
      apply map_eq_nil in P1, P2. destruct Hne as [H|H]; contradiction. }
    destruct (most_common_1_Counter Hxs) as (name & n & Ec & Hin & _).
    rewrite Ec. apply in_app_iff in Hin.
    destruct Hin as [Hin|Hin]; apply (proj1 (set_iter_In Hok _ _)) in Hin;
      [left | right]; exact Hin.
  - intros (shared & Hs1 & Hs2).
    assert (E : empty (pull_requests r) && empty (commits r) = false).
    { subst pr_names. destruct (pull_requests r); [destruct Hs1 | reflexivity]. }
    rewrite E.
    assert (Hxs : set_iter pr_names ++ set_iter commit_names <> []).
    { intros Hnil. apply app_eq_nil in Hnil. destruct Hnil as [H1 _].
      apply (proj2 (set_iter_In Hok _ _)) in Hs1. rewrite H1 in Hs1. destruct Hs1. }
    destruct (most_common_1_Counter Hxs) as (name & n & Ec & Hin & Hmax).
    rewrite Ec.
    specialize (Hmax shared). rewrite !count_occ_app in Hmax.
    pose proof (count_occ_NoDup_le name (set_iter_NoDup Hok pr_names)) as L1.
    pose proof (count_occ_NoDup_le name (set_iter_NoDup Hok commit_names)) as L2.
    assert (S1 : (count_occ string_dec (set_iter pr_names) shared > 0)%nat).
    { apply count_occ_In. apply (set_iter_In Hok). exact Hs1. }
    assert (S2 : (count_occ string_dec (set_iter commit_names) shared > 0)%nat).
    { apply count_occ_In. apply (set_iter_In Hok). exact Hs2. }
    split; apply (proj1 (set_iter_In Hok _ _)); apply (count_occ_In string_dec); lia.
Qed.

Lemma most_active_repository_on_widgets_and_gadgets :
  set_iter_ok (nodup string_dec)
  /\ (exists shared,
        In shared (map repository (pull_requests widgets_and_gadgets))
        /\ In shared (map c_repository (commits widgets_and_gadgets)))
  /\ In (most_active_repository
           (calculate_contribution_metrics (nodup string_dec) 19742 Py.exact
              (__init__ widgets_and_gadgets)))
        (map c_repository (commits widgets_and_gadgets)).
Proof.
  assert (H : exists shared,
             In shared (map repository (pull_requests widgets_and_gadgets))
             /\ In shared (map c_repository (commits widgets_and_gadgets))).
  { exists "gadgets"%string. split; simpl; tauto. }
  split; [exact nodup_set_iter_ok|]. split; [exact H|].
  exact (proj2 (proj2 (proj2 (most_active_repository_prefers_shared_names
                                19742 Py.exact widgets_and_gadgets nodup_set_iter_ok)) H)).
Defined.

End RepositoryProps.

Module StreakProps.
Import PatModels Analyzer AnalyzerProps.

Local Open Scope Z_scope.

Lemma existsb_eqb_In (x : Z) (seen : list Z) : existsb (Z.eqb x) seen = true <-> In x seen.
Proof.
  rewrite existsb_exists. split.
  - intros (y & Hy & E). apply Z.eqb_eq in E. subst. exact Hy.
  - intros H. exists x. split; [exact H | apply Z.eqb_refl].
Qed.

Lemma unique_from_In (seen l : list Z) (x : Z) :
  In x (unique_from seen l) <-> In x l /\ ~ In x seen.
Proof.
  revert seen. induction l as [|y l IH]; intros seen; cbn [unique_from].
  - simpl. tauto.
  - destruct (existsb (Z.eqb y) seen) eqn:E.
    + apply existsb_eqb_In in E. rewrite IH. simpl. split.
      * tauto.
      * intros [[->|H] Hn]; [contradiction | tauto].
    + assert (Hy : ~ In y seen).
      { intros H. apply existsb_eqb_In in H. congruence. }
      simpl. rewrite IH. simpl. split.
      * intros [->|[H Hn]]; [tauto|]. split; [tauto|]. intros Hs. apply Hn. right. exact Hs.
      * intros [[->|H] Hn]; [tauto|].
        destruct (Z.eq_dec y x) as [->|Hne]; [tauto|]. right. split; [exact H|].
        intros [E'|Hs]; [contradiction | contradiction].
Qed.

Lemma unique_from_NoDup (seen l : list Z) : NoDup (unique_from seen l).
Proof.
  revert seen. induction l as [|y l IH]; intros seen; cbn [unique_from].
  - constructor.
  - destruct (existsb (Z.eqb y) seen); [apply IH|].
    constructor; [|apply IH]. rewrite unique_from_In. simpl. tauto.
Qed.

Lemma insert_desc_In (x y : Z) (l : list Z) : In x (insert_desc y l) <-> x = y \/ In x l.
Proof.
  induction l as [|z l IH]; simpl.
  - intuition.
  - destruct (z <? y); simpl; [intuition|]. rewrite IH. intuition.
Qed.

Lemma insert_desc_sorted (y : Z) (l : list Z) :
  StronglySorted Z.gt l -> ~ In y l -> StronglySorted Z.gt (insert_desc y l).
Proof.
  induction l as [|z l IH]; simpl; intros Hs Hn.
  - constructor; constructor.
  - inversion Hs as [|? ? Hs' Hall]; subst.
    destruct (Z.ltb_spec z y) as [Hlt|Hge].
    + constructor; [exact Hs|]. constructor; [lia|].
      rewrite Forall_forall in *. intros w Hw. specialize (Hall w Hw). lia.
    + constructor.
      * apply IH; [exact Hs' | tauto].
      * rewrite Forall_forall in *. intros w Hw. apply insert_desc_In in Hw.
        destruct Hw as [->|Hw]; [|apply Hall; exact Hw].
        assert (z <> y) by tauto. lia.
Qed.

Lemma sorted_reverse_In (l : list Z) (x : Z) : In x (sorted_reverse l) <-> In x l.
Proof.
  induction l as [|y l IH]; simpl; [tauto|].
  rewrite insert_desc_In, IH. intuition.
Qed.

Lemma sorted_reverse_sorted (l : list Z) :
  NoDup l -> StronglySorted Z.gt (sorted_reverse l).
Proof.
  induction l as [|y l IH]; simpl; intros H.
  - constructor.
  - inversion H; subst. apply insert_desc_sorted; [apply IH; assumption|].
    rewrite sorted_reverse_In. assumption.
Qed.

Lemma expected_day_next (today : Z) (i : nat) :
  expected_day today (S i) = expected_day today i - Z.of_nat (S i).
Proof. unfold expected_day. cbn [triangular]. lia. Qed.

(** The loop counts a prefix of the dates: the one that follows the
    expected days. *)
Lemma streak_loop_spec (today : Z) (days : list Z) (i : nat) (current_date : Z) :
  current_date - Z.of_nat i = expected_day today i ->
  exists j : nat,
    streak_loop days (Z.of_nat i) current_date = Z.of_nat (i + j)
    /\ (j <= length days)%nat
    /\ (forall n, (n < j)%nat -> nth n days 0 = expected_day today (i + n))
    /\ ((j < length days)%nat -> nth j days 0 <> expected_day today (i + j)).
Proof.
  revert i current_date. induction days as [|d days IH]; intros i c Hc; cbn [streak_loop].
  - exists 0%nat. rewrite Nat.add_0_r. repeat split.
    + lia.
    + intros n Hn. lia.
    + simpl. lia.
  - destruct (Z.eqb_spec (c - d) (Z.of_nat i)) as [E|E].
    + assert (Hd : d = expected_day today i) by lia.
      destruct (IH (S i) d) as (j & Hj & Hlen & Hpre & Hstop).
      { rewrite expected_day_next. lia. }
      exists (S j). replace (Z.of_nat i + 1) with (Z.of_nat (S i)) by lia.
      rewrite Hj. repeat split.
      * f_equal. lia.
      * simpl. lia.
      * intros [|n] Hn; cbn [nth].
        -- rewrite Nat.add_0_r. exact Hd.
        -- replace (i + S n)%nat with (S i + n)%nat by lia. apply Hpre. lia.
      * cbn [nth length]. intros Hlt.
        replace (i + S j)%nat with (S i + j)%nat by lia. apply Hstop. lia.
    + exists 0%nat. rewrite Nat.add_0_r. repeat split.
      * lia.
      * intros n Hn. lia.
      * intros _. cbn [nth]. lia.
Qed.

Section Streak.

Variable set_iter : list string -> list string.
Variable today : Z.
Variable fl : Q -> Q.
Variable r : AnalysisResult.

(** The distinct commit days, latest first. *)
Let days := sorted_reverse (unique (commit_days r)).

Lemma days_sorted : StronglySorted Z.gt days.
Proof. apply sorted_reverse_sorted. apply unique_from_NoDup. Qed.

Lemma days_In (d : Z) : In d days <-> In d (commit_days r).
Proof.
  unfold days. rewrite sorted_reverse_In. unfold unique. rewrite unique_from_In.
  simpl. tauto.
Qed.

Lemma contribution_streak_of :
  contribution_streak (calculate_contribution_metrics set_iter today fl (__init__ r))
  = streak_loop days 0 today.
Proof.
  rewrite contribution_streak_unfold. unfold _calculate_contribution_streak.
  rewrite commit_dates_of. fold (commit_days r). fold days.
  cbn [pr_df commit_df __init__]. unfold _create_pr_dataframe, _create_commit_dataframe.
  rewrite !empty_map.
  destruct (commits r) as [|c cs] eqn:E.
  - assert (Hd : days = []) by (unfold days, commit_days; rewrite E; reflexivity).
    rewrite Hd. destruct (empty (pull_requests r)); reflexivity.
  - rewrite andb_false_r. cbn [empty]. destruct days; reflexivity.
Qed.

Lemma streak_spec :
  exists k : nat,
    contribution_streak (calculate_contribution_metrics set_iter today fl (__init__ r))
    = Z.of_nat k
    /\ (k <= length days)%nat
    /\ (forall i, (i < k)%nat -> nth i days 0 = expected_day today i)
    /\ ((k < length days)%nat -> nth k days 0 <> expected_day today k).
Proof.
  rewrite contribution_streak_of.
  destruct (@streak_loop_spec today days 0 today) as (j & Hj & Hlen & Hpre & Hstop).
  { unfold expected_day. simpl. lia. }
  exists j. repeat split; assumption.
Qed.

End Streak.

(** The streak is the number of leading commit days that follow the
    pattern today, 1 day earlier, 2 days before that, 3 days before
    that, ... *)
Theorem contribution_streak_follows_widening_gaps
    (set_iter : list string -> list string) (today : Z) (fl : Q -> Q)
    (r : AnalysisResult) :
  exists (days : list Z) (k : nat),
    StronglySorted Z.gt days
    /\ (forall d, In d days <-> In d (commit_days r))
    /\ contribution_streak
         (calculate_contribution_metrics set_iter today fl (__init__ r)) = Z.of_nat k
    /\ (k <= length days)%nat
    /\ (forall i, (i < k)%nat -> nth i days 0 = expected_day today i)
    /\ ((k < length days)%nat -> nth k days 0 <> expected_day today k).
Proof.
  destruct (streak_spec set_iter today fl r) as (k & Hk & Hlen & Hpre & Hstop).
  exists (sorted_reverse (unique (commit_days r))), k.
  split; [apply days_sorted|]. split; [apply days_In|].
  repeat split; assumption.
Qed.

Lemma sorted_head_max (d : Z) (days : list Z) (x : Z) :
  StronglySorted Z.gt (d :: days) -> In x (d :: days) -> x <= d.
Proof.
  intros Hs [->|Hx]; [lia|].
  inversion Hs as [|? ? _ Hall]; subst. rewrite Forall_forall in Hall.
  specialize (Hall x Hx). lia.
Qed.

Lemma expected_days (today : Z) :
  expected_day today 0 = today
  /\ expected_day today 1 = today - 1
  /\ expected_day today 2 = today - 3.
Proof. unfold expected_day. simpl. lia. Qed.

(** The streak is never negative; it is at least 1 exactly when there
    is a commit today and none on a later day; a streak of 2 or more
    needs a commit yesterday; and since the third day expected is three
    days back, a commit two days back caps the streak at 2. *)
Theorem contribution_streak_stops_at_the_day_before_yesterday
    (set_iter : list string -> list string) (today : Z) (fl : Q -> Q)
    (r : AnalysisResult) :
  let streak :=
    contribution_streak (calculate_contribution_metrics set_iter today fl (__init__ r)) in
  0 <= streak
  /\ (1 <= streak <->
      In today (commit_days r) /\ forall d, In d (commit_days r) -> d <= today)
  /\ (2 <= streak -> In (today - 1) (commit_days r))
  /\ (In (today - 2) (commit_days r) -> streak <= 2).
Proof.
  intros streak. subst streak.
  destruct (streak_spec set_iter today fl r) as (k & Hk & Hlen & Hpre & Hstop).
  pose proof (days_sorted r) as Hs. pose proof (days_In r) as Hin.
  destruct (expected_days today) as (E0 & E1 & E2).
  set (days := sorted_reverse (unique (commit_days r))) in *.
  rewrite Hk. split; [lia|]. split; [|split].
  - split.
    + intros H1. assert (Hk1 : (0 < k)%nat) by lia.
      pose proof (Hpre 0%nat Hk1) as H0. rewrite E0 in H0.
      destruct days as [|d0 rest]; [simpl in Hlen; lia|]. cbn [nth] in H0. subst d0.
      split.
      * apply Hin. left. reflexivity.
      * intros d Hd. apply Hin in Hd. apply (sorted_head_max Hs Hd).
    + intros [Ht Hmax]. destruct k as [|k]; [|lia]. exfalso.
      apply Hin in Ht. destruct days as [|d0 rest]; [destruct Ht|].
      apply Hstop; [simpl; lia|]. cbn [nth]. rewrite E0.
      assert (d0 <= today) by (apply Hmax, Hin; left; reflexivity).
      pose proof (sorted_head_max Hs Ht). lia.
  - intros H2. assert (Hk1 : (1 < k)%nat) by lia.
    apply Hin. rewrite <- E1, <- (Hpre 1%nat Hk1). apply nth_In. lia.
  - intros Hd. apply Hin in Hd.
    destruct (Nat.le_gt_cases k 2) as [Hle|Hgt]; [lia|]. exfalso.
    pose proof (Hpre 0%nat ltac:(lia)) as H0.
    pose proof (Hpre 1%nat ltac:(lia)) as H1.
    pose proof (Hpre 2%nat ltac:(lia)) as H2.
    rewrite E0 in H0. rewrite E1 in H1. rewrite E2 in H2.
    destruct days as [|a [|b [|c rest]]]; try (simpl in Hlen; lia).
    cbn [nth] in H0, H1, H2.
    inversion Hs as [|? ? Hs1 _]; subst. inversion Hs1 as [|? ? Hs2 _]; subst.
    pose proof (@sorted_head_max _ _ (today - 2) Hs2) as Hc.
    destruct Hd as [E|[E|Hd]]; [lia | lia |].
    specialize (Hc Hd). lia.
Qed.

End StreakProps.

Module SortFacts.

Local Open Scope Z_scope.

Lemma insert_reverse_perm (A : Type) (key : A -> Z) (x : A) (l : list A) :
  Permutation (Py.insert_reverse key x l) (x :: l).
Proof.
  induction l as [|y l IH]; simpl; [apply Permutation_refl|].
  destruct (key x <? key y); [|apply Permutation_refl].
  apply (Permutation_trans (l' := y :: x :: l)); [|apply perm_swap].
  apply perm_skip. exact IH.
Qed.

Lemma sorted_reverse_by_perm (A : Type) (key : A -> Z) (l : list A) :
  Permutation (Py.sorted_reverse_by key l) l.
Proof.
  induction l as [|x l IH]; simpl; [apply Permutation_refl|].
  apply (Permutation_trans (insert_reverse_perm key x _)). apply perm_skip. exact IH.
Qed.

Lemma insert_reverse_sorted (A : Type) (key : A -> Z) (x : A) (l : list A) :
  StronglySorted (fun a b => key b <= key a) l ->
  StronglySorted (fun a b => key b <= key a) (Py.insert_reverse key x l).
Proof.
  induction l as [|y l IH]; simpl; intros Hs.
  - constructor; constructor.
  - inversion Hs as [|? ? Hs' Hall]; subst.
    destruct (Z.ltb_spec (key x) (key y)) as [Hlt|Hge].
    + constructor; [apply IH; exact Hs'|].
      rewrite Forall_forall in *. intros w Hw.
      apply (Permutation_in _ (insert_reverse_perm key x l)) in Hw.
      destruct Hw as [<-|Hw]; [lia | apply Hall; exact Hw].
    + constructor; [exact Hs|]. constructor; [exact Hge|].
      rewrite Forall_forall in *. intros w Hw. specialize (Hall w Hw). lia.
Qed.

Lemma sorted_reverse_by_sorted (A : Type) (key : A -> Z) (l : list A) :
  StronglySorted (fun a b => key b <= key a) (Py.sorted_reverse_by key l).
Proof.
  induction l as [|x l IH]; simpl; [constructor|].
  apply insert_reverse_sorted. exact IH.
Qed.

(** The first element of the sort holds a largest key. *)
Lemma sorted_reverse_by_head (A : Type) (key : A -> Z) (l : list A) (x : A) (rest : list A) :
  Py.sorted_reverse_by key l = x :: rest ->
  In x l /\ forall y, In y l -> key y <= key x.
Proof.
  intros E. pose proof (sorted_reverse_by_sorted key l) as Hs.
  pose proof (sorted_reverse_by_perm key l) as Hp. rewrite E in Hs, Hp.
  split.
  - apply (Permutation_in _ Hp). left. reflexivity.
  - intros y Hy. apply (Permutation_in _ (Permutation_sym Hp)) in Hy.
    destruct Hy as [<-|Hy]; [lia|].
    inversion Hs as [|? ? _ Hall]; subst. rewrite Forall_forall in Hall. apply Hall, Hy.
Qed.

Lemma insert_str_perm (x : string) (l : list string) :
  Permutation (Py.insert_str x l) (x :: l).
Proof.
  induction l as [|y l IH]; simpl; [apply Permutation_refl|].
  destruct (String.ltb y x); [|apply Permutation_refl].
  apply (Permutation_trans (l' := y :: x :: l)); [|apply perm_swap].
  apply perm_skip. exact IH.
Qed.

Lemma sorted_str_perm (l : list string) : Permutation (Py.sorted_str l) l.
Proof.
  induction l as [|x l IH]; simpl; [apply Permutation_refl|].
  apply (Permutation_trans (insert_str_perm x _)). apply perm_skip. exact IH.
Qed.

End SortFacts.

Module BreakdownProps.
Import PatModels Analyzer SortFacts.

Local Open Scope Z_scope.

(** *** Groups *)

Lemma groupby_keys_NoDup (A : Type) (repository : A -> string) (df : list A) :
  NoDup (map fst (groupby repository df)).
Proof.
  unfold groupby. rewrite map_map. cbn [fst]. rewrite map_id.
  apply (Permutation_NoDup (Permutation_sym (sorted_str_perm _))). apply NoDup_nodup.
Qed.

Lemma groupby_In (A : Type) (repository : A -> string) (df : list A)
    (repo : string) (rows : list A) :
  In (repo, rows) (groupby repository df) <->
  In repo (map repository df)
  /\ rows = List.filter (fun row => String.eqb (repository row) repo) df.
Proof.
  unfold groupby. rewrite in_map_iff. split.
  - intros (k & E & Hk). injection E as -> <-. split; [|reflexivity].
    apply (Permutation_in _ (sorted_str_perm _)) in Hk. apply nodup_In in Hk. exact Hk.
  - intros [Hin ->]. exists repo. split; [reflexivity|].
    apply (Permutation_in _ (Permutation_sym (sorted_str_perm _))). apply nodup_In. exact Hin.
Qed.

(** *** The statistics table *)

Lemma stats_of_update (repo repo' : string) (f : RepoStats -> RepoStats)
    (repo_stats : list (string * RepoStats)) :
  stats_of repo (update repo' f repo_stats)
  = if String.eqb repo repo'
    then Some (f (match stats_of repo repo_stats with
                  | Some stats => stats
                  | None => RepoStats_default
                  end))
    else stats_of repo repo_stats.
Proof.
  induction repo_stats as [|[k v] rest IH]; cbn [update stats_of].
  - destruct (String.eqb repo repo'); reflexivity.
  - destruct (String.eqb_spec repo' k) as [->|Hne]; cbn [stats_of].
    + destruct (String.eqb repo k); reflexivity.
    + destruct (String.eqb_spec repo k) as [->|Hne'].
      * destruct (String.eqb_spec k repo') as [<-|_]; [contradiction | reflexivity].
      * exact IH.
Qed.

Lemma update_keys (repo : string) (f : RepoStats -> RepoStats)
    (repo_stats : list (string * RepoStats)) (k : string) :
  In k (map fst (update repo f repo_stats)) <-> k = repo \/ In k (map fst repo_stats).
Proof.
  induction repo_stats as [|[k0 v] rest IH]; cbn [update map fst In].
  - intuition.
  - destruct (String.eqb_spec repo k0) as [->|Hne]; cbn [map fst In].
    + intuition.
    + rewrite IH. intuition.
Qed.

Lemma update_NoDup (repo : string) (f : RepoStats -> RepoStats)
    (repo_stats : list (string * RepoStats)) :
  NoDup (map fst repo_stats) -> NoDup (map fst (update repo f repo_stats)).
Proof.
  induction repo_stats as [|[k0 v] rest IH]; cbn [update map fst]; intros H.
  - constructor; [intros []|constructor].
  - inversion H as [|? ? Hnot Hnd]; subst.
    destruct (String.eqb_spec repo k0) as [->|Hne]; cbn [map fst].
    + constructor; assumption.
    + constructor; [|apply IH; exact Hnd].
      intros Hin. apply update_keys in Hin. destruct Hin as [->|Hin]; contradiction.
Qed.

Lemma stats_of_In (repo_stats : list (string * RepoStats)) (repo : string)
    (stats : RepoStats) :
  NoDup (map fst repo_stats) ->
  (In (repo, stats) repo_stats <-> stats_of repo repo_stats = Some stats).
Proof.
  induction repo_stats as [|[k v] rest IH]; cbn [stats_of map fst In]; intros Hnd.
  - split; [intros [] | discriminate].
  - inversion Hnd as [|? ? Hnot Hnd']; subst.
    destruct (String.eqb_spec repo k) as [->|Hne].
    + split.
      * intros [E|Hin]; [injection E as ->; reflexivity|].
        exfalso. apply Hnot. apply (in_map fst) in Hin. exact Hin.
      * intros [= ->]. left. reflexivity.
    + rewrite <- (IH Hnd'). split.
      * intros [E|Hin]; [injection E as -> _; contradiction | exact Hin].
      * intros Hin. right. exact Hin.
Qed.

Lemma stats_of_keys (repo_stats : list (string * RepoStats)) (repo : string) :
  In repo (map fst repo_stats) <-> stats_of repo repo_stats <> None.
Proof.
  induction repo_stats as [|[k v] rest IH]; cbn [stats_of map fst In].
  - split; [intros [] | intros H; contradiction].
  - destruct (String.eqb_spec repo k) as [->|Hne].
    + split; [discriminate | intros _; left; reflexivity].
    + rewrite <- IH. split.
      * intros [E|H]; [symmetry in E; contradiction | exact H].
      * intros H. right. exact H.
Qed.

Lemma find_none_of (A : Type) (f : A -> bool) (l : list A) :
  (forall x, In x l -> f x = false) -> find f l = None.
Proof.
  induction l as [|x l IH]; intros H; [reflexivity|]. cbn [find].
  rewrite (H x) by (left; reflexivity). apply IH. intros y Hy. apply H. right. exact Hy.
Qed.

(** A loop over groups with distinct keys updates each key once. *)
Lemma fold_groups (A : Type) (g : list A -> RepoStats -> RepoStats)
    (groups : list (string * list A)) (repo_stats : list (string * RepoStats)) :
  NoDup (map fst groups) ->
  let table :=
    fold_left (fun t (group : string * list A) =>
                 let (repo, rows) := group in update repo (g rows) t)
              groups repo_stats in
  (forall repo,
     stats_of repo table
     = match find (fun group => String.eqb repo (fst group)) groups with
       | Some (_, rows) =>
           Some (g rows (match stats_of repo repo_stats with
                         | Some stats => stats
                         | None => RepoStats_default
                         end))
       | None => stats_of repo repo_stats
       end)
  /\ (NoDup (map fst repo_stats) -> NoDup (map fst table)).
Proof.
  revert repo_stats. induction groups as [|[k rows] groups IH]; intros repo_stats Hnd table.
  - subst table. cbn [fold_left find]. split; [reflexivity | tauto].
  - inversion Hnd as [|? ? Hnot Hnd']; subst.
    subst table. cbn [fold_left].
    destruct (IH (update k (g rows) repo_stats) Hnd') as [Hs Hn]. split.
    + intros repo. rewrite Hs. cbn [find fst].
      destruct (String.eqb_spec repo k) as [->|Hne].
      * assert (Hf : find (fun group => String.eqb k (fst group)) groups = None).
        { apply find_none_of. intros [k' r'] Hin. cbn [fst].
          destruct (String.eqb_spec k k') as [<-|]; [|reflexivity].
          exfalso. apply Hnot. apply (in_map fst) in Hin. exact Hin. }
        rewrite Hf, stats_of_update, String.eqb_refl. reflexivity.
      * rewrite stats_of_update.
        destruct (String.eqb_spec repo k) as [->|_]; [contradiction|]. reflexivity.
    + intros H. apply Hn, update_NoDup, H.
Qed.

Lemma find_group (A : Type) (repository : A -> string) (df : list A) (repo : string) :
  find (fun group => String.eqb repo (fst group)) (groupby repository df)
  = if existsb (fun row => String.eqb (repository row) repo) df
    then Some (repo, List.filter (fun row => String.eqb (repository row) repo) df)
    else None.
Proof.
  destruct (existsb (fun row => String.eqb (repository row) repo) df) eqn:E.
  - apply existsb_exists in E. destruct E as (row & Hrow & Hr). apply String.eqb_eq in Hr.
    assert (Hin : In (repo, List.filter (fun row => String.eqb (repository row) repo) df)
                     (groupby repository df)).
    { apply groupby_In. split; [|reflexivity]. rewrite <- Hr. apply in_map. exact Hrow. }
    pose proof (groupby_keys_NoDup repository df) as Hnd. clear row Hrow Hr.
    induction (groupby repository df) as [|[k rows] groups IH]; [destruct Hin|].
    cbn [find fst]. inversion Hnd as [|? ? Hnot Hnd']; subst.
    destruct Hin as [Ek|Hin].
    + injection Ek as E1 E2. subst k rows. rewrite String.eqb_refl. reflexivity.
    + destruct (String.eqb_spec repo k) as [->|Hne]; [|apply IH; assumption].
      exfalso. apply Hnot. apply (in_map fst) in Hin. exact Hin.
  - apply find_none_of. intros [k rows] Hin. cbn [fst].
    apply groupby_In in Hin. destruct Hin as [Hin _].
    destruct (String.eqb_spec repo k) as [<-|]; [|reflexivity].
    apply in_map_iff in Hin. destruct Hin as (row & Hr & Hrow).
    assert (Hex : existsb (fun row => String.eqb (repository row) repo) df = true).
    { apply existsb_exists. exists row. split; [exact Hrow | apply String.eqb_eq; exact Hr]. }
    congruence.
Qed.

Lemma existsb_filter (A : Type) (p : A -> bool) (l : list A) :
  existsb p l = negb (empty (List.filter p l)).
Proof.
  induction l as [|x l IH]; simpl; [reflexivity|].
  destruct (p x); simpl; [reflexivity | exact IH].
Qed.

Lemma repo_stats_of_fold (self : DataAnalyzer) :
  repo_stats_of self
  = fold_left add_commit_group (groupby cm_repository (commit_df self))
      (fold_left add_pr_group (groupby pr_repository (pr_df self)) []).
Proof.
  unfold repo_stats_of.
  destruct (pr_df self) as [|p ps], (commit_df self) as [|c cs]; reflexivity.
Qed.

Lemma repo_stats_of_spec (self : DataAnalyzer) :
  (forall repo, stats_of repo (repo_stats_of self) = final_entry self repo)
  /\ NoDup (map fst (repo_stats_of self)).
Proof.
  rewrite repo_stats_of_fold.
  pose proof (@fold_groups PRRow
                (fun rows entry =>
                   {| rs_prs := len rows;
                      rs_commits := rs_commits entry;
                      rs_lines_added := Py.sum (map pr_additions rows);
                      rs_lines_deleted := Py.sum (map pr_deletions rows);
                      rs_files_changed := Py.sum (map pr_changed_files rows) |})
                (groupby pr_repository (pr_df self)) []
                (groupby_keys_NoDup pr_repository (pr_df self))) as [H1 N1].
  change (fold_left _ (groupby pr_repository (pr_df self)) [])
    with (fold_left add_pr_group (groupby pr_repository (pr_df self)) []) in H1, N1.
  set (t1 := fold_left add_pr_group (groupby pr_repository (pr_df self)) []) in *.
  pose proof (@fold_groups CommitRow
                (fun rows entry =>
                   {| rs_prs := rs_prs entry;
                      rs_commits := len rows;
                      rs_lines_added :=
                        max2 (rs_lines_added entry) (Py.sum (map cm_additions rows));
                      rs_lines_deleted :=
                        max2 (rs_lines_deleted entry) (Py.sum (map cm_deletions rows));
                      rs_files_changed :=
                        max2 (rs_files_changed entry)
                             (Py.sum (map cm_files_changed_count rows)) |})
                (groupby cm_repository (commit_df self)) t1
                (groupby_keys_NoDup cm_repository (commit_df self))) as [H2 N2].
  change (fold_left _ (groupby cm_repository (commit_df self)) t1)
    with (fold_left add_commit_group (groupby cm_repository (commit_df self)) t1) in H2, N2.
  split.
  - intros repo. rewrite H2, H1, !find_group. cbn [stats_of].
    unfold final_entry, pr_rows_in, commit_rows_in. cbv zeta.
    rewrite !existsb_filter.
    destruct (List.filter (fun row => String.eqb (pr_repository row) repo) (pr_df self))
      as [|p ps] eqn:Ep;
      destruct (List.filter (fun row => String.eqb (cm_repository row) repo) (commit_df self))
        as [|c cs] eqn:Ec; reflexivity.
  - apply N2, N1. constructor.
Qed.

Lemma final_entry_counts (self : DataAnalyzer) (repo : string) (stats : RepoStats) :
  final_entry self repo = Some stats ->
  rs_prs stats + rs_commits stats = combined_row_count self repo.
Proof.
  unfold final_entry, combined_row_count, pr_rows_in, commit_rows_in. cbv zeta.
  destruct (empty _ && empty _); [discriminate|]. intros [= <-]. reflexivity.
Qed.

Lemma final_entry_none (self : DataAnalyzer) (repo : string) :
  final_entry self repo = None -> combined_row_count self repo = 0.
Proof.
  unfold final_entry, combined_row_count, pr_rows_in, commit_rows_in. cbv zeta.
  destruct (List.filter _ (pr_df self)), (List.filter _ (commit_df self));
    cbn [empty andb]; try discriminate. reflexivity.
Qed.

Lemma combined_row_count_nonneg (self : DataAnalyzer) (repo : string) :
  0 <= combined_row_count self repo.
Proof. unfold combined_row_count, len. lia. Qed.

Lemma breakdown_entries (self : DataAnalyzer) (repo : string) (stats : RepoStats) :
  In (repo, stats)
     (Py.sorted_reverse_by (fun x => rs_prs (snd x) + rs_commits (snd x))
                           (repo_stats_of self))
  <-> final_entry self repo = Some stats.
Proof.
  destruct (repo_stats_of_spec self) as [Hs Hn].
  rewrite <- Hs, <- (@stats_of_In _ repo stats Hn). split; intros H.
  - apply (Permutation_in _ (@sorted_reverse_by_perm _ _ (repo_stats_of self))) in H.
    exact H.
  - apply (Permutation_in _ (Permutation_sym (@sorted_reverse_by_perm _ _ (repo_stats_of self)))).
    exact H.
Qed.

Lemma filter_head_In (A : Type) (p : A -> bool) (x : A) (l : list A) :
  p x = true -> List.filter p (x :: l) <> [].
Proof. intros H. cbn [List.filter]. rewrite H. discriminate. Qed.

Lemma repo_stats_of_nonempty (self : DataAnalyzer) :
  empty (pr_df self) && empty (commit_df self) = false -> repo_stats_of self <> [].
Proof.
  intros E Hnil. destruct (repo_stats_of_spec self) as [Hs _].
  assert (Hex : exists repo, final_entry self repo <> None).
  { unfold final_entry, pr_rows_in, commit_rows_in. cbv zeta.
    destruct (pr_df self) as [|p ps].
    - destruct (commit_df self) as [|c cs]; [discriminate|].
      exists (cm_repository c). cbn [List.filter]. rewrite String.eqb_refl.
      rewrite andb_false_r. discriminate.
    - exists (pr_repository p). cbn [List.filter]. rewrite String.eqb_refl.
      cbn [empty andb]. discriminate. }
  destruct Hex as [repo Hrepo]. rewrite <- Hs, Hnil in Hrepo. apply Hrepo. reflexivity.
Qed.


(** [most_active] of the breakdown is a repository with the largest
    number of PR rows and commit rows together, and the repositories are
    listed by decreasing number of rows. *)
Theorem repository_breakdown_most_active_has_the_most_rows (self : DataAnalyzer) :
  match get_repository_breakdown self with
  | None => pr_df self = [] /\ commit_df self = []
  | Some b =>
      (exists repo,
         most_active b = Some repo
         /\ forall other, combined_row_count self other <= combined_row_count self repo)
      /\ StronglySorted
           (fun x y => combined_row_count self (fst y) <= combined_row_count self (fst x))
           (repositories b)
  end.
Proof.
  unfold get_repository_breakdown.
  destruct (empty (pr_df self) && empty (commit_df self)) eqn:E.
  - destruct (pr_df self), (commit_df self); try discriminate. split; reflexivity.
  - cbn [repositories most_active].
    pose proof (sorted_reverse_by_sorted (fun x => rs_prs (snd x) + rs_commits (snd x))
                  (repo_stats_of self)) as Hs.
    pose proof (breakdown_entries self) as Hent.
    pose proof (sorted_reverse_by_perm (fun x => rs_prs (snd x) + rs_commits (snd x))
                  (repo_stats_of self)) as Hp.
    pose proof (repo_stats_of_nonempty self E) as Hne.
    set (sorted_repos :=
           Py.sorted_reverse_by (fun x => rs_prs (snd x) + rs_commits (snd x))
                                (repo_stats_of self)) in *.
    assert (Hkey : forall x, In x sorted_repos ->
                     rs_prs (snd x) + rs_commits (snd x) = combined_row_count self (fst x)).
    { intros [repo stats] Hx. apply final_entry_counts. apply Hent. exact Hx. }
    split.
    + destruct sorted_repos as [|[repo stats] rest] eqn:Es.
      { exfalso. apply Hne. apply Permutation_nil. exact Hp. }
      exists repo. split; [reflexivity|].
      intros other. destruct (final_entry self other) as [stats'|] eqn:Eo.
      * apply Hent in Eo.
        pose proof (Hkey (repo, stats) (or_introl eq_refl)) as K1.
        pose proof (Hkey (other, stats') Eo) as K2. cbn [fst snd] in K1, K2.
        rewrite <- K1, <- K2.
        destruct Eo as [Eo|Eo]; [injection Eo as -> ->; lia|].
        inversion Hs as [|? ? _ Hall]; subst. rewrite Forall_forall in Hall.
        apply (Hall _ Eo).
      * rewrite (final_entry_none _ _ Eo). apply combined_row_count_nonneg.
    + clear Hp Hne Hent. induction Hs as [|x l Hs IH Hall]; [constructor|].
      constructor.
      * apply IH. intros y Hy. apply Hkey. right. exact Hy.
      * rewrite Forall_forall in *. intros y Hy.
        pose proof (Hkey x (or_introl eq_refl)) as K1.
        pose proof (Hkey y (or_intror Hy)) as K2.
        rewrite <- K1, <- K2. apply Hall, Hy.
Qed.

End BreakdownProps.

Module CollaborationProps.
Import PatModels PatModelsFacts PatModelsProps Analyzer AnalyzerProps.
Import ScraperModelsProps FloatFacts SortFacts RepositoryProps MetricsProps.

Lemma In_firstn (A : Type) (n : nat) (l : list A) (x : A) : In x (firstn n l) -> In x l.
Proof.
  revert n. induction l as [|y l IH]; intros [|n]; cbn [firstn]; intros H;
    try (destruct H; fail).
  destruct H as [->|H]; [left; reflexivity | right; apply (IH n H)].
Qed.

Lemma firstn_sorted (A : Type) (R : A -> A -> Prop) (n : nat) (l : list A) :
  StronglySorted R l -> StronglySorted R (firstn n l).
Proof.
  intros H. revert n. induction H as [|x l Hs IH Hall]; intros [|n]; cbn [firstn];
    try constructor.
  - apply IH.
  - rewrite Forall_forall in *. intros y Hy. apply Hall. apply (@In_firstn _ n l y Hy).
Qed.

Lemma Counter_length (xs : list string) :
  length (Counter xs) = length (nodup string_dec xs).
Proof.
  rewrite <- (length_map fst). apply Permutation_length.
  apply Permutation.NoDup_Permutation; [apply NoDup_Counter | apply NoDup_nodup |].
  intros k. rewrite keys_Counter, nodup_In. reflexivity.
Qed.

Lemma Counter_In (xs : list string) (name : string) (n : Z) :
  In (name, n) (Counter xs) ->
  In name xs /\ n = Z.of_nat (count_occ string_dec xs name).
Proof.
  intros H. split.
  - apply keys_Counter. apply (in_map fst) in H. exact H.
  - rewrite <- tally_Counter. symmetry. apply tally_In; [apply NoDup_Counter | exact H].
Qed.

Local Open Scope Q_scope.

(** The division of [get_collaboration_insights] is guarded by the
    emptiness of the PR table, so it never meets a zero denominator; the
    review rate is a percentage; the reviewers are counted once each and
    the ten most frequent ones are listed by decreasing count. *)
Theorem collaboration_insights_are_guarded (fl : Q -> Q) (r : AnalysisResult) :
  Py.float_rounding fl ->
  match get_collaboration_insights fl (__init__ r) with
  | Py.Ok None => pull_requests r = []
  | Py.Ok (Some c) =>
      pull_requests r <> []
      /\ prs_with_reviews c
         = count_if (fun pr => negb (empty (reviewers pr))) (pull_requests r)
      /\ (0 <= prs_with_reviews c <= len (pull_requests r))%Z
      /\ 0 <= review_rate c <= 100
      /\ total_unique_reviewers c
         = len (nodup string_dec (flat_map reviewers (pull_requests r)))
      /\ (length (top_reviewers c) <= 10)%nat
      /\ StronglySorted (fun x y => (snd y <= snd x)%Z) (top_reviewers c)
      /\ (forall name n,
            In (name, n) (top_reviewers c) ->
            n = Z.of_nat (count_occ string_dec (flat_map reviewers (pull_requests r)) name)
            /\ (1 <= n)%Z)
  | Py.Raise _ => False
  end.
Proof.
  intros Hfl. unfold get_collaboration_insights. cbn [pr_df result __init__].
  unfold _create_pr_dataframe. rewrite empty_map.
  destruct (pull_requests r) as [|pr prs] eqn:E; cbn [empty]; [reflexivity|].
  rewrite <- E.
  assert (Hlen : (len (pull_requests r) =? 0)%Z = false).
  { rewrite E. unfold len. simpl length. apply Z.eqb_neq. lia. }
  unfold Py.truediv. rewrite Hlen. cbn [Py.bind].
  cbn [prs_with_reviews review_rate total_unique_reviewers top_reviewers].
  assert (Hc : len (List.filter (fun pr => negb (empty (reviewers pr))) (pull_requests r))
               = count_if (fun pr => negb (empty (reviewers pr))) (pull_requests r)).
  { rewrite count_if_length. reflexivity. }
  pose proof (count_if_bounds (fun pr => negb (empty (reviewers pr))) (pull_requests r))
    as Hb.
  split; [rewrite E; discriminate|]. split; [exact Hc|]. split; [rewrite Hc; exact Hb|].
  split.
  { rewrite Hc. apply (percentage_between Hfl); [exact Hb|].
    rewrite E. unfold len. simpl length. lia. }
  split.
  { unfold len. rewrite Counter_length. reflexivity. }
  split.
  { unfold most_common. apply firstn_le_length. }
  split.
  { unfold most_common. apply firstn_sorted. apply sorted_reverse_by_sorted. }
  intros name n Hin. unfold most_common in Hin. apply In_firstn in Hin.
  apply (Permutation_in _ (@sorted_reverse_by_perm _ _ (Counter _))) in Hin.
  apply Counter_In in Hin. destruct Hin as [Hname Hn]. split; [exact Hn|].
  apply (count_occ_In string_dec) in Hname. lia.
Qed.

Lemma collaboration_insights_on_sample :
  Py.float_rounding Py.exact
  /\ exists c,
       get_collaboration_insights Py.exact (__init__ sample_analysis_result)
       = Py.Ok (Some c)
       /\ review_rate c == 100
       /\ total_unique_reviewers c = 2%Z.
Proof.
  split; [exact exact_is_float_rounding|].
  pose proof (collaboration_insights_are_guarded sample_analysis_result
                exact_is_float_rounding) as H.
  destruct (get_collaboration_insights Py.exact (__init__ sample_analysis_result))
    as [[c|]|e] eqn:E; [|discriminate H|destruct H].
  exists c. split; [reflexivity|].
  injection E as <-. split; reflexivity.
Defined.

End CollaborationProps.

Module ModelProps.
Import PatModels PatModelsFacts PatModelsProps ReFacts.

Lemma sum_map_add (A : Type) (f g : A -> Z) (l : list A) :
  Py.sum (map (fun x => (f x + g x)%Z) l) = (Py.sum (map f l) + Py.sum (map g l))%Z.
Proof.
  induction l as [|x l IH]; [reflexivity|].
  cbn [map]. rewrite !sum_cons, IH. lia.
Qed.


Local Open Scope string_scope.

Lemma take_chars_prefix (n : nat) (s : string) :
  exists rest, s = Py.take_chars n s ++ rest.
Proof.
  revert s. induction n as [|n IH]; intros s.
  - exists s. destruct s; reflexivity.
  - destruct s as [|a s]; [exists ""; reflexivity|].
    destruct (IH s) as [rest Hrest]. exists rest. cbn [Py.take_chars].
    rewrite append_cons. f_equal. exact Hrest.
Qed.

Lemma take_chars_length (n : nat) (s : string) :
  String.length (Py.take_chars n s) = Nat.min n (String.length s).
Proof.
  revert s. induction n as [|n IH]; intros s.
  - destruct s; reflexivity.
  - destruct s as [|a s]; [reflexivity|]. cbn [Py.take_chars String.length].
    rewrite IH. reflexivity.
Qed.

Lemma first_line_split (s : string) :
  s = Py.first_line s \/ exists rest, s = Py.first_line s ++ String "010" rest.
Proof.
  induction s as [|a s IH]; [left; reflexivity|]. cbn [Py.first_line].
  destruct (Ascii.eqb_spec a "010") as [->|Hne].
  - right. exists s. reflexivity.
  - destruct IH as [IH|[rest IH]].
    + left. f_equal. exact IH.
    + right. exists rest. rewrite append_cons. f_equal. exact IH.
Qed.

Lemma first_line_no_newline (s a b : string) :
  Py.first_line s <> a ++ String "010" b.
Proof.
  revert a. induction s as [|c s IH]; intros a; cbn [Py.first_line].
  - destruct a; discriminate.
  - destruct (Ascii.eqb_spec c "010") as [->|Hne].
    + destruct a; discriminate.
    + destruct a as [|x a].
      * rewrite append_nil. intros [= E _]. contradiction.
      * rewrite append_cons. intros [= _ E]. apply (IH a E).
Qed.

(** [short_sha] is the SHA cut to 7 characters (the whole SHA when it is
    shorter); [short_message] is the message up to its first newline and
    holds no newline. *)
Theorem commit_short_forms_are_prefixes (c : CommitData) :
  (exists rest, sha c = short_sha c ++ rest)
  /\ String.length (short_sha c) = Nat.min 7 (String.length (sha c))
  /\ (message c = short_message c
      \/ exists rest, message c = short_message c ++ String "010" rest)
  /\ (forall a b, short_message c <> a ++ String "010" b).
Proof.
  unfold short_sha, short_message. split; [apply take_chars_prefix|].
  split; [apply take_chars_length|]. split; [apply first_line_split|].
  intros a b. apply first_line_no_newline.
Qed.

End ModelProps.

Module CLIEntryProps.
Import ScraperModels CLIAnalyzer SortFacts.

(** [check_gh_cli] returns True exactly when both commands exit with
    status 0, never returns False, and asks for the authentication status
    only after the version command has exited with status 0. *)
Theorem check_gh_cli_needs_both_commands
    (subprocess_run : list string -> option Py.CompletedProcess) :
  let version_cmd := ["gh"; "--version"]%string in
  let auth_cmd := ["gh"; "auth"; "status"]%string in
  let exits_with_0 cmd :=
    exists result, subprocess_run cmd = Some result /\ Py.returncode result = 0%Z in
  (fst (check_gh_cli subprocess_run) = Returned true
   <-> exits_with_0 version_cmd /\ exits_with_0 auth_cmd)
  /\ fst (check_gh_cli subprocess_run) <> Returned false
  /\ (In auth_cmd (snd (check_gh_cli subprocess_run)) <-> exits_with_0 version_cmd)
  /\ (snd (check_gh_cli subprocess_run) = [version_cmd]
      \/ snd (check_gh_cli subprocess_run) = [version_cmd; auth_cmd]).
Proof.
  intros version_cmd auth_cmd exits_with_0. unfold check_gh_cli.
  fold version_cmd. fold auth_cmd. subst exits_with_0. cbv beta.
  destruct (subprocess_run version_cmd) as [r1|] eqn:E1.
  - destruct (Z.eqb_spec (Py.returncode r1) 0) as [H1|H1]; cbn [negb].
    + destruct (subprocess_run auth_cmd) as [r2|] eqn:E2.
      * destruct (Z.eqb_spec (Py.returncode r2) 0) as [H2|H2]; cbn [negb fst snd].
        -- repeat split; try discriminate; eauto.
           ++ intros _. right. left. reflexivity.
        -- repeat split; try discriminate; eauto.
           ++ intros [_ (r & [= <-] & Hr)]. contradiction.
           ++ intros _. right. left. reflexivity.
      * cbn [fst snd]. repeat split; try discriminate; eauto.
        -- intros [_ (r & Hr & _)]. discriminate.
        -- intros _. right. left. reflexivity.
    + cbn [fst snd]. repeat split; try discriminate; eauto.
      * intros [(r & [= <-] & Hr) _]. contradiction.
      * intros [H|[]]. discriminate.
      * intros (r & [= <-] & Hr). contradiction.
  - cbn [fst snd]. repeat split; try discriminate; eauto.
    + intros [(r & Hr & _) _]. discriminate.
    + intros [H|[]]. discriminate.
    + intros (r & Hr & _). discriminate.
Qed.

(** *** Conversion *)

Lemma nat_of_lower_char (a : ascii) :
  nat_of_ascii (lower_char a)
  = if ((65 <=? nat_of_ascii a) && (nat_of_ascii a <=? 90))%nat
    then (nat_of_ascii a + 32)%nat else nat_of_ascii a.
Proof.
  unfold lower_char.
  destruct ((65 <=? nat_of_ascii a) && (nat_of_ascii a <=? 90))%nat eqn:E; [|reflexivity].
  apply nat_ascii_embedding.
  apply andb_true_iff in E. destruct E as [_ E]. apply Nat.leb_le in E. lia.
Qed.

Lemma lower_char_idempotent (a : ascii) : lower_char (lower_char a) = lower_char a.
Proof.
  unfold lower_char at 1. rewrite nat_of_lower_char.
  destruct ((65 <=? nat_of_ascii a) && (nat_of_ascii a <=? 90))%nat eqn:E.
  - apply andb_true_iff in E. destruct E as [E1 E2].
    apply Nat.leb_le in E1, E2.
    assert (H : ((65 <=? nat_of_ascii a + 32) && (nat_of_ascii a + 32 <=? 90))%nat = false).
    { apply andb_false_iff. right. apply Nat.leb_gt. lia. }
    rewrite H. reflexivity.
  - rewrite E. reflexivity.
Qed.

Lemma lower_idempotent (s : string) : lower (lower s) = lower s.
Proof.
  induction s as [|a s IH]; [reflexivity|]. cbn [lower].
  rewrite lower_char_idempotent, IH. reflexivity.
Qed.

Section Conversion.

Variable fromisoformat : string -> option Py.datetime.
Variable fl : Q -> Q.

Lemma time_metrics_shape (created_at : Py.datetime)
    (merged_at closed_at : option Py.datetime) (metrics : TimeMetrics) :
  _calculate_time_metrics fl created_at merged_at closed_at = Py.Ok metrics ->
  (time_to_merge_hours metrics <> None <-> merged_at <> None)
  /\ (time_open_hours metrics <> None <-> merged_at <> None \/ closed_at <> None)
  /\ (merged_at <> None -> time_open_hours metrics = time_to_merge_hours metrics).
Proof.
  unfold _calculate_time_metrics. cbv zeta.
  destruct merged_at as [m|].
  - destruct (Py.dt_sub m created_at) as [d|]; cbn [Py.bind]; [|discriminate].
    intros [= <-]. cbn. intuition (try discriminate; try congruence).
  - destruct closed_at as [c|].
    + destruct (Py.dt_sub c created_at) as [d|]; cbn [Py.bind]; [|discriminate].
      intros [= <-]. cbn. intuition (try discriminate; try congruence).
    + intros [= <-]. cbn. intuition (try discriminate; try congruence).
Qed.

Lemma convert_one_ok (j : pr_json) (username : string) (repo : option string)
    (pr : GitHubPRData) :
  convert_one fromisoformat fl j username repo = Py.Ok pr ->
  author pr = username
  /\ (forall r, repo = Some r -> r <> ""%string -> repository pr = r)
  /\ state pr = lower (get (j_state j) "open"%string)
  /\ review_metrics pr = ReviewMetrics_default
  /\ file_analysis pr = FileAnalysis_default
  /\ _calculate_time_metrics fl (created_at pr) (merged_at pr) (closed_at pr)
     = Py.Ok (time_metrics pr).
Proof.
  unfold convert_one. cbv zeta.
  destruct (j_createdAt j) as [createdAt|]; [|discriminate].
  destruct (fromisoformat (replace_Z createdAt)) as [created|]; [|discriminate].
  destruct (parse_optional fromisoformat (j_mergedAt j)) as [merged|]; [|discriminate].
  destruct (parse_optional fromisoformat (j_closedAt j)) as [closed|]; [|discriminate].
  destruct (parse_optional fromisoformat (j_updatedAt j)) as [updated|]; [|discriminate].
  cbn [Py.bind].
  destruct (j_number j) as [number|]; [|discriminate].
  destruct (_calculate_time_metrics fl created merged closed) as [tm|] eqn:Etm;
    [|discriminate].
  cbn [Py.bind]. intros [= <-]. cbn. repeat split; try assumption.
  intros r -> Hr. destruct (String.eqb_spec r "") as [->|_]; [contradiction | reflexivity].
Qed.

Lemma converted_In (prs_data : list pr_json) (username : string) (repo : option string)
    (pr : GitHubPRData) :
  In pr (_convert_to_pr_data fromisoformat fl prs_data username repo) ->
  exists j, In j prs_data /\ convert_one fromisoformat fl j username repo = Py.Ok pr.
Proof.
  induction prs_data as [|j rest IH]; cbn [_convert_to_pr_data]; [intros []|].
  destruct (convert_one fromisoformat fl j username repo) as [p|e] eqn:E.
  - intros [<-|H].
    + exists j. split; [left; reflexivity | exact E].
    + destruct (IH H) as (j' & Hj & Hc). exists j'. split; [right; exact Hj | exact Hc].
  - intros H. destruct (IH H) as (j' & Hj & Hc). exists j'. split; [right; exact Hj | exact Hc].
Qed.

Lemma converted_length (prs_data : list pr_json) (username : string) (repo : option string) :
  (length (_convert_to_pr_data fromisoformat fl prs_data username repo)
   <= length prs_data)%nat.
Proof.
  induction prs_data as [|j rest IH]; cbn [_convert_to_pr_data]; [apply Nat.le_refl|].
  destruct (convert_one fromisoformat fl j username repo); cbn [length]; lia.
Qed.

(** Every pull request that [_convert_to_pr_data] returns carries the
    caller's user name as author and the repository passed in, a
    lower-case state, default review and file measures, and time measures
    computed from the merge time when there is one. *)
Theorem converted_prs_are_normalised (prs_data : list pr_json) (username : string)
    (repo : option string) :
  let prs := _convert_to_pr_data fromisoformat fl prs_data username repo in
  (length prs <= length prs_data)%nat
  /\ forall pr, In pr prs ->
       author pr = username
       /\ (forall r, repo = Some r -> r <> ""%string -> repository pr = r)
       /\ lower (state pr) = state pr
       /\ review_metrics pr = ReviewMetrics_default
       /\ file_analysis pr = FileAnalysis_default
       /\ (time_to_merge_hours (time_metrics pr) <> None <-> merged_at pr <> None)
       /\ (time_open_hours (time_metrics pr) <> None
           <-> merged_at pr <> None \/ closed_at pr <> None)
       /\ (merged_at pr <> None ->
           time_open_hours (time_metrics pr) = time_to_merge_hours (time_metrics pr)).
Proof.
  intros prs. subst prs. split; [apply converted_length|].
  intros pr Hin. apply converted_In in Hin. destruct Hin as (j & _ & Hc).
  apply convert_one_ok in Hc. destruct Hc as (Ha & Hr & Hs & Hrm & Hfa & Htm).
  apply time_metrics_shape in Htm. destruct Htm as (T1 & T2 & T3).
  split; [exact Ha|]. split; [exact Hr|]. split; [rewrite Hs; apply lower_idempotent|].
  split; [exact Hrm|]. split; [exact Hfa|]. split; [exact T1|]. split; [exact T2 | exact T3].
Qed.

Local Open Scope string_scope.

Lemma status_cases (pr : GitHubPRData) :
  (status pr = "merged" <-> state pr = "closed" /\ merged_at pr <> None)
  /\ (status pr = "closed" <-> state pr = "closed" /\ merged_at pr = None)
  /\ (status pr = "open" <-> state pr <> "closed").
Proof.
  unfold status. destruct (String.eqb_spec (state pr) "closed") as [E|E].
  - destruct (merged_at pr) as [m|]; repeat split; try discriminate; try tauto;
      try (intros [_ H]; try discriminate; contradiction);
      try (intros H; contradiction).
  - repeat split; try discriminate; try tauto; intros [H _]; contradiction.
Qed.

(** The status of a converted pull request is "merged" only for the raw
    state "closed" with a merge time; a pull request that the CLI lists
    in state MERGED is given the status "open". *)
Theorem merged_state_is_reported_open (j : pr_json) (username : string)
    (repo : option string) (pr : GitHubPRData) :
  convert_one fromisoformat fl j username repo = Py.Ok pr ->
  (status pr = "merged"
   <-> lower (get (j_state j) "open") = "closed" /\ merged_at pr <> None)
  /\ (status pr = "closed"
      <-> lower (get (j_state j) "open") = "closed" /\ merged_at pr = None)
  /\ (status pr = "open" <-> lower (get (j_state j) "open") <> "closed")
  /\ (j_state j = Some "MERGED" -> status pr = "open").
Proof.
  intros Hc. apply convert_one_ok in Hc. destruct Hc as (_ & _ & Hs & _).
  destruct (status_cases pr) as (S1 & S2 & S3). rewrite Hs in S1, S2, S3.
  split; [exact S1|]. split; [exact S2|]. split; [exact S3|].
  intros Hm. apply S3. rewrite Hm. discriminate.
Qed.

End Conversion.

End CLIEntryProps.

Module CLIFetchProps.
Import ScraperModels CLIAnalyzer SortFacts CLIEntryProps.

(** *** The date filter *)

Lemma dt_sub_same_kind (a b : Py.datetime) :
  Py.aware a = Py.aware b -> Py.dt_sub a b = Py.Ok (Py.instant a - Py.instant b)%Z.
Proof.
  unfold Py.aware, Py.dt_sub, Py.instant.
  destruct (Py.utcoffset a), (Py.utcoffset b); try discriminate; reflexivity.
Qed.

Lemma dt_sub_mixed (a b : Py.datetime) :
  Py.aware a <> Py.aware b -> Py.dt_sub a b = Py.Raise Py.TypeError.
Proof.
  unfold Py.aware, Py.dt_sub.
  destruct (Py.utcoffset a), (Py.utcoffset b); try reflexivity; intros H; contradiction.
Qed.

Lemma filter_raises_only_TypeError (prs : list GitHubPRData)
    (date_from date_to : option Py.datetime) (e : Py.exn) :
  _filter_prs_by_date prs date_from date_to = Py.Raise e -> e = Py.TypeError.
Proof.
  assert (Hsub : forall a b e', Py.dt_sub a b = Py.Raise e' -> e' = Py.TypeError).
  { intros a b e'. unfold Py.dt_sub.
    destruct (Py.utcoffset a), (Py.utcoffset b); try discriminate; intros [= <-]; reflexivity. }
  assert (Hlt : forall a b e', Py.dt_lt a b = Py.Raise e' -> e' = Py.TypeError).
  { intros a b e'. unfold Py.dt_lt. destruct (Py.dt_sub a b) eqn:E; cbn [Py.bind];
      [discriminate|]. intros [= <-]. apply (Hsub _ _ _ E). }
  induction prs as [|pr prs IH]; cbn [_filter_prs_by_date]; [discriminate|].
  destruct date_from as [f|].
  - destruct (Py.dt_lt (created_at pr) f) as [before|e1] eqn:E1; cbn [Py.bind].
    2:{ intros [= <-]. apply (Hlt _ _ _ E1). }
    destruct before; [exact IH|].
    destruct date_to as [t|].
    + unfold Py.dt_gt. destruct (Py.dt_lt t (created_at pr)) as [after|e2] eqn:E2;
        cbn [Py.bind].
      2:{ intros [= <-]. apply (Hlt _ _ _ E2). }
      destruct after; [exact IH|].
      destruct (_filter_prs_by_date prs (Some f) (Some t)); cbn [Py.bind]; [discriminate|].
      intros [= <-]. apply IH. reflexivity.
    + cbn [Py.bind].
      destruct (_filter_prs_by_date prs (Some f) None); cbn [Py.bind]; [discriminate|].
      intros [= <-]. apply IH. reflexivity.
  - cbn [Py.bind]. destruct date_to as [t|].
    + unfold Py.dt_gt. destruct (Py.dt_lt t (created_at pr)) as [after|e2] eqn:E2;
        cbn [Py.bind].
      2:{ intros [= <-]. apply (Hlt _ _ _ E2). }
      destruct after; [exact IH|].
      destruct (_filter_prs_by_date prs None (Some t)); cbn [Py.bind]; [discriminate|].
      intros [= <-]. apply IH. reflexivity.
    + cbn [Py.bind].
      destruct (_filter_prs_by_date prs None None); cbn [Py.bind]; [discriminate|].
      intros [= <-]. apply IH. reflexivity.
Qed.

Lemma filter_sublist (prs : list GitHubPRData) (date_from date_to : option Py.datetime)
    (filtered : list GitHubPRData) :
  _filter_prs_by_date prs date_from date_to = Py.Ok filtered ->
  forall pr, In pr filtered -> In pr prs.
Proof.
  revert filtered. induction prs as [|p prs IH]; intros filtered; cbn [_filter_prs_by_date].
  - intros [= <-] pr [].
  - destruct (match date_from with
              | Some date_from => Py.dt_lt (created_at p) date_from
              | None => Py.Ok false
              end) as [before|]; cbn [Py.bind]; [|discriminate].
    destruct before.
    { intros H pr Hpr. right. apply (IH _ H pr Hpr). }
    destruct (match date_to with
              | Some date_to => Py.dt_gt (created_at p) date_to
              | None => Py.Ok false
              end) as [after|]; cbn [Py.bind]; [|discriminate].
    destruct after.
    { intros H pr Hpr. right. apply (IH _ H pr Hpr). }
    destruct (_filter_prs_by_date prs date_from date_to) as [l|]; cbn [Py.bind];
      [|discriminate].
    intros [= <-] pr [<-|Hpr]; [left; reflexivity | right; apply (IH l eq_refl pr Hpr)].
Qed.

(** With bounds of the same kind (naive or aware) as the creation times,
    [_filter_prs_by_date] does not raise and keeps, in order, exactly the
    pull requests created from [date_from] to [date_to], both ends
    included. *)
Theorem date_filter_keeps_the_closed_range (prs : list GitHubPRData)
    (date_from date_to : option Py.datetime) :
  (forall pr bound,
     In pr prs -> date_from = Some bound \/ date_to = Some bound ->
     Py.aware (created_at pr) = Py.aware bound) ->
  _filter_prs_by_date prs date_from date_to
  = Py.Ok (List.filter (fun pr => in_date_range date_from date_to (created_at pr)) prs).
Proof.
  induction prs as [|p prs IH]; intros Hkind; cbn [_filter_prs_by_date List.filter];
    [reflexivity|].
  rewrite IH by (intros pr bound Hin Hb; apply Hkind; [right; exact Hin | exact Hb]).
  assert (Hb : match date_from with
               | Some date_from => Py.dt_lt (created_at p) date_from
               | None => Py.Ok false
               end
               = Py.Ok (negb match date_from with
                             | Some bound => (Py.instant bound <=? Py.instant (created_at p))%Z
                             | None => true
                             end)).
  { destruct date_from as [f|]; [|reflexivity]. unfold Py.dt_lt.
    rewrite (@dt_sub_same_kind (created_at p) f)
      by (apply Hkind; [left; reflexivity | left; reflexivity]).
    cbn [Py.bind]. f_equal.
    destruct (Z.ltb_spec (Py.instant (created_at p) - Py.instant f) 0);
      destruct (Z.leb_spec (Py.instant f) (Py.instant (created_at p))); try lia; reflexivity. }
  assert (Ha : match date_to with
               | Some date_to => Py.dt_gt (created_at p) date_to
               | None => Py.Ok false
               end
               = Py.Ok (negb match date_to with
                             | Some bound => (Py.instant (created_at p) <=? Py.instant bound)%Z
                             | None => true
                             end)).
  { destruct date_to as [t|]; [|reflexivity]. unfold Py.dt_gt, Py.dt_lt.
    rewrite (@dt_sub_same_kind t (created_at p))
      by (symmetry; apply Hkind; [left; reflexivity | right; reflexivity]).
    cbn [Py.bind]. f_equal.
    destruct (Z.ltb_spec (Py.instant t - Py.instant (created_at p)) 0);
      destruct (Z.leb_spec (Py.instant (created_at p)) (Py.instant t)); try lia; reflexivity. }
  rewrite Hb, Ha. cbn [Py.bind].
  change (in_date_range date_from date_to (created_at p))
    with (match date_from with
          | Some bound => (Py.instant bound <=? Py.instant (created_at p))%Z
          | None => true
          end
          && match date_to with
             | Some bound => (Py.instant (created_at p) <=? Py.instant bound)%Z
             | None => true
             end).
  destruct (match date_from with
            | Some bound => (Py.instant bound <=? Py.instant (created_at p))%Z
            | None => true
            end);
    destruct (match date_to with
              | Some bound => (Py.instant (created_at p) <=? Py.instant bound)%Z
              | None => true
              end); reflexivity.
Qed.

(** *** Collecting over repositories *)

Section Collect.

Variable subprocess_run : list string -> option Py.CompletedProcess.
Variable json_loads : string -> option (list pr_json).
Variable json_loads_repos : string -> option (list repo_json).
Variable fromisoformat : string -> option Py.datetime.
Variable strftime_ymd : Py.datetime -> string.
Variable fl : Q -> Q.

Lemma fetch_states_authors (cmd states : list string) (repo username : string)
    (date_from date_to : option Py.datetime) (ran : list (list string))
    (pr : GitHubPRData) :
  In pr (fst (fetch_states subprocess_run json_loads fromisoformat fl cmd states
                repo username date_from date_to ran)) ->
  author pr = username.
Proof.
  revert ran. induction states as [|state states IH]; intros ran; cbn [fetch_states].
  - intros [].
  - destruct (subprocess_run (cmd ++ ["--state"; state])%list%string) as [result|];
      [|intros []].
    destruct (negb (Py.returncode result =? 0)%Z); [apply IH|].
    destruct (json_loads (Py.stdout result)) as [prs_data|]; [|intros []].
    assert (Hconv : forall p,
               In p (_convert_to_pr_data fromisoformat fl prs_data username (Some repo)) ->
               author p = username).
    { intros p Hp. apply converted_In in Hp. destruct Hp as (j & _ & Hc).
      apply convert_one_ok in Hc. apply Hc. }
    destruct date_from as [f|], date_to as [t|]; cbn iota.
    4:{ cbn [fst]. apply Hconv. }
    all: destruct (_filter_prs_by_date _ _ _) as [l|] eqn:E; cbn [fst]; [|intros []];
      intros Hin; apply Hconv; apply (filter_sublist _ _ _ E _ Hin).
Qed.

Lemma collect_prs_authors (repo_list : list string) (username : string)
    (date_from date_to : option Py.datetime) (max_prs : option Z)
    (include_closed include_merged : bool) (all_prs : list GitHubPRData) :
  (forall pr, In pr all_prs -> author pr = username) ->
  forall pr,
    In pr (collect_prs subprocess_run json_loads fromisoformat fl repo_list username
             date_from date_to max_prs include_closed include_merged all_prs) ->
    author pr = username.
Proof.
  revert all_prs. induction repo_list as [|repo rest IH]; intros all_prs Hall;
    cbn [collect_prs]; [exact Hall|].
  assert (Hnext : forall pr,
             In pr (all_prs
                    ++ fst (_get_prs_for_repo subprocess_run json_loads fromisoformat fl
                              repo username date_from date_to include_closed
                              include_merged)) ->
             author pr = username).
  { intros pr Hin. apply in_app_iff in Hin. destruct Hin as [Hin|Hin]; [apply Hall, Hin|].
    unfold _get_prs_for_repo in Hin. apply fetch_states_authors in Hin. exact Hin. }
  destruct (given_int max_prs && _); [exact Hnext | apply IH, Hnext].
Qed.

Lemma slice_to_In (A : Type) (n : Z) (l : list A) (x : A) :
  In x (Py.slice_to n l) -> In x l.
Proof.
  unfold Py.slice_to. destruct (0 <=? n)%Z; apply CollaborationProps.In_firstn.
Qed.

Lemma slice_to_sorted (A : Type) (R : A -> A -> Prop) (n : Z) (l : list A) :
  StronglySorted R l -> StronglySorted R (Py.slice_to n l).
Proof.
  unfold Py.slice_to. destruct (0 <=? n)%Z; apply CollaborationProps.firstn_sorted.
Qed.


End Collect.


End CLIFetchProps.

Module CLIExamples.
Import ScraperModels CLIAnalyzer SortFacts CLIEntryProps CLIFetchProps ScraperModelsProps FloatFacts.

Lemma date_filter_on_the_bound :
  (forall pr bound,
     In pr [pr_measuring 5 150 25 0 None] ->
     Some jan_15_utc = Some bound \/ @None Py.datetime = Some bound ->
     Py.aware (created_at pr) = Py.aware bound)
  /\ _filter_prs_by_date [pr_measuring 5 150 25 0 None] (Some jan_15_utc) None
     = Py.Ok [pr_measuring 5 150 25 0 None].
Proof.
  assert (H : forall pr bound,
            In pr [pr_measuring 5 150 25 0 None] ->
            Some jan_15_utc = Some bound \/ @None Py.datetime = Some bound ->
            Py.aware (created_at pr) = Py.aware bound).
  { intros pr bound [<-|[]] [[= <-]|E]; [reflexivity | discriminate E]. }
  split; [exact H|].
  exact (@date_filter_keeps_the_closed_range _ _ _ H).
Defined.

Lemma merged_pr_on_sample_cli :
  exists pr,
    convert_one parse_as_jan_15 Py.exact merged_pr_json "testuser" (Some "acme/widgets"%string)
    = Py.Ok pr
    /\ merged_at pr <> None
    /\ status pr = "open"%string.
Proof.
  eexists. split; [reflexivity|]. split; [discriminate|].
  refine (proj2 (proj2 (proj2 (@merged_state_is_reported_open parse_as_jan_15 Py.exact
                                 merged_pr_json "testuser" (Some "acme/widgets"%string)
                                 _ eq_refl))) eq_refl).
Defined.

Local Open Scope Q_scope.

Lemma min2_le_l (a b : Q) : min2 a b <= a.
Proof. rewrite min2_Qmin. apply Q.le_min_l. Qed.

(** A pull request converted from the CLI's listing carries no file
    count and no review cycles, so only its changed lines and its open
    time count towards [complexity_score], which is then at most 35. *)
Theorem converted_prs_score_at_most_35
    (fromisoformat : string -> option Py.datetime) (fl : Q -> Q)
    (j : pr_json) (username : string) (repo : option string) (pr : GitHubPRData) :
  Py.float_rounding fl ->
  convert_one fromisoformat fl j username repo = Py.Ok pr ->
  complexity_score fl pr <= 35.
Proof.
  intros Hfl Hc. apply convert_one_ok in Hc. destruct Hc as (_ & _ & _ & Hrm & Hfa & _).
  unfold complexity_score, Py.round, Py.float. cbv zeta. rewrite Hrm, Hfa.
  cbn [total_files_changed FileAnalysis_default review_cycles ReviewMetrics_default].
  assert (F0 : fl (inject_Z 0) == 0) by (apply (fl_int Hfl); simpl; lia).
  assert (E1 : fl (fl (inject_Z 0) * fl (1 # 2)) == 0).
  { rewrite (fl_comp Hfl (b := inject_Z 0)); [exact F0|]. rewrite F0. ring. }
  assert (T1 : min2 (fl (fl (inject_Z 0) * fl (1 # 2))) 10 <= 0).
  { apply (Qle_trans _ _ _ (min2_le_l _ _)). rewrite E1. apply Qle_refl. }
  pose proof (min2_le_cap (fl (fl (inject_Z (total_lines_changed pr)) * fl (1 # 100))) 20)
    as T2.
  assert (T3 : min2 (inject_Z (0 * 2)) 10 <= 0) by apply min2_le_l.
  set (t1 := min2 (fl (fl (inject_Z 0) * fl (1 # 2))) 10) in *.
  set (t2 := min2 (fl (fl (inject_Z (total_lines_changed pr)) * fl (1 # 100))) 20) in *.
  set (t3 := min2 (inject_Z (0 * 2)) 10) in *.
  assert (S1 : fl (0 + t1) <= inject_Z 0).
  { apply (fl_le_int Hfl); [simpl; lia|]. change (inject_Z 0) with 0. lra. }
  assert (S2 : fl (fl (0 + t1) + t2) <= inject_Z 20).
  { apply (fl_le_int Hfl); [simpl; lia|].
    change (inject_Z 0) with 0 in S1. change (inject_Z 20) with 20. lra. }
  assert (S3 : fl (fl (fl (0 + t1) + t2) + t3) <= inject_Z 20).
  { apply (fl_le_int Hfl); [simpl; lia|].
    change (inject_Z 20) with 20 in S2 |- *. lra. }
  change (inject_Z 20) with 20 in S3.
  change 35 with (inject_Z 35). apply (fl_le_int Hfl); [simpl; lia|].
  apply round2_le. change (inject_Z 35) with 35.
  destruct (time_open_hours (time_metrics pr)) as [h|]; [|lra].
  destruct (nonzero h); [|lra].
  pose proof (min2_le_cap (fl (h * fl (1 # 10))) 15) as T4.
  change 35 with (inject_Z 35). apply (fl_le_int Hfl); [simpl; lia|].
  change (inject_Z 35) with 35. lra.
Qed.

Lemma closed_pr_score_on_sample_cli :
  Py.float_rounding Py.exact
  /\ exists pr,
       convert_one parse_as_jan_15 Py.exact closed_pr_json "testuser"
         (Some "acme/widgets"%string) = Py.Ok pr
       /\ complexity_score Py.exact pr <= 35.
Proof.
  split; [exact exact_is_float_rounding|].
  eexists. split; [reflexivity|].
  exact (@converted_prs_score_at_most_35 parse_as_jan_15 Py.exact closed_pr_json
           "testuser" (Some "acme/widgets"%string) _ exact_is_float_rounding eq_refl).
Defined.

End CLIExamples.

Module ExporterProps.
Import ScraperModels ScraperExporter PatModelsFacts.
Import ScraperModelsProps FloatFacts SortFacts RepositoryProps CollaborationProps.

Lemma dict_add_1 (k : string) (d : list (string * Z)) :
  dict_add k 1 d = Analyzer.counter_add k d.
Proof.
  induction d as [|[k' m] d IH]; cbn [dict_add Analyzer.counter_add]; [reflexivity|].
  rewrite IH. reflexivity.
Qed.

Lemma repo_counts_Counter (prs : list GitHubPRData) :
  fold_left (fun d pr => dict_add (repository pr) 1 d) prs []
  = Analyzer.Counter (map repository prs).
Proof.
  unfold Analyzer.Counter. generalize (@nil (string * Z)).
  induction prs as [|pr prs IH]; intros d; cbn [fold_left map]; [reflexivity|].
  rewrite dict_add_1. apply IH.
Qed.

Lemma counter_add_total (k : string) (c : list (string * Z)) :
  Py.sum (map snd (Analyzer.counter_add k c)) = (Py.sum (map snd c) + 1)%Z.
Proof.
  induction c as [|[k' n] c IH]; cbn [Analyzer.counter_add map snd].
  - reflexivity.
  - destruct (String.eqb k k'); cbn [map snd]; rewrite !sum_cons; [lia|].
    rewrite IH. lia.
Qed.

Lemma Counter_total (xs : list string) :
  Py.sum (map snd (Analyzer.Counter xs)) = Z.of_nat (length xs).
Proof.
  unfold Analyzer.Counter.
  assert (H : forall c,
            Py.sum (map snd (fold_left (fun c k => Analyzer.counter_add k c) xs c))
            = (Py.sum (map snd c) + Z.of_nat (length xs))%Z).
  { induction xs as [|x xs IH]; intros c; cbn [fold_left length].
    - lia.
    - rewrite IH, counter_add_total. lia. }
  rewrite H. reflexivity.
Qed.

Lemma sum_perm (l l' : list Z) : Permutation l l' -> Py.sum l = Py.sum l'.
Proof.
  induction 1 as [|x l l' _ IH|x y l|l l' l'' _ IH1 _ IH2].
  - reflexivity.
  - rewrite !sum_cons, IH. reflexivity.
  - rewrite !sum_cons. lia.
  - rewrite IH1. exact IH2.
Qed.

Lemma status_one_of_three (pr : GitHubPRData) :
  ((if String.eqb (status pr) "merged" then 1 else 0)
   + (if String.eqb (status pr) "closed" then 1 else 0)
   + (if String.eqb (status pr) "open" then 1 else 0) = 1)%nat.
Proof.
  unfold status.
  destruct (String.eqb (state pr) "closed"); [destruct (merged_at pr)|]; reflexivity.
Qed.

Lemma status_merged_iff (pr : GitHubPRData) :
  String.eqb (status pr) "merged"
  = String.eqb (state pr) "closed"
    && match merged_at pr with
       | Some _ => true
       | None => false
       end.
Proof.
  unfold status.
  destruct (String.eqb (state pr) "closed"); [destruct (merged_at pr)|]; reflexivity.
Qed.

Lemma status_three_way (prs : list GitHubPRData) :
  (length (List.filter (fun pr => String.eqb (status pr) "merged") prs)
   + length (List.filter (fun pr => String.eqb (status pr) "closed") prs)
   + length (List.filter (fun pr => String.eqb (status pr) "open") prs)
   = length prs)%nat.
Proof.
  induction prs as [|pr prs IH]; [reflexivity|]. cbn [List.filter length].
  pose proof (status_one_of_three pr) as H1.
  destruct (String.eqb (status pr) "merged"), (String.eqb (status pr) "closed"),
    (String.eqb (status pr) "open"); cbn [length]; cbn in H1; lia.
Qed.

Lemma sum_net (prs : list GitHubPRData) :
  Py.sum (map net_lines_changed prs)
  = (Py.sum (map additions prs) - Py.sum (map deletions prs))%Z.
Proof.
  induction prs as [|pr prs IH]; [reflexivity|].
  cbn [map]. rewrite !sum_cons, IH. unfold net_lines_changed. lia.
Qed.

Local Open Scope Q_scope.



(** The repository distribution lists each repository of the pull
    requests once, with the number of its pull requests, by decreasing
    number; the numbers add up to the number of pull requests. *)
Theorem summary_repositories_count_every_pr (fl : Q -> Q) (fsum : list Q -> Q)
    (prs : list GitHubPRData) (stats : SummaryStats) :
  calculate_summary_stats fl fsum prs = Py.Ok (Some stats) ->
  let counts := dist_repositories (distributions stats) in
  NoDup (map fst counts)
  /\ StronglySorted (fun x y => (snd y <= snd x)%Z) counts
  /\ (forall repo n,
        In (repo, n) counts <->
        In repo (map repository prs)
        /\ n = Z.of_nat (count_occ string_dec (map repository prs) repo))
  /\ Py.sum (map snd counts) = Z.of_nat (length prs).
Proof.
  unfold calculate_summary_stats. destruct prs as [|pr prs]; [discriminate|].
  set (all := pr :: prs).
  destruct (per_pr fl _ _) as [a1|]; cbn [Py.bind]; [|discriminate].
  destruct (per_pr fl _ _) as [a2|]; cbn [Py.bind]; [|discriminate].
  destruct (if (Z.of_nat (length all) >? 0)%Z then _ else _) as [mr|]; cbn [Py.bind];
    [|discriminate].
  destruct (per_pr fl _ _) as [a3|]; cbn [Py.bind]; [|discriminate].
  destruct (per_pr fl _ _) as [a4|]; cbn [Py.bind]; [|discriminate].
  intros [= <-]. cbn [distributions dist_repositories].
  change (fold_left (fun d pr0 => dict_add (repository pr0) 1 d) prs
            [(repository pr, (0 + 1)%Z)])
    with (fold_left (fun d pr0 => dict_add (repository pr0) 1 d) all []).
  rewrite repo_counts_Counter.
  pose proof (@sorted_reverse_by_perm _ snd (Analyzer.Counter (map repository all))) as Hp.
  split; [|split; [|split]].
  - apply (Permutation_NoDup (Permutation_map fst (Permutation_sym Hp))).
    apply NoDup_Counter.
  - apply sorted_reverse_by_sorted.
  - intros repo n. split.
    + intros Hin. apply (Permutation_in _ Hp) in Hin. apply Counter_In in Hin. exact Hin.
    + intros [Hin ->]. apply (Permutation_in _ (Permutation_sym Hp)).
      apply keys_Counter in Hin. apply in_map_iff in Hin.
      destruct Hin as ([k n] & Hk & Hin). cbn [fst] in Hk. subst k.
      destruct (Counter_In _ _ _ Hin) as [_ ->]. exact Hin.
  - rewrite (sum_perm (Permutation_map snd Hp)), Counter_total, length_map. reflexivity.
Qed.

Lemma summary_repositories_on_two_prs :
  exists stats,
    calculate_summary_stats Py.exact no_fsum
      [pr_measuring 5 150 25 0 None; pr_measuring 1 10 2 0 None]
    = Py.Ok (Some stats)
    /\ dist_repositories (distributions stats) = [("acme/widgets"%string, 2%Z)]
    /\ Py.sum (map snd (dist_repositories (distributions stats))) = 2%Z.
Proof.
  eexists. split; [reflexivity|]. split; [reflexivity|].
  exact (proj2 (proj2 (proj2 (@summary_repositories_count_every_pr Py.exact no_fsum
                                [pr_measuring 5 150 25 0 None; pr_measuring 1 10 2 0 None]
                                _ eq_refl)))).
Defined.

End ExporterProps.

Module ScoreProps.
Import ScraperModels ScraperCLI ScraperModelsProps FloatFacts.

Local Open Scope Q_scope.

(** The result that [_run_analysis] builds counts every fetched pull
    request as processed and as successful, so its success rate is 0.0
    without pull requests and 100.0 with any. *)
Theorem run_success_rate_is_all_or_nothing (fl : Q -> Q) (prs : list GitHubPRData)
    (processing_time : Q) :
  Py.float_rounding fl ->
  exists rate,
    success_rate fl (result_of_run prs processing_time) = Py.Ok rate
    /\ (prs = [] -> rate == 0)
    /\ (prs <> [] -> rate == 100).
Proof.
  intros Hfl. unfold success_rate, true_div, result_of_run.
  cbn [total_processed successful_scrapes].
  destruct prs as [|pr prs].
  - exists 0. repeat split; try reflexivity. intros H. contradiction.
  - assert (Hpos : (0 < Z.of_nat (length (pr :: prs)))%Z) by (simpl length; lia).
    destruct (Z.eqb_spec (Z.of_nat (length (pr :: prs))) 0) as [H|_]; [lia|].
    cbn [Py.bind]. eexists. split; [reflexivity|]. split; [discriminate|].
    intros _. apply (percentage_of_all Hfl Hpos).
Qed.

Lemma run_success_rate_on_one_pr :
  Py.float_rounding Py.exact
  /\ exists rate,
       success_rate Py.exact (result_of_run [pr_measuring 5 150 25 0 None] 0) = Py.Ok rate
       /\ rate == 100.
Proof.
  split; [exact exact_is_float_rounding|].
  destruct (run_success_rate_is_all_or_nothing [pr_measuring 5 150 25 0 None] 0
              exact_is_float_rounding) as (rate & Hr & _ & H).
  exists rate. split; [exact Hr|]. apply H. discriminate.
Defined.

(** *** Monotonicity *)

Lemma round_half_even_mono (q q' : Q) :
  q <= q' -> (Py.round_half_even q <= Py.round_half_even q')%Z.
Proof.
  intros H.
  assert (Hf : (Qfloor q <= Qfloor q')%Z) by (apply Qfloor_resp_le; exact H).
  destruct (Z.eq_dec (Qfloor q) (Qfloor q')) as [E|Hne].
  - unfold Py.round_half_even. cbv zeta. rewrite E.
    assert (Hr : q - inject_Z (Qfloor q') <= q' - inject_Z (Qfloor q')) by lra.
    destruct (q - inject_Z (Qfloor q') ?= 1 # 2) eqn:C1;
      destruct (q' - inject_Z (Qfloor q') ?= 1 # 2) eqn:C2;
      try (destruct (Z.even (Qfloor q'))); try lia; exfalso;
      first [apply Qeq_alt in C1 | apply Qlt_alt in C1 | apply Qgt_alt in C1];
      first [apply Qeq_alt in C2 | apply Qlt_alt in C2 | apply Qgt_alt in C2];
      lra.
  - assert (Hup : (Py.round_half_even q <= Qfloor q + 1)%Z).
    { apply round_half_even_upper. rewrite inject_Z_plus.
      pose proof (Qlt_floor q) as Hlt. rewrite inject_Z_plus in Hlt.
      apply Qlt_le_weak. exact Hlt. }
    assert (Hlo : (Qfloor q' <= Py.round_half_even q')%Z).
    { apply round_half_even_lower. apply Qfloor_le. }
    lia.
Qed.

Lemma round2_mono (q q' : Q) : q <= q' -> Py.round2 q <= Py.round2 q'.
Proof.
  intros H. unfold Py.round2.
  assert (Hz : (Py.round_half_even (q * 100) <= Py.round_half_even (q' * 100))%Z).
  { apply round_half_even_mono. apply Qmult_le_compat_r; [exact H | discriminate]. }
  unfold Qle. simpl. lia.
Qed.

Lemma min2_mono (a a' b : Q) : a <= a' -> min2 a b <= min2 a' b.
Proof.
  intros H. rewrite !min2_Qmin. apply Q.min_le_compat_r. exact H.
Qed.

Section Monotone.

Variable fl : Q -> Q.
Hypothesis fl_ok : Py.float_rounding fl.

Lemma scaled_mono (n n' : Z) (c : Q) :
  (n <= n')%Z -> fl (Py.float fl n * fl c) <= fl (Py.float fl n' * fl c) \/ c < 0.
Proof.
  intros H. destruct (Qlt_le_dec c 0) as [Hc|Hc]; [right; exact Hc | left].
  apply (Py.fl_monotone fl_ok). apply Qmult_le_compat_r.
  - unfold Py.float. apply (Py.fl_monotone fl_ok). rewrite <- Zle_Qle. exact H.
  - apply (fl_nonneg fl_ok). exact Hc.
Qed.

End Monotone.

(** With the same time measures, [complexity_score] does not decrease
    when a pull request changes more files, changes more lines or goes
    through more review cycles. *)
Theorem complexity_score_grows_with_the_measures (fl : Q -> Q) (a b : GitHubPRData) :
  Py.float_rounding fl ->
  time_metrics a = time_metrics b ->
  (total_files_changed (file_analysis a) <= total_files_changed (file_analysis b))%Z ->
  (total_lines_changed a <= total_lines_changed b)%Z ->
  (review_cycles (review_metrics a) <= review_cycles (review_metrics b))%Z ->
  complexity_score fl a <= complexity_score fl b.
Proof.
  intros Hfl Ht Hf Hl Hc. unfold complexity_score, Py.round. cbv zeta. rewrite Ht.
  apply (Py.fl_monotone Hfl). apply round2_mono.
  assert (T1 : min2 (fl (Py.float fl (total_files_changed (file_analysis a)) * fl (1 # 2))) 10
               <= min2 (fl (Py.float fl (total_files_changed (file_analysis b)) * fl (1 # 2)))
                    10).
  { apply min2_mono. destruct (scaled_mono Hfl (1 # 2) Hf) as [H|H]; [exact H|].
    exfalso. revert H. discriminate. }
  assert (T2 : min2 (fl (Py.float fl (total_lines_changed a) * fl (1 # 100))) 20
               <= min2 (fl (Py.float fl (total_lines_changed b) * fl (1 # 100))) 20).
  { apply min2_mono. destruct (scaled_mono Hfl (1 # 100) Hl) as [H|H]; [exact H|].
    exfalso. revert H. discriminate. }
  assert (T3 : min2 (inject_Z (review_cycles (review_metrics a) * 2)) 10
               <= min2 (inject_Z (review_cycles (review_metrics b) * 2)) 10).
  { apply min2_mono. rewrite <- Zle_Qle. lia. }
  set (a1 := min2 (fl (Py.float fl (total_files_changed (file_analysis a)) * fl (1 # 2))) 10)
    in *.
  set (b1 := min2 (fl (Py.float fl (total_files_changed (file_analysis b)) * fl (1 # 2))) 10)
    in *.
  set (a2 := min2 (fl (Py.float fl (total_lines_changed a) * fl (1 # 100))) 20) in *.
  set (b2 := min2 (fl (Py.float fl (total_lines_changed b) * fl (1 # 100))) 20) in *.
  set (a3 := min2 (inject_Z (review_cycles (review_metrics a) * 2)) 10) in *.
  set (b3 := min2 (inject_Z (review_cycles (review_metrics b) * 2)) 10) in *.
  assert (S1 : fl (0 + a1) <= fl (0 + b1)) by (apply (Py.fl_monotone Hfl); lra).
  assert (S2 : fl (fl (0 + a1) + a2) <= fl (fl (0 + b1) + b2))
    by (apply (Py.fl_monotone Hfl); lra).
  assert (S3 : fl (fl (fl (0 + a1) + a2) + a3) <= fl (fl (fl (0 + b1) + b2) + b3))
    by (apply (Py.fl_monotone Hfl); lra).
  destruct (time_open_hours (time_metrics b)) as [h|]; [|exact S3].
  destruct (nonzero h); [|exact S3].
  apply (Py.fl_monotone Hfl). lra.
Qed.

Lemma complexity_score_on_more_files :
  Py.float_rounding Py.exact
  /\ complexity_score Py.exact (pr_measuring 5 150 25 3 (Some 28))
     <= complexity_score Py.exact (pr_measuring 8 150 25 3 (Some 28)).
Proof.
  split; [exact exact_is_float_rounding|].
  apply (@complexity_score_grows_with_the_measures Py.exact
           (pr_measuring 5 150 25 3 (Some 28)) (pr_measuring 8 150 25 3 (Some 28))
           exact_is_float_rounding eq_refl); vm_compute; discriminate.
Defined.

End ScoreProps.

Module NetLinesProps.
Import Re EnhanceScript.

Local Open Scope string_scope.

Lemma int_of_str_cons (a : ascii) (s : string) :
  int_of_str (String a s)
  = if Ascii.eqb a "-"
    then (if isdigit s then Py.Ok (- digits_value 0 s)%Z else Py.Raise Py.ValueError)
    else (if isdigit (String a s) then Py.Ok (digits_value 0 (String a s))
          else Py.Raise Py.ValueError).
Proof.
  destruct a as [[] [] [] [] [] [] [] []]; reflexivity.
Qed.

Lemma hyphen_is_no_digit : is_digit "-" = false.
Proof. reflexivity. Qed.

Lemma all_digits_no_hyphen (s : string) : all_digits s = true -> has_hyphen s = false.
Proof.
  induction s as [|a s IH]; [reflexivity|]. cbn [all_digits has_hyphen].
  intros H. apply andb_true_iff in H. destruct H as [Ha Hs].
  rewrite (IH Hs), orb_false_r.
  destruct (Ascii.eqb_spec a "-") as [->|_]; [|reflexivity].
  rewrite hyphen_is_no_digit in Ha. discriminate.
Qed.

Lemma remove_hyphens_id (s : string) : has_hyphen s = false -> remove_hyphens s = s.
Proof.
  induction s as [|a s IH]; [reflexivity|]. cbn [has_hyphen remove_hyphens].
  intros H. apply orb_false_iff in H. destruct H as [Ha Hs].
  rewrite Ha, (IH Hs). reflexivity.
Qed.

Lemma all_digits_remove (s : string) :
  all_digits (remove_hyphens s) = true -> has_hyphen s = false -> all_digits s = true.
Proof. intros H Hn. rewrite (remove_hyphens_id _ Hn) in H. exact H. Qed.

Lemma isdigit_cons (a : ascii) (s : string) :
  isdigit (String a s) = is_digit a && all_digits s.
Proof. reflexivity. Qed.

Lemma isdigit_all (s : string) : isdigit s = true -> all_digits s = true.
Proof. unfold isdigit. intros H. apply andb_true_iff in H. apply H. Qed.

(** After the guard has passed, [int] raises exactly on a hyphen that is
    not in front. *)
Lemma int_of_str_guarded (cell : string) :
  isdigit (remove_hyphens cell) = true ->
  (int_of_str cell = Py.Raise Py.ValueError <-> has_inner_hyphen cell = true)
  /\ (has_inner_hyphen cell = false ->
      exists z, int_of_str cell = Py.Ok z).
Proof.
  destruct cell as [|a s]; [discriminate|].
  rewrite int_of_str_cons. cbn [has_inner_hyphen remove_hyphens].
  destruct (Ascii.eqb_spec a "-") as [->|Hne].
  - intros Hg. destruct (has_hyphen s) eqn:Eh.
    + assert (Hd : isdigit s = false).
      { destruct (isdigit s) eqn:E; [|reflexivity].
        apply isdigit_all, all_digits_no_hyphen in E. congruence. }
      rewrite Hd. split; [tauto | discriminate].
    + assert (Hd : isdigit s = true).
      { rewrite <- (remove_hyphens_id _ Eh). exact Hg. }
      rewrite Hd. split; [split; discriminate | eauto].
  - intros Hg. rewrite isdigit_cons in Hg |- *.
    apply andb_true_iff in Hg. destruct Hg as [Ha Hs]. rewrite Ha. cbn [andb].
    destruct (has_hyphen s) eqn:Eh.
    + assert (Hd : all_digits s = false).
      { destruct (all_digits s) eqn:E; [|reflexivity].
        apply all_digits_no_hyphen in E. congruence. }
      rewrite Hd. split; [tauto | discriminate].
    + rewrite (all_digits_remove _ Hs Eh). split; [split; discriminate | eauto].
Qed.

(** For a "Net Lines" cell of ASCII characters within the length that
    [int] accepts, the guarded conversion raises [ValueError] exactly when
    the cell is made of digits and hyphens, holds a digit, and holds a
    hyphen after its first character; every other cell converts, to 0
    when the guard rejects it. *)
Theorem net_lines_conversion_raises_on_inner_hyphens
    (row : gmap string string) (cell : string) :
  row !! "Net Lines" = Some cell ->
  ascii_only cell = true ->
  (String.length cell <= 4300)%nat ->
  (int_if_signed_digits row "Net Lines" = Py.Raise Py.ValueError
   <-> isdigit (remove_hyphens cell) = true /\ has_inner_hyphen cell = true)
  /\ (forall e, int_if_signed_digits row "Net Lines" = Py.Raise e -> e = Py.ValueError)
  /\ (isdigit (remove_hyphens cell) = false ->
      int_if_signed_digits row "Net Lines" = Py.Ok 0%Z)
  /\ (isdigit cell = true ->
      int_if_signed_digits row "Net Lines" = Py.Ok (digits_value 0 cell))
  /\ (forall digits, cell = String "-" digits -> isdigit digits = true ->
      int_if_signed_digits row "Net Lines" = Py.Ok (- digits_value 0 digits)%Z).
Proof.
  intros Hrow _ _. unfold int_if_signed_digits, get. rewrite Hrow.
  destruct (isdigit (remove_hyphens cell)) eqn:Hg.
  - destruct (int_of_str_guarded _ Hg) as [Hraise Hok]. split; [|split; [|split; [|split]]].
    + rewrite Hraise. tauto.
    + intros e He. destruct (has_inner_hyphen cell) eqn:Eh.
      * rewrite (proj2 Hraise eq_refl) in He. injection He as <-. reflexivity.
      * destruct (Hok eq_refl) as [z Hz]. rewrite Hz in He. discriminate.
    + discriminate.
    + intros Hd. destruct cell as [|a s]; [discriminate|].
      rewrite int_of_str_cons, Hd.
      destruct (Ascii.eqb_spec a "-") as [->|_]; [|reflexivity].
      rewrite isdigit_cons, hyphen_is_no_digit in Hd. discriminate.
    + intros digits -> Hd. rewrite int_of_str_cons, Hd. reflexivity.
  - split; [|split; [|split; [|split]]].
    + split; [discriminate | intros [H _]; discriminate].
    + discriminate.
    + reflexivity.
    + intros Hd. exfalso.
      rewrite (remove_hyphens_id _ (all_digits_no_hyphen _ (isdigit_all _ Hd))) in Hg.
      congruence.
    + intros digits -> Hd. exfalso. cbn [remove_hyphens] in Hg.
      change (Ascii.eqb "-" "-") with true in Hg. cbn iota in Hg.
      rewrite (remove_hyphens_id _ (all_digits_no_hyphen _ (isdigit_all _ Hd))) in Hg.
      congruence.
Qed.

Lemma net_lines_conversion_on_trailing_hyphen :
  csv_row "https://github.com/acme/widgets/pull/7" "7" "Add new feature" "5-"
    !! "Net Lines" = Some "5-"
  /\ ascii_only "5-" = true
  /\ (String.length "5-" <= 4300)%nat
  /\ int_if_signed_digits
       (csv_row "https://github.com/acme/widgets/pull/7" "7" "Add new feature" "5-")
       "Net Lines" = Py.Raise Py.ValueError.
Proof.
  assert (H1 : csv_row "https://github.com/acme/widgets/pull/7" "7" "Add new feature" "5-"
                 !! "Net Lines" = Some "5-") by (vm_compute; reflexivity).
  assert (H2 : ascii_only "5-" = true) by reflexivity.
  assert (H3 : (String.length "5-" <= 4300)%nat) by (simpl; lia).
  split; [exact H1|]. split; [exact H2|]. split; [exact H3|].
  apply (proj1 (net_lines_conversion_raises_on_inner_hyphens _ H1 H2 H3)).
  split; reflexivity.
Defined.

End NetLinesProps.

Module FetchOrderProps.
Import ScraperModels CLIAnalyzer.

Section Fetch.

Variable subprocess_run : list string -> option Py.CompletedProcess.
Variable json_loads : string -> option (list pr_json).
Variable fromisoformat : string -> option Py.datetime.
Variable fl : Q -> Q.

Lemma fetch_states_order (cmd states : list string) (repo username : string)
    (date_from date_to : option Py.datetime) (ran : list (list string)) :
  let cmds := map (fun state => (cmd ++ ["--state"; state])%list%string) states in
  exists tried rest,
    snd (fetch_states subprocess_run json_loads fromisoformat fl cmd states
           repo username date_from date_to ran) = (ran ++ tried)%list
    /\ cmds = (tried ++ rest)%list
    /\ (forall c, In c (removelast tried) -> exits_nonzero subprocess_run c)
    /\ (states <> [] -> tried <> [])
    /\ ((forall c, In c cmds -> exits_nonzero subprocess_run c) ->
        tried = cmds
        /\ fst (fetch_states subprocess_run json_loads fromisoformat fl cmd states
                  repo username date_from date_to ran) = []).
Proof.
  revert ran. induction states as [|state states IH]; intros ran cmds; subst cmds.
  - exists [], []. cbn. rewrite app_nil_r. repeat split; try tauto.
  - cbn [fetch_states map].
    set (state_cmd := (cmd ++ ["--state"; state])%list%string).
    destruct (subprocess_run state_cmd) as [result|] eqn:Erun.
    + destruct (Z.eqb_spec (Py.returncode result) 0) as [Hrc|Hrc]; cbn [negb].
      * exists [state_cmd], (map (fun st => (cmd ++ ["--state"; st])%list%string) states).
        split.
        { destruct (json_loads (Py.stdout result)); [|reflexivity].
          destruct date_from, date_to; cbn iota;
            try destruct (_filter_prs_by_date _ _ _); reflexivity. }
        split; [reflexivity|]. split; [intros c []|]. split; [discriminate|].
        intros Hall. exfalso. destruct (Hall state_cmd (or_introl eq_refl)) as (r & Hr & Hne).
        rewrite Erun in Hr. injection Hr as <-. contradiction.
      * destruct (IH (ran ++ [state_cmd])%list) as (tried & rest & Hsnd & Hcmds & Hfail & Hne & Hall).
        exists (state_cmd :: tried), rest. split.
        { rewrite Hsnd, <- app_assoc. reflexivity. }
        split; [cbn [app]; rewrite <- Hcmds; reflexivity|].
        split.
        { intros c Hc. destruct tried as [|t tried']; [destruct Hc|].
          cbn [removelast] in Hc. destruct Hc as [<-|Hc].
          - exists result. split; [exact Erun | exact Hrc].
          - apply Hfail. exact Hc. }
        split; [discriminate|].
        intros Hfails.
        destruct (Hall (fun c Hc => Hfails c (or_intror Hc))) as [Ht Hfst].
        split; [rewrite Ht; reflexivity | exact Hfst].
    + exists [state_cmd], (map (fun st => (cmd ++ ["--state"; st])%list%string) states).
      split; [reflexivity|]. split; [reflexivity|]. split; [intros c []|].
      split; [discriminate|].
      intros Hall. exfalso. destruct (Hall state_cmd (or_introl eq_refl)) as (r & Hr & _).
      rewrite Erun in Hr. discriminate.
Qed.

(** [_get_prs_for_repo] tries the selected states in the order closed,
    merged, open, each at most once; every call before the last one it
    made exited with a status other than 0; when all the calls do, every
    state is tried and the result is empty. *)
Theorem per_repository_fetch_tries_states_in_order (repo username : string)
    (date_from date_to : option Py.datetime) (include_closed include_merged : bool) :
  let cmds :=
    map (fun state => (list_cmd repo username ++ ["--state"; state])%list%string)
        (selected_states include_closed include_merged) in
  let returned :=
    _get_prs_for_repo subprocess_run json_loads fromisoformat fl repo username
      date_from date_to include_closed include_merged in
  (exists rest, cmds = (snd returned ++ rest)%list)
  /\ snd returned <> []
  /\ (forall c, In c (removelast (snd returned)) -> exits_nonzero subprocess_run c)
  /\ ((forall c, In c cmds -> exits_nonzero subprocess_run c) ->
      snd returned = cmds /\ fst returned = []).
Proof.
  intros cmds returned. subst cmds returned. unfold _get_prs_for_repo. cbv zeta.
  assert (Es : (let states := [] in
                let states := if include_closed then (states ++ ["closed"%string])%list
                              else states in
                let states := if include_merged then (states ++ ["merged"%string])%list
                              else states in
                (states ++ ["open"%string])%list)
               = selected_states include_closed include_merged).
  { destruct include_closed, include_merged; reflexivity. }
  cbv zeta in Es. rewrite Es.
  destruct (fetch_states_order (list_cmd repo username)
              (selected_states include_closed include_merged) repo username
              date_from date_to []) as (tried & rest & Hsnd & Hcmds & Hfail & Hne & Hall).
  cbn [app] in Hsnd. rewrite Hsnd.
  split; [exists rest; exact Hcmds|]. split.
  - apply Hne. destruct include_closed, include_merged; discriminate.
  - split; [exact Hfail|]. intros H. destruct (Hall H) as [Ht Hf].
    split; [exact Ht | exact Hf].
Qed.

End Fetch.

End FetchOrderProps.

Module TimeSeriesProps.
Import PatModels Analyzer PatModelsFacts ModelProps.
Import FloatFacts.

Local Open Scope Z_scope.

Lemma insert_int_In (x y : Z) (l : list Z) :
  In y (Py.insert_int x l) <-> y = x \/ In y l.
Proof.
  induction l as [|z l IH]; cbn [Py.insert_int In].
  - intuition congruence.
  - destruct (z <? x); cbn [In]; rewrite ?IH; intuition congruence.
Qed.

Lemma sorted_int_In (y : Z) (l : list Z) : In y (Py.sorted_int l) <-> In y l.
Proof.
  induction l as [|x l IH]; cbn [Py.sorted_int fold_right In]; [tauto|].
  fold (Py.sorted_int l). rewrite insert_int_In, IH. intuition congruence.
Qed.

Lemma insert_int_sorted (x : Z) (l : list Z) :
  StronglySorted Z.le l -> StronglySorted Z.le (Py.insert_int x l).
Proof.
  induction 1 as [|z l Hs IH Hall]; cbn [Py.insert_int].
  - constructor; constructor.
  - destruct (z <? x) eqn:E.
    + apply Z.ltb_lt in E. constructor; [exact IH|].
      apply Forall_forall. intros y Hy. apply insert_int_In in Hy.
      destruct Hy as [->|Hy]; [lia|].
      exact (proj1 (Forall_forall _ _) Hall y Hy).
    + apply Z.ltb_ge in E. constructor; [constructor; assumption|].
      constructor; [exact E|].
      apply Forall_forall. intros y Hy.
      pose proof (proj1 (Forall_forall _ _) Hall y Hy). lia.
Qed.

Lemma sorted_int_sorted (l : list Z) : StronglySorted Z.le (Py.sorted_int l).
Proof.
  induction l as [|x l IH]; cbn [Py.sorted_int fold_right]; [constructor|].
  apply insert_int_sorted. exact IH.
Qed.

Lemma insert_int_NoDup (x : Z) (l : list Z) :
  ~ In x l -> NoDup l -> NoDup (Py.insert_int x l).
Proof.
  induction l as [|z l IH]; cbn [Py.insert_int]; intros Hn Hd.
  - constructor; [tauto|constructor].
  - inversion Hd as [|? ? Hz Hd']; subst.
    destruct (z <? x).
    + constructor.
      * rewrite insert_int_In. cbn [In] in Hn. intuition congruence.
      * apply IH; [cbn [In] in Hn; tauto|exact Hd'].
    + constructor; [exact Hn|exact Hd].
Qed.

Lemma sorted_int_NoDup (l : list Z) : NoDup l -> NoDup (Py.sorted_int l).
Proof.
  induction 1 as [|x l Hx Hd IH]; cbn [Py.sorted_int fold_right]; [constructor|].
  apply insert_int_NoDup; [|exact IH].
  fold (Py.sorted_int l). rewrite sorted_int_In. exact Hx.
Qed.

(** The first entry of an increasing list is its least one, the last its
    greatest. *)
Lemma sorted_hd_least (l : list Z) (y : Z) :
  StronglySorted Z.le l -> In y l -> hd 0 l <= y.
Proof.
  intros Hs Hy. destruct Hs as [|x l Hs Hall]; [destruct Hy|].
  cbn [hd]. destruct Hy as [->|Hy]; [lia|].
  exact (proj1 (Forall_forall _ _) Hall y Hy).
Qed.

Lemma sorted_last_greatest (l : list Z) (y : Z) :
  StronglySorted Z.le l -> In y l -> y <= last l 0.
Proof.
  intros Hs. revert y.
  induction Hs as [|x l Hs IH Hall]; intros y Hy; [destruct Hy|].
  destruct l as [|z l].
  - destruct Hy as [->|[]]. cbn. lia.
  - change (last (x :: z :: l) 0) with (last (z :: l) 0).
    destruct Hy as [->|Hy]; [|exact (IH y Hy)].
    pose proof (proj1 (Forall_forall _ _) Hall z (or_introl eq_refl)).
    specialize (IH z (or_introl eq_refl)). lia.
Qed.

Lemma hd_In (l : list Z) : l <> [] -> In (hd 0 l) l.
Proof. destruct l; [congruence|]. intros _. left. reflexivity. Qed.

Lemma last_In (l : list Z) : l <> [] -> In (last l 0) l.
Proof.
  induction l as [|x l IH]; [congruence|]. intros _.
  destruct l as [|z l]; [left; reflexivity|].
  right. apply IH. discriminate.
Qed.

(** *** [value_counts] *)

Lemma value_counts_keys (periods : list Z) :
  map fst (value_counts periods) = Py.sorted_int (nodup Z.eq_dec periods).
Proof.
  unfold value_counts. rewrite map_map. cbn [fst]. apply map_id.
Qed.

Lemma value_counts_In (periods : list Z) (p : Z) :
  In p (map fst (value_counts periods)) <-> In p periods.
Proof. rewrite value_counts_keys, sorted_int_In. apply nodup_In. Qed.

Lemma value_counts_nil (periods : list Z) :
  value_counts periods = [] <-> periods = [].
Proof.
  split; intros H.
  - destruct periods as [|p l]; [reflexivity|].
    assert (Hin : In p (map fst (value_counts (p :: l))))
      by (apply value_counts_In; left; reflexivity).
    rewrite H in Hin. destruct Hin.
  - subst. reflexivity.
Qed.

Lemma count_at_map (f : Z -> Z) (p : Z) (keys : list Z) :
  count_at p (map (fun k => (k, f k)) keys) = if in_dec Z.eq_dec p keys then f p else 0.
Proof.
  induction keys as [|k keys IH]; cbn [map count_at]; [reflexivity|].
  destruct (Z.eqb_spec p k) as [->|Hne].
  - destruct (in_dec Z.eq_dec k (k :: keys)) as [_|Hn]; [reflexivity|].
    exfalso. apply Hn. left. reflexivity.
  - rewrite IH.
    destruct (in_dec Z.eq_dec p keys) as [Hi|Hn];
      destruct (in_dec Z.eq_dec p (k :: keys)) as [Hi'|Hn']; try reflexivity.
    + exfalso. apply Hn'. right. exact Hi.
    + exfalso. destruct Hi' as [E|Hi']; [congruence|tauto].
Qed.

(** [counts.get(period, 0)] is the number of timestamps of the period. *)
Lemma count_at_value_counts (periods : list Z) (p : Z) :
  count_at p (value_counts periods) = Z.of_nat (count_occ Z.eq_dec periods p).
Proof.
  unfold value_counts.
  rewrite (count_at_map (fun k => Z.of_nat (count_occ Z.eq_dec periods k))).
  destruct (in_dec Z.eq_dec p _) as [Hi|Hn]; [reflexivity|].
  rewrite sorted_int_In, nodup_In in Hn.
  apply (count_occ_not_In Z.eq_dec) in Hn. rewrite Hn. reflexivity.
Qed.

(** *** [period_range] *)

Lemma period_range_In (start stop p : Z) :
  In p (period_range start stop) <-> start <= p <= stop.
Proof.
  unfold period_range. rewrite in_map_iff. split.
  - intros [i [<- Hi]]. apply in_seq in Hi. lia.
  - intros H. exists (Z.to_nat (p - start)). split; [lia|].
    apply in_seq. lia.
Qed.

Lemma period_range_length (start stop : Z) :
  start <= stop -> len (period_range start stop) = stop - start + 1.
Proof.
  intros H. unfold len, period_range. rewrite length_map, length_seq. lia.
Qed.

Lemma period_range_NoDup (start stop : Z) : NoDup (period_range start stop).
Proof.
  unfold period_range. apply Finite.Injective_map_NoDup; [|apply seq_NoDup].
  intros i j H. lia.
Qed.

Lemma sum_indicator (x : Z) (keys : list Z) :
  NoDup keys ->
  Py.sum (map (fun k => if Z.eq_dec x k then 1 else 0) keys)
  = if in_dec Z.eq_dec x keys then 1 else 0.
Proof.
  induction 1 as [|k keys Hk Hd IH]; [reflexivity|].
  cbn [map]. rewrite sum_cons, IH.
  destruct (Z.eq_dec x k) as [->|Hne].
  - destruct (in_dec Z.eq_dec k keys) as [Hi|_]; [contradiction|].
    destruct (in_dec Z.eq_dec k (k :: keys)) as [_|Hn]; [reflexivity|].
    exfalso. apply Hn. left. reflexivity.
  - destruct (in_dec Z.eq_dec x keys) as [Hi|Hn];
      destruct (in_dec Z.eq_dec x (k :: keys)) as [Hi'|Hn']; try reflexivity.
    + exfalso. apply Hn'. right. exact Hi.
    + exfalso. destruct Hi' as [E|Hi']; [congruence|tauto].
Qed.

(** Over distinct keys that hold every period of a series, the counts
    add up to the length of the series. *)
Lemma counts_over_keys (periods keys : list Z) :
  NoDup keys -> (forall p, In p periods -> In p keys) ->
  Py.sum (map (fun p => Z.of_nat (count_occ Z.eq_dec periods p)) keys) = len periods.
Proof.
  intros Hd. induction periods as [|x l IH]; intros Hin.
  - cbn [count_occ]. unfold len. cbn [length]. clear.
    induction keys as [|k keys IHk]; [reflexivity|].
    cbn [map]. rewrite sum_cons, IHk. reflexivity.
  - rewrite (map_ext _ (fun k => (if Z.eq_dec x k then 1 else 0)
                                 + Z.of_nat (count_occ Z.eq_dec l k))).
    2: { intros k. cbn [count_occ]. destruct (Z.eq_dec x k); lia. }
    rewrite sum_map_add, IH by (intros p Hp; apply Hin; right; exact Hp).
    rewrite (sum_indicator x Hd).
    destruct (in_dec Z.eq_dec x keys) as [_|Hn].
    + unfold len. cbn [length]. lia.
    + exfalso. apply Hn. apply Hin. left. reflexivity.
Qed.

Lemma value_counts_total (periods : list Z) :
  Py.sum (map snd (value_counts periods)) = len periods.
Proof.
  unfold value_counts. rewrite map_map. cbn [snd].
  apply counts_over_keys.
  - apply sorted_int_NoDup. apply NoDup_nodup.
  - intros p Hp. apply sorted_int_In. apply nodup_In. exact Hp.
Qed.

Lemma insert_int_length (x : Z) (l : list Z) :
  length (Py.insert_int x l) = S (length l).
Proof.
  induction l as [|y l IH]; [reflexivity|].
  cbn [Py.insert_int]. destruct (y <? x); cbn [length]; [rewrite IH|]; reflexivity.
Qed.

Lemma sorted_int_length (l : list Z) : length (Py.sorted_int l) = length l.
Proof.
  induction l as [|x l IH]; [reflexivity|].
  cbn [Py.sorted_int fold_right]. fold (Py.sorted_int l).
  rewrite insert_int_length, IH. reflexivity.
Qed.

Lemma value_counts_length (periods : list Z) :
  length (value_counts periods) = length (nodup Z.eq_dec periods).
Proof.
  rewrite <- (length_map fst), value_counts_keys. apply sorted_int_length.
Qed.

Section Series.

Variable to_period : Py.datetime -> Z.
Variable str_of_period : Z -> string.
Variable fl : Q -> Q.

Local Abbreviation pr_periods := (Analyzer.pr_periods to_period).
Local Abbreviation commit_periods := (Analyzer.commit_periods to_period).
Local Abbreviation entry_of := (Analyzer.entry_of to_period str_of_period).

Lemma len_pos_iff (A : Type) (l : list A) : (len l >? 0) = negb (empty l).
Proof. destruct l; [reflexivity|]. unfold len. cbn [length empty negb]. apply Z.gtb_lt. lia. Qed.

Lemma empty_value_counts (periods : list Z) :
  empty (value_counts periods) = empty periods.
Proof.
  destruct periods as [|p l]; [reflexivity|].
  destruct (value_counts (p :: l)) eqn:E; [|reflexivity].
  apply value_counts_nil in E. discriminate.
Qed.

(** The bounds of the timeline: the least and the greatest period of
    two series that are not both empty. *)
Lemma series_bounds (a b : list Z) :
  a ++ b <> [] ->
  let first_of (counts other : list (Z * Z)) :=
    if (len counts >? 0)%Z then hd 0%Z (map fst counts) else hd 0%Z (map fst other) in
  let last_of (counts other : list (Z * Z)) :=
    if (len counts >? 0)%Z then last (map fst counts) 0%Z else last (map fst other) 0%Z in
  let start := min_period (first_of (value_counts a) (value_counts b))
                          (first_of (value_counts b) (value_counts a)) in
  let stop := max2 (last_of (value_counts a) (value_counts b))
                   (last_of (value_counts b) (value_counts a)) in
  In start (a ++ b) /\ In stop (a ++ b)
  /\ forall p, In p (a ++ b) -> start <= p <= stop.
Proof.
  intros Hne. cbv beta zeta.
  rewrite !len_pos_iff, !empty_value_counts, !value_counts_keys.
  assert (Ha : forall l : list Z, l <> [] -> Py.sorted_int (nodup Z.eq_dec l) <> []).
  { intros l Hl E. destruct l as [|x l]; [congruence|].
    assert (Hin : In x (Py.sorted_int (nodup Z.eq_dec (x :: l))))
      by (apply sorted_int_In, nodup_In; left; reflexivity).
    rewrite E in Hin. destruct Hin. }
  assert (Hhd : forall l : list Z, l <> [] ->
            In (hd 0 (Py.sorted_int (nodup Z.eq_dec l))) l
            /\ forall p, In p l -> hd 0 (Py.sorted_int (nodup Z.eq_dec l)) <= p).
  { intros l Hl. split.
    - apply (nodup_In Z.eq_dec), sorted_int_In, hd_In, Ha, Hl.
    - intros p Hp. apply sorted_hd_least; [apply sorted_int_sorted|].
      apply sorted_int_In, nodup_In, Hp. }
  assert (Hla : forall l : list Z, l <> [] ->
            In (last (Py.sorted_int (nodup Z.eq_dec l)) 0) l
            /\ forall p, In p l -> p <= last (Py.sorted_int (nodup Z.eq_dec l)) 0).
  { intros l Hl. split.
    - apply (nodup_In Z.eq_dec), sorted_int_In, last_In, Ha, Hl.
    - intros p Hp. apply sorted_last_greatest; [apply sorted_int_sorted|].
      apply sorted_int_In, nodup_In, Hp. }
  unfold min_period, max2.
  destruct a as [|x a]; destruct b as [|y b]; [exfalso; apply Hne; reflexivity| | |]; cbn [empty negb].
  - destruct (Hhd (y :: b)) as [H1 H2]; [discriminate|].
    destruct (Hla (y :: b)) as [H3 H4]; [discriminate|].
    rewrite Z.ltb_irrefl. rewrite Z.gtb_ltb, Z.ltb_irrefl.
    cbn [app]. repeat split; [exact H1|exact H3|apply H2; assumption|apply H4; assumption].
  - rewrite app_nil_r.
    destruct (Hhd (x :: a)) as [H1 H2]; [discriminate|].
    destruct (Hla (x :: a)) as [H3 H4]; [discriminate|].
    rewrite Z.ltb_irrefl. rewrite Z.gtb_ltb, Z.ltb_irrefl.
    repeat split; [exact H1|exact H3|apply H2; assumption|apply H4; assumption].
  - destruct (Hhd (x :: a)) as [H1 H2]; [discriminate|].
    destruct (Hla (x :: a)) as [H3 H4]; [discriminate|].
    destruct (Hhd (y :: b)) as [H5 H6]; [discriminate|].
    destruct (Hla (y :: b)) as [H7 H8]; [discriminate|].
    set (ha := hd 0 (Py.sorted_int (nodup Z.eq_dec (x :: a)))) in *.
    set (hb := hd 0 (Py.sorted_int (nodup Z.eq_dec (y :: b)))) in *.
    set (la := last (Py.sorted_int (nodup Z.eq_dec (x :: a))) 0) in *.
    set (lb := last (Py.sorted_int (nodup Z.eq_dec (y :: b))) 0) in *.
    rewrite Z.gtb_ltb.
    destruct (Z.ltb_spec hb ha) as [L1|L1]; destruct (Z.ltb_spec la lb) as [L2|L2];
      (split; [apply in_or_app; tauto|]); (split; [apply in_or_app; tauto|]);
      intros p Hp; apply in_app_or in Hp; destruct Hp as [Hp|Hp];
      try (specialize (H2 p Hp)); try (specialize (H4 p Hp));
      try (specialize (H6 p Hp)); try (specialize (H8 p Hp)); lia.
Qed.

Lemma series_unfold (self : DataAnalyzer) :
  empty (pr_df self) && empty (commit_df self) = false ->
  exists start stop,
    In start (pr_periods self ++ commit_periods self)
    /\ In stop (pr_periods self ++ commit_periods self)
    /\ (forall p, In p (pr_periods self ++ commit_periods self) -> start <= p <= stop)
    /\ get_time_series_data to_period str_of_period fl self
       = Some {| timeline := map (entry_of self) (period_range start stop);
                 total_periods := stop - start + 1;
                 avg_prs_per_period :=
                   if (len (value_counts (pr_periods self)) >? 0)%Z
                   then mean fl (map snd (value_counts (pr_periods self))) else 0%Q;
                 avg_commits_per_period :=
                   if (len (value_counts (commit_periods self)) >? 0)%Z
                   then mean fl (map snd (value_counts (commit_periods self)))
                   else 0%Q |}.
Proof.
  intros He.
  assert (Hne : pr_periods self ++ commit_periods self <> []).
  { unfold Analyzer.pr_periods, Analyzer.commit_periods.
    destruct (pr_df self); [|discriminate]. destruct (commit_df self); [discriminate|].
    discriminate. }
  pose proof (series_bounds _ _ Hne) as Hb. cbv beta zeta in Hb.
  destruct Hb as [H1 [H2 H3]].
  eexists. eexists. split; [exact H1|]. split; [exact H2|]. split; [exact H3|].
  unfold get_time_series_data. rewrite He.
  assert (Ep : (if negb (empty (pr_df self)) then map pr_created_at (pr_df self) else [])
               = map pr_created_at (pr_df self)) by (destruct (pr_df self); reflexivity).
  assert (Ec : (if negb (empty (commit_df self)) then map cm_authored_date (commit_df self)
                else []) = map cm_authored_date (commit_df self))
    by (destruct (commit_df self); reflexivity).
  rewrite Ep, Ec. fold (pr_periods self) (commit_periods self). cbv zeta.
  f_equal. f_equal.
  - apply map_ext. intros p. unfold Analyzer.entry_of.
    rewrite !count_at_value_counts. reflexivity.
  - apply period_range_length.
    destruct (H3 _ H1) as [_ L]. exact L.
Qed.

(** [get_time_series_data] returns the empty dict exactly when both
    frames are empty.  Otherwise its timeline has one entry for every
    period from the earliest to the latest period of any pull request
    (by creation) or commit (by authoring), both included and without a
    gap; the entry of a period holds the number of pull requests and of
    commits of that period and their sum, and [total_periods] is the
    number of entries. *)
Theorem time_series_spans_first_to_last_period (self : DataAnalyzer) :
  match get_time_series_data to_period str_of_period fl self with
  | None => pr_df self = [] /\ commit_df self = []
  | Some series =>
      exists start stop : Z,
        In start (pr_periods self ++ commit_periods self)
        /\ In stop (pr_periods self ++ commit_periods self)
        /\ (forall p, In p (pr_periods self ++ commit_periods self) -> start <= p <= stop)
        /\ timeline series = map (entry_of self) (period_range start stop)
        /\ (forall p, In p (period_range start stop) <-> start <= p <= stop)
        /\ total_periods series = stop - start + 1
        /\ total_periods series = len (timeline series)
  end.
Proof.
  destruct (empty (pr_df self) && empty (commit_df self)) eqn:He.
  - unfold get_time_series_data. rewrite He.
    apply andb_true_iff in He. destruct He as [E1 E2].
    destruct (pr_df self); [|discriminate]. destruct (commit_df self); [|discriminate].
    split; reflexivity.
  - destruct (series_unfold self He) as [start [stop [H1 [H2 [H3 E]]]]].
    rewrite E. exists start, stop. cbn [timeline total_periods].
    split; [exact H1|]. split; [exact H2|]. split; [exact H3|].
    split; [reflexivity|]. split; [intros p; apply period_range_In|].
    split; [reflexivity|].
    unfold len. rewrite length_map. symmetry.
    apply period_range_length. destruct (H3 _ H1) as [_ L]. exact L.
Qed.

(** Over the whole timeline the pull request counts add up to the
    number of pull requests, the commit counts to the number of commits
    and the totals to the number of both: no contribution is left out or
    counted twice.  Without a timeline there is nothing to count. *)
Theorem time_series_counts_every_contribution (self : DataAnalyzer) :
  match get_time_series_data to_period str_of_period fl self with
  | None => len (pr_df self) = 0 /\ len (commit_df self) = 0
  | Some series =>
      Py.sum (map tl_prs (timeline series)) = len (pr_df self)
      /\ Py.sum (map tl_commits (timeline series)) = len (commit_df self)
      /\ Py.sum (map tl_total (timeline series)) = len (pr_df self) + len (commit_df self)
  end.
Proof.
  destruct (empty (pr_df self) && empty (commit_df self)) eqn:He.
  - unfold get_time_series_data. rewrite He.
    apply andb_true_iff in He. destruct He as [E1 E2].
    destruct (pr_df self); [|discriminate]. destruct (commit_df self); [|discriminate].
    split; reflexivity.
  - destruct (series_unfold self He) as [start [stop [H1 [H2 [H3 E]]]]].
    rewrite E. cbn [timeline]. rewrite !map_map. cbn [tl_prs tl_commits tl_total entry_of].
    assert (Hp : Py.sum (map (fun p => Z.of_nat (count_occ Z.eq_dec (pr_periods self) p))
                             (period_range start stop)) = len (pr_df self)).
    { rewrite counts_over_keys.
      - unfold Analyzer.pr_periods, len. rewrite !length_map. reflexivity.
      - apply period_range_NoDup.
      - intros p Hin. apply period_range_In. apply H3. apply in_or_app. left. exact Hin. }
    assert (Hc : Py.sum (map (fun p => Z.of_nat (count_occ Z.eq_dec (commit_periods self) p))
                             (period_range start stop)) = len (commit_df self)).
    { rewrite counts_over_keys.
      - unfold Analyzer.commit_periods, len. rewrite !length_map. reflexivity.
      - apply period_range_NoDup.
      - intros p Hin. apply period_range_In. apply H3. apply in_or_app. right. exact Hin. }
    split; [exact Hp|]. split; [exact Hc|].
    rewrite sum_map_add, Hp, Hc. reflexivity.
Qed.

End Series.

Section Averages.

Variable to_period : Py.datetime -> Z.
Variable str_of_period : Z -> string.
Variable fl : Q -> Q.
Hypothesis fl_ok : Py.float_rounding fl.

Local Open Scope Q_scope.

(** With pull requests, [avg_prs_per_period] is the number of pull
    requests divided by the number of periods that have a pull request,
    not by [total_periods]: it is at least 1, however many empty periods
    the timeline spans. *)
Theorem time_series_average_skips_empty_periods (self : DataAnalyzer) :
  pr_df self <> [] ->
  (len (pr_df self) <= 2 ^ 53)%Z ->
  match get_time_series_data to_period str_of_period fl self with
  | None => False
  | Some series =>
      avg_prs_per_period series
      == fl (inject_Z (len (pr_df self))
             / inject_Z (len (nodup Z.eq_dec (Analyzer.pr_periods to_period self))))
      /\ 1 <= avg_prs_per_period series
  end.
Proof.
  intros Hne Hsz.
  assert (He : empty (pr_df self) && empty (commit_df self) = false)
    by (destruct (pr_df self); [congruence|reflexivity]).
  destruct (series_unfold to_period str_of_period fl self He)
    as [start [stop [_ [_ [_ E]]]]].
  rewrite E. cbn [avg_prs_per_period].
  set (periods := Analyzer.pr_periods to_period self).
  assert (Hlen : len periods = len (pr_df self))
    by (unfold periods, Analyzer.pr_periods, len; rewrite !length_map; reflexivity).
  assert (Hk : len (value_counts periods) = len (nodup Z.eq_dec periods))
    by (unfold len; rewrite value_counts_length; reflexivity).
  assert (Hpos : (0 < len (nodup Z.eq_dec periods))%Z).
  { unfold len. destruct (nodup Z.eq_dec periods) eqn:En; [|cbn [length]; lia].
    exfalso. destruct (pr_df self) as [|row rows] eqn:Ed; [congruence|].
    assert (Hin : In (to_period (pr_created_at row)) (nodup Z.eq_dec periods)).
    { apply nodup_In. unfold periods, Analyzer.pr_periods. rewrite Ed. left. reflexivity. }
    rewrite En in Hin. destruct Hin. }
  assert (Hle : (len (nodup Z.eq_dec periods) <= len periods)%Z).
  { unfold len. apply inj_le.
    apply NoDup_incl_length; [apply NoDup_nodup|].
    intros p Hp. apply nodup_In in Hp. exact Hp. }
  replace (len (value_counts periods) >? 0)%Z with true
    by (symmetry; rewrite Hk; apply Z.gtb_lt; lia).
  assert (Hk' : len (map snd (value_counts periods)) = len (nodup Z.eq_dec periods))
    by (unfold len; rewrite length_map, value_counts_length; reflexivity).
  unfold mean. rewrite value_counts_total, Hk', Hlen.
  assert (Hfl : Py.float fl (len (pr_df self)) == inject_Z (len (pr_df self))).
  { unfold Py.float. apply (ScraperModelsProps.fl_int fl_ok).
    assert (0 <= len (pr_df self))%Z by (unfold len; lia). lia. }
  assert (Hq : fl (Py.float fl (len (pr_df self)) / inject_Z (len (nodup Z.eq_dec periods)))
               == fl (inject_Z (len (pr_df self)) / inject_Z (len (nodup Z.eq_dec periods)))).
  { apply (ScraperModelsProps.fl_comp fl_ok). rewrite Hfl. reflexivity. }
  split; [exact Hq|].
  rewrite Hq.
  change 1 with (inject_Z 1).
  apply (@FloatFacts.fl_ge_int fl fl_ok _ 1%Z); [simpl; lia|].
  apply Qle_shift_div_l.
  - change 0 with (inject_Z 0). rewrite <- Zlt_Qlt. exact Hpos.
  - change (inject_Z 1) with 1. rewrite Qmult_1_l. rewrite <- Zle_Qle.
    rewrite <- Hlen. exact Hle.
Qed.

End Averages.

(** The pull request and the commit of the sample fall on the same day:
    the daily timeline has one entry. *)
Lemma time_series_average_on_sample :
  Py.float_rounding Py.exact
  /\ match get_time_series_data Py.date Py.str_of_int Py.exact
             (__init__ sample_analysis_result) with
     | None => False
     | Some series => total_periods series = 1%Z /\ (1 <= avg_prs_per_period series)%Q
     end.
Proof.
  split; [exact ScraperModelsProps.exact_is_float_rounding|].
  pose proof (@time_series_average_skips_empty_periods Py.date Py.str_of_int Py.exact
                ScraperModelsProps.exact_is_float_rounding
                (__init__ sample_analysis_result)) as H.
  destruct (get_time_series_data Py.date Py.str_of_int Py.exact
              (__init__ sample_analysis_result)) as [series|] eqn:E.
  - split.
    + vm_compute in E. injection E as <-. reflexivity.
    + apply H; [discriminate|vm_compute; discriminate].
  - apply H; [discriminate|vm_compute; discriminate].
Defined.

End TimeSeriesProps.
